(** * A shallow embedding of the MCP calculator: tool server, HTTP session
      client, tool registry and argument coercion.

    Python objects that travel through the code as [dict[str, Any]] are
    embedded in one type of JSON-shaped values.  Dictionaries keep their
    insertion order (the code prints them with [str]), so they are association
    lists updated in place.  Python exceptions are values of [pyexn]; a
    computation that may raise returns an [outcome].  A [str] is a sequence of
    code points below 256. *)

From Stdlib Require Import ZArith List String Ascii Bool Lia DecimalString Sorted.
From Stdlib Require Import Floats.PrimFloat Floats.SpecFloat Floats.FloatOps.
Import ListNotations.
Local Open Scope string_scope.
Local Open Scope Z_scope.

#[local] Set Warnings "-register-all".

(** ** Python values *)

Inductive value : Type :=
| VNone
| VBool (b : bool)
| VInt (z : Z)
| VFloat (f : float)
| VStr (s : string)
| VList (l : list value)
| VDict (d : list (string * value)).

Definition dict : Type := list (string * value).

(** ** Exceptions and outcomes *)

(** [MCPConnectionError p c] and [ToolExecutionError p c] carry the message
    [p ++ str(c)]: the literal text of the f-string and the exception that was
    formatted into it, if any. *)
Inductive pyexn : Type :=
| ValueError (msg : string)
| TypeError
| AttributeError
| KeyError (key : string)
| IndexError
| JSONDecodeError
| HTTPError (detail : string)
| MCPConnectionError (prefix : string) (cause : option pyexn)
| ToolExecutionError (prefix : string) (cause : option pyexn).

Inductive outcome (A : Type) : Type :=
| Ok (a : A)
| Raise (e : pyexn).

Arguments Ok {A} a.
Arguments Raise {A} e.

Definition raises {A} (o : outcome A) : bool :=
  match o with Ok _ => false | Raise _ => true end.

Definition obind {A B} (o : outcome A) (k : A -> outcome B) : outcome B :=
  match o with Ok a => k a | Raise e => Raise e end.

Declare Scope outcome_scope.
Delimit Scope outcome_scope with outcome.
Notation "'let?' x ':=' o 'in' k" := (obind o (fun x => k))
  (at level 10, x name, o at level 100, k at level 200) : outcome_scope.

(** ** Dictionaries *)

Module Dict.

Fixpoint get (k : string) (d : dict) : option value :=
  match d with
  | [] => None
  | (k', v) :: d' => if String.eqb k k' then Some v else get k d'
  end.

Definition mem (k : string) (d : dict) : bool :=
  match get k d with Some _ => true | None => false end.

(** [d.get(k, default)] *)
Definition get_default (k : string) (default : value) (d : dict) : value :=
  match get k d with Some v => v | None => default end.

(** [d[k] = v]: an existing key keeps its position, a new one goes last. *)
Fixpoint set (k : string) (v : value) (d : dict) : dict :=
  match d with
  | [] => [(k, v)]
  | (k', v') :: d' =>
      if String.eqb k k' then (k', v) :: d' else (k', v') :: set k v d'
  end.

Definition keys (d : dict) : list string := map fst d.
Definition values (d : dict) : list value := map snd d.

(** A Python dict never holds a key twice. *)
Definition well_formed (d : dict) : Prop := NoDup (keys d).

End Dict.

(** ** Operations of the Python data model on values *)

(** [bool(v)] *)
Definition truthy (v : value) : bool :=
  match v with
  | VNone => false
  | VBool b => b
  | VInt z => negb (z =? 0)
  | VFloat f => negb (PrimFloat.eqb f PrimFloat.zero)
  | VStr s => negb (String.eqb s "")
  | VList l => match l with [] => false | _ => true end
  | VDict d => match d with [] => false | _ => true end
  end.

Fixpoint is_substring (p s : string) : bool :=
  String.prefix p s ||
  match s with
  | EmptyString => false
  | String _ s' => is_substring p s'
  end.

(** [k in v] for a string [k] *)
Definition py_contains (k : string) (v : value) : outcome bool :=
  match v with
  | VDict d => Ok (Dict.mem k d)
  | VList l =>
      Ok (existsb (fun x => match x with VStr s => String.eqb k s | _ => false end) l)
  | VStr s => Ok (is_substring k s)
  | _ => Raise TypeError
  end.

(** [v[k]] for a string [k] *)
Definition py_getitem (k : string) (v : value) : outcome value :=
  match v with
  | VDict d => match Dict.get k d with Some x => Ok x | None => Raise (KeyError k) end
  | _ => Raise TypeError
  end.

(** [v.get(k, default)] *)
Definition py_get (k : string) (default : value) (v : value) : outcome value :=
  match v with
  | VDict d => Ok (Dict.get_default k default d)
  | _ => Raise AttributeError
  end.

(** [v.items()] *)
Definition py_items (v : value) : outcome (list (string * value)) :=
  match v with
  | VDict d => Ok d
  | _ => Raise AttributeError
  end.

(** [v.copy()] *)
Definition py_copy (v : value) : outcome value :=
  match v with
  | VDict d => Ok (VDict d)
  | VList l => Ok (VList l)
  | _ => Raise AttributeError
  end.

(** [v[k] = x] for a string [k] *)
Definition py_setitem (k : string) (x : value) (v : value) : outcome value :=
  match v with
  | VDict d => Ok (VDict (Dict.set k x d))
  | _ => Raise TypeError
  end.

(** What [for x in v] iterates over. *)
Definition py_iter (v : value) : outcome (list value) :=
  match v with
  | VList l => Ok l
  | VDict d => Ok (map VStr (Dict.keys d))
  | VStr s => Ok (map (fun c => VStr (String c EmptyString)) (list_ascii_of_string s))
  | _ => Raise TypeError
  end.

(** ** Builtins of the Python runtime the code calls

    [json.loads] on a [str] ([None] is [JSONDecodeError]), [repr], and the
    constructors [int] and [float] on a [str] ([None] is [ValueError]). *)
Class Builtins : Type := {
  json_loads : string -> option value;
  py_repr : value -> string;
  py_int : string -> option Z;
  py_float : string -> option float
}.

Section WithBuiltins.
Context {B : Builtins}.

(** [str(v)] *)
Definition py_str (v : value) : string :=
  match v with
  | VStr s => s
  | _ => py_repr v
  end.

(** [json.loads(v)] *)
Definition py_json_loads (v : value) : outcome value :=
  match v with
  | VStr s =>
      match json_loads s with
      | Some r => Ok r
      | None => Raise JSONDecodeError
      end
  | _ => Raise TypeError
  end.

End WithBuiltins.

(** ** The calculator server (server/py-calculator/calculator) *)

Module Calculator.

Local Open Scope outcome_scope.

(** [class Operation(ABC)]: the one abstract method [execute]. *)
Record Operation : Type := { execute : float -> float -> outcome float }.

Definition Addition : Operation :=
  {| execute := fun a b => Ok (a + b)%float |}.

Definition Subtraction : Operation :=
  {| execute := fun a b => Ok (a - b)%float |}.

Definition Multiplication : Operation :=
  {| execute := fun a b => Ok (a * b)%float |}.

(** [if b == 0: raise ValueError("Cannot divide by zero")]; [return a / b] *)
Definition Division : Operation :=
  {| execute := fun a b =>
       if PrimFloat.eqb b PrimFloat.zero
       then Raise (ValueError "Cannot divide by zero")
       else Ok (a / b)%float |}.

(** [Calculator.__init__]: the table of operations. *)
Definition _operations : list (string * Operation) :=
  [("add", Addition); ("subtract", Subtraction);
   ("multiply", Multiplication); ("divide", Division)].

Fixpoint lookup (operation : string) (ops : list (string * Operation))
  : option Operation :=
  match ops with
  | [] => None
  | (k, op) :: ops' => if String.eqb operation k then Some op else lookup operation ops'
  end.

(** [Calculator.calculate] on float arguments, which is what the tools of the
    server pass ([a: float], [b: float]): [float(a)], [float(b)] and
    [float(result)], taken for the tracing span, are then the floats
    themselves, and the span records and re-raises.  An [int], which [Number]
    admits too, is outside this definition: [float] of a large one raises
    [OverflowError]. *)
Definition calculate (operation : string) (a b : float) : outcome float :=
  match lookup operation _operations with
  | None => Raise (ValueError ("Unknown operation: " ++ operation))
  | Some op => execute op a b
  end.

(** [add]: an exception of [calculate] is counted and re-raised. *)
Definition add (a b : option float) : outcome value :=
  match a, b with
  | Some x, Some y =>
      let? result := calculate "add" x y in
      Ok (VDict [("result", VFloat result)])
  | _, _ =>
      Ok (VDict [("error", VStr "Both numbers are required for addition")])
  end.

Definition subtract (a b : option float) : outcome value :=
  match a, b with
  | Some x, Some y =>
      let? result := calculate "subtract" x y in
      Ok (VDict [("result", VFloat result)])
  | _, _ =>
      Ok (VDict [("error", VStr "Both numbers are required for subtraction")])
  end.

Definition multiply (a b : option float) : outcome value :=
  match a, b with
  | Some x, Some y =>
      let? result := calculate "multiply" x y in
      Ok (VDict [("result", VFloat result)])
  | _, _ =>
      Ok (VDict [("error", VStr "Both numbers are required for multiplication")])
  end.

(** [divide]: a [ValueError] of [calculate] becomes [{"error": str(e)}]. *)
Definition divide (a b : option float) : outcome value :=
  match a, b with
  | Some x, Some y =>
      match calculate "divide" x y with
      | Ok result => Ok (VDict [("result", VFloat result)])
      | Raise (ValueError msg) => Ok (VDict [("error", VStr msg)])
      | Raise e => Raise e
      end
  | _, _ =>
      Ok (VDict [("error", VStr "Both numbers are required for division")])
  end.

End Calculator.

(** ** Argument coercion (client/py-calculator/app/services/chat_service.py) *)

Module ChatService.
Section WithBuiltins.
Context {B : Builtins}.

(** The body of the loop: [int(value)], then [float(value)], then the
    value itself; anything that is not a [str] is kept. *)
Definition coerce_value (val : value) : value :=
  match val with
  | VStr s =>
      match py_int s with
      | Some z => VInt z
      | None =>
          match py_float s with
          | Some f => VFloat f
          | None => val
          end
      end
  | _ => val
  end.

(** [coerced = {}], then [coerced[key] = ...] for each item in order. *)
Definition _coerce_numeric_arguments (arguments : dict) : dict :=
  fold_left
    (fun coerced item => Dict.set (fst item) (coerce_value (snd item)) coerced)
    arguments [].

End WithBuiltins.
End ChatService.

(** ** The tool registry (client/py-calculator/app/infrastructure/tool_registry.py) *)

Module ToolRegistry.

Local Open Scope outcome_scope.

(** The loop of [_transform_input_schema] over [properties.items()]. *)
Fixpoint enhance_properties (items : list (string * value)) (enhanced_properties : dict)
  : outcome dict :=
  match items with
  | [] => Ok enhanced_properties
  | (prop_name, prop_schema) :: items' =>
      let? enhanced_prop := py_copy prop_schema in
      let? has_description := py_contains "description" enhanced_prop in
      let? enhanced_prop :=
        (if negb has_description
         then py_setitem "description"
                (VStr ("The " ++ prop_name ++ " parameter")) enhanced_prop
         else Ok enhanced_prop) in
      enhance_properties items' (Dict.set prop_name enhanced_prop enhanced_properties)
  end.

Definition empty_parameters : value :=
  VDict [("type", VStr "object"); ("properties", VDict []); ("required", VList [])].

Definition _transform_input_schema (input_schema : value) : outcome value :=
  if negb (truthy input_schema) then Ok empty_parameters
  else
    let? properties := py_get "properties" (VDict []) input_schema in
    let? items := py_items properties in
    let? enhanced_properties := enhance_properties items [] in
    let? required := py_get "required" (VList []) input_schema in
    Ok (VDict [("type", VStr "object");
               ("properties", VDict enhanced_properties);
               ("required", required)]).

(** One round of the loop of [to_ollama_format]. *)
Definition ollama_tool (tool : value) : outcome value :=
  let? name := py_getitem "name" tool in
  let? description := py_get "description" (VStr "") tool in
  let? input_schema := py_get "inputSchema" (VDict []) tool in
  let? parameters := _transform_input_schema input_schema in
  Ok (VDict [("type", VStr "function");
             ("function", VDict [("name", name);
                                 ("description", description);
                                 ("parameters", parameters)])]).

Fixpoint to_ollama_format_loop (tools : list value) : outcome (list value) :=
  match tools with
  | [] => Ok []
  | tool :: tools' =>
      let? t := ollama_tool tool in
      let? ts := to_ollama_format_loop tools' in
      Ok (t :: ts)
  end.

(** [self._tools] is the dictionary from tool name to tool. *)
Definition to_ollama_format (_tools : dict) : outcome (list value) :=
  to_ollama_format_loop (Dict.values _tools).

(** *** The function schema in the words of the specification *)

(** A property keeps its schema; one without a description gets
    ["The <propertyName> parameter"]. *)
Definition spec_property (property : string * value) : string * value :=
  match property with
  | (prop_name, VDict prop_schema) =>
      if Dict.mem "description" prop_schema then property
      else
        (prop_name,
         VDict (prop_schema
                  ++ [("description", VStr ("The " ++ prop_name ++ " parameter"))])%list)
  | _ => property
  end.

(** The parameters of a tool: the empty object schema when [inputSchema] is
    empty or absent, otherwise each property by [spec_property] and the
    [required] list as it is (empty if absent). *)
Definition spec_parameters (input_schema : value) : value :=
  match input_schema with
  | VDict ((_ :: _) as schema) =>
      VDict [("type", VStr "object");
             ("properties",
               VDict (map spec_property
                        match Dict.get "properties" schema with
                        | Some (VDict properties) => properties
                        | _ => []
                        end));
             ("required", Dict.get_default "required" (VList []) schema)]
  | _ => empty_parameters
  end.

Definition spec_function_schema (tool : value) : value :=
  match tool with
  | VDict t =>
      VDict [("type", VStr "function");
             ("function",
               VDict [("name", Dict.get_default "name" VNone t);
                      ("description", Dict.get_default "description" (VStr "") t);
                      ("parameters",
                        spec_parameters (Dict.get_default "inputSchema" (VDict []) t))])]
  | _ => VNone
  end.

(** *** Tool definitions of the data model *)

Definition is_dict (v : value) : Prop :=
  match v with VDict _ => True | _ => False end.

(** [properties] maps each parameter name, once, to an object. *)
Definition properties_ok (properties : dict) : Prop :=
  Dict.well_formed properties /\ Forall (fun property => is_dict (snd property)) properties.

(** [inputSchema] is empty, or an object whose [properties], if any, are
    [properties_ok]. *)
Definition input_schema_ok (input_schema : value) : Prop :=
  truthy input_schema = false \/
  match input_schema with
  | VDict schema =>
      match Dict.get "properties" schema with
      | None => True
      | Some (VDict properties) => properties_ok properties
      | Some _ => False
      end
  | _ => False
  end.

(** A tool definition: an object with a [name] and, if any, an [inputSchema]
    that is [input_schema_ok]. *)
Definition tool_definition (tool : value) : Prop :=
  match tool with
  | VDict t =>
      Dict.mem "name" t = true /\
      input_schema_ok (Dict.get_default "inputSchema" (VDict []) t)
  | _ => False
  end.

(** *** The registry object

    [self._tools] maps the name of a tool to the tool.  A name is whatever
    [tool.get("name")] gives, so the keys are values: a string equals only the
    same string, numbers and booleans are equal when they are equal as
    numbers, and lists and dictionaries cannot be keys. *)

Definition registry : Type := list (value * value).

(** [hash(v)] does not raise. *)
Definition hashable (v : value) : bool :=
  match v with
  | VList _ | VDict _ => false
  | _ => true
  end.

(** The integer a float is equal to, if any. *)
Definition float_integer (f : float) : option Z :=
  match Prim2SF f with
  | S754_zero _ => Some 0
  | S754_finite s m e =>
      let magnitude :=
        if 0 <=? e then Some (Zpos m * 2 ^ e)
        else if Zpos m mod 2 ^ (- e) =? 0 then Some (Zpos m / 2 ^ (- e))
        else None in
      match magnitude with
      | Some z => Some (if s then - z else z)
      | None => None
      end
  | _ => None
  end.

(** Two keys are the same key.  The floats of a decoded JSON text that are
    not numbers are one object, so they are one key. *)
Definition key_eqb (a b : value) : bool :=
  let number v :=
    match v with
    | VBool x => Some (inl (if x then 1 else 0))
    | VInt z => Some (inl z)
    | VFloat f => Some (inr f)
    | _ => None
    end in
  match a, b with
  | VNone, VNone => true
  | VStr s, VStr t => String.eqb s t
  | _, _ =>
      match number a, number b with
      | Some (inl x), Some (inl y) => x =? y
      | Some (inl x), Some (inr f) | Some (inr f), Some (inl x) =>
          match float_integer f with
          | Some y => x =? y
          | None => false
          end
      | Some (inr f), Some (inr g) =>
          PrimFloat.eqb f g || (PrimFloat.is_nan f && PrimFloat.is_nan g)
      | _, _ => false
      end
  end.

(** [self._tools.get(key)] *)
Fixpoint lookup (key : value) (_tools : registry) : option value :=
  match _tools with
  | [] => None
  | (k, tool) :: rest => if key_eqb key k then Some tool else lookup key rest
  end.

(** [self._tools[key] = tool] *)
Fixpoint store (key tool : value) (_tools : registry) : registry :=
  match _tools with
  | [] => [(key, tool)]
  | (k, t) :: rest =>
      if key_eqb key k then (k, tool) :: rest else (k, t) :: store key tool rest
  end.

(** [register_tool]: what it returns or raises, and the registry after it. *)
Definition register_tool (tool : value) (_tools : registry) : outcome unit * registry :=
  match py_get "name" VNone tool with
  | Raise e => (Raise e, _tools)
  | Ok name =>
      if negb (truthy name) then (Ok tt, _tools)
      else if hashable name then (Ok tt, store name tool _tools)
      else (Raise TypeError, _tools)
  end.

Fixpoint register_tools (tools : list value) (_tools : registry) : outcome unit * registry :=
  match tools with
  | [] => (Ok tt, _tools)
  | tool :: rest =>
      match register_tool tool _tools with
      | (Ok _, _tools') => register_tools rest _tools'
      | (Raise e, _tools') => (Raise e, _tools')
      end
  end.

(** What [get_tool] returns, or the message of the [ToolNotFoundError] it
    raises. *)
Inductive found : Type :=
| Found (tool : value)
| ToolNotFoundError (message : string).

Definition get_tool (name : string) (_tools : registry) : found :=
  match lookup (VStr name) _tools with
  | Some tool =>
      if truthy tool then Found tool
      else ToolNotFoundError ("Tool '" ++ name ++ "' not found in registry")
  | None => ToolNotFoundError ("Tool '" ++ name ++ "' not found in registry")
  end.

Definition get_all_tools (_tools : registry) : list value := map snd _tools.

(** [tool_exists] and [__contains__] *)
Definition tool_exists (name : string) (_tools : registry) : bool :=
  match lookup (VStr name) _tools with
  | Some _ => true
  | None => false
  end.

Definition clear (_tools : registry) : registry := [].

Definition __len__ (_tools : registry) : nat := List.length _tools.

(** [to_ollama_format] on the registry object: the loop over
    [self._tools.values()]. *)
Definition to_ollama_format_registry (_tools : registry) : outcome (list value) :=
  to_ollama_format_loop (get_all_tools _tools).

(** The name of a tool, when it is a string. *)
Definition tool_name (tool : value) : option string :=
  match tool with
  | VDict t =>
      match Dict.get "name" t with
      | Some (VStr name) => Some name
      | _ => None
      end
  | _ => None
  end.

End ToolRegistry.

(** ** The conversation history
       (client/calculator-client/app/services/conversation_manager.py) *)

Module ConversationManager.

Inductive MessageRole : Type := USER | ASSISTANT | TOOL.

(** [role.value] *)
Definition role_value (role : MessageRole) : string :=
  match role with
  | USER => "user"
  | ASSISTANT => "assistant"
  | TOOL => "tool"
  end.

(** [Message]; the timestamp is a number of seconds. *)
Record Message : Type := {
  role : MessageRole;
  content : string;
  timestamp : Z;
  tool_call_id : option string;
  tool_name : option string
}.

Record manager : Type := {
  max_history : Z;
  _messages : list Message
}.

Definition __init__ (max_history : Z) : manager :=
  {| max_history := max_history; _messages := [] |}.

(** The slice [l[-n:]]: the last [n] items for a positive [n], everything for
    [n = 0], and [l[k:]] for [n = -k < 0]. *)
Definition tail_slice {A : Type} (n : Z) (l : list A) : list A :=
  if 0 <? n then skipn (List.length l - Z.to_nat n) l
  else skipn (Z.to_nat (- n)) l.

Definition add_message (message : Message) (m : manager) : manager :=
  let messages := (_messages m ++ [message])%list in
  if max_history m <? Z.of_nat (List.length messages)
  then {| max_history := max_history m; _messages := tail_slice (max_history m) messages |}
  else {| max_history := max_history m; _messages := messages |}.

Definition get_history (limit : option Z) (m : manager) : list Message :=
  match limit with
  | None => _messages m
  | Some n => if 0 <? n then tail_slice n (_messages m) else []
  end.

(** [if s:] for an optional string *)
Definition present (s : option string) : option string :=
  match s with
  | Some x => if String.eqb x "" then None else Some x
  | None => None
  end.

(** One round of the loop of [to_ollama_format]. *)
Definition ollama_msg (msg : Message) : dict :=
  let ollama_msg := [("role", VStr (role_value (role msg))); ("content", VStr (content msg))] in
  let ollama_msg :=
    match present (tool_call_id msg) with
    | Some id => Dict.set "tool_call_id" (VStr id) ollama_msg
    | None => ollama_msg
    end in
  match present (tool_name msg) with
  | Some name => Dict.set "name" (VStr name) ollama_msg
  | None => ollama_msg
  end.

Definition to_ollama_format (limit : option Z) (m : manager) : list dict :=
  map ollama_msg (get_history limit m).

Definition clear (m : manager) : manager :=
  {| max_history := max_history m; _messages := [] |}.

Definition __len__ (m : manager) : nat := List.length (_messages m).

Definition is_empty (m : manager) : bool := Nat.eqb (List.length (_messages m)) 0.

(** The messages added one after the other. *)
Definition add_messages (messages : list Message) (m : manager) : manager :=
  fold_left (fun m message => add_message message m) messages m.

End ConversationManager.

(** ** String methods used by the client *)

(** [str.isspace] on one character.  A character of the model is one below
    U+0100, so that a string is a text of such characters. *)
Definition is_space (c : ascii) : bool :=
  let n := nat_of_ascii c in
  ((9 <=? n) && (n <=? 13) || (28 <=? n) && (n <=? 32) || (n =? 133) || (n =? 160))%nat.

Fixpoint lstrip (s : string) : string :=
  match s with
  | EmptyString => EmptyString
  | String c s' => if is_space c then lstrip s' else s
  end.

Fixpoint rstrip (s : string) : string :=
  match s with
  | EmptyString => EmptyString
  | String c s' =>
      match rstrip s' with
      | EmptyString => if is_space c then EmptyString else String c EmptyString
      | r => String c r
      end
  end.

(** [s.strip()] *)
Definition strip (s : string) : string := rstrip (lstrip s).

Definition newline : ascii := ascii_of_nat 10.

(** [s.split('\n')] *)
Fixpoint split_lines (s : string) : list string :=
  match s with
  | EmptyString => [EmptyString]
  | String c s' =>
      if Ascii.eqb c newline then EmptyString :: split_lines s'
      else
        match split_lines s' with
        | line :: lines => String c line :: lines
        | [] => [String c EmptyString]
        end
  end.

(** [trimmed l1 l2]: the lines [l1] are the lines [l2] cut somewhere in a line. *)
Inductive trimmed : list string -> list string -> Prop :=
| trimmed_last (a1 a2 : string) (t2 : list string) :
    String.prefix a1 a2 = true -> trimmed ([a1])%list (a2 :: t2)%list
| trimmed_cons (a : string) (t1 t2 : list string) :
    trimmed t1 t2 -> trimmed (a :: t1)%list (a :: t2)%list.

(** [c in s] for one character *)
Fixpoint has_char (c : ascii) (s : string) : bool :=
  match s with
  | EmptyString => false
  | String c' s' => Ascii.eqb c c' || has_char c s'
  end.

(** [s[n:]] *)
Fixpoint drop (n : nat) (s : string) : string :=
  match n, s with
  | O, _ => s
  | S n', String _ s' => drop n' s'
  | S _, EmptyString => EmptyString
  end.

(** ** What the JSON grammar says of a text [json.loads] decodes

    A JSON text stands between optional whitespace; its first character is one
    that starts a value: a brace, a bracket, a quote, a minus sign, a digit, or
    the first letter of [true], [false], [null], [NaN] and [Infinity]. *)

Definition json_start (c : ascii) : bool :=
  let n := nat_of_ascii c in
  ((n =? 123) || (n =? 91) || (n =? 34) || (n =? 45) || (48 <=? n) && (n <=? 57)
   || (n =? 116) || (n =? 102) || (n =? 110) || (n =? 78) || (n =? 73))%nat.

Record json_decoder (B : Builtins) : Prop := {
  loads_rstrip :
    forall s v, json_loads s = Some v -> json_loads (rstrip s) = Some v;
  loads_start :
    forall s v, json_loads s = Some v ->
                exists c rest, lstrip s = String c rest /\ json_start c = true
}.

(** ** The HTTP session client
       (client/py-calculator/app/infrastructure/mcp_client.py) *)

Module HttpMCPClient.

(** *** The HTTP layer: what [httpx] shows of the server *)

Inductive AsyncClient : Type := NewAsyncClient.

(** [mcp_session_id_header] is [response.headers.get("mcp-session-id")]. *)
Record Response : Type := {
  status_code : Z;
  mcp_session_id_header : option string;
  text : string
}.

(** What [await self._client.post(...)] does: it returns a response or
    raises an [httpx.HTTPError] (connection refused, timeout, ...). *)
Inductive reply : Type :=
| Answer (r : Response)
| Fail (detail : string).

Record Request : Type := {
  url : string;
  json : value;
  mcp_session_id : option string
}.

(** The environment of a client: the replies the next posts will get, whether
    the next calls of [aclose] raise, and the requests posted so far. *)
Record network : Type := {
  replies : list reply;
  closes : list bool;
  posted : list Request
}.

(** *** The client object *)

Record client : Type := {
  server_url : string;
  _client : option AsyncClient;
  _session_id : option string;
  _tools_cache : option (list value);
  _request_id : Z
}.

(** [HttpMCPClient.__init__] *)
Definition __init__ (server_url : string) : client :=
  {| server_url := server_url;
     _client := None;
     _session_id := None;
     _tools_cache := None;
     _request_id := 0 |}.

Definition state : Type := client * network.

(** A method: it may change the client and the network, and return or raise.
    What it changed before raising stays changed. *)
Definition M (A : Type) : Type := state -> outcome A * state.

Definition ret {A} (a : A) : M A := fun s => (Ok a, s).

Definition raise {A} (e : pyexn) : M A := fun s => (Raise e, s).

Definition bind {A B} (m : M A) (k : A -> M B) : M B :=
  fun s =>
    match m s with
    | (Ok a, s') => k a s'
    | (Raise e, s') => (Raise e, s')
    end.

Definition lift {A} (o : outcome A) : M A := fun s => (o, s).

(** [try: m except Exception as e: handler e] *)
Definition try_except {A} (m : M A) (handler : pyexn -> M A) : M A :=
  fun s =>
    match m s with
    | (Ok a, s') => (Ok a, s')
    | (Raise e, s') => handler e s'
    end.

Definition self : M client := fun s => (Ok (fst s), s).

Definition update (f : client -> client) : M unit :=
  fun s => (Ok tt, (f (fst s), snd s)).

Declare Scope client_scope.
Delimit Scope client_scope with client.
Notation "x <- m ;; k" := (bind m (fun x => k))
  (at level 61, m at next level, right associativity) : client_scope.
Notation "m ;; k" := (bind m (fun _ => k))
  (at level 61, right associativity) : client_scope.
Local Open Scope client_scope.

Definition set_client (h : option AsyncClient) (c : client) : client :=
  {| server_url := server_url c; _client := h; _session_id := _session_id c;
     _tools_cache := _tools_cache c; _request_id := _request_id c |}.

Definition set_session_id (sid : option string) (c : client) : client :=
  {| server_url := server_url c; _client := _client c; _session_id := sid;
     _tools_cache := _tools_cache c; _request_id := _request_id c |}.

Definition set_tools_cache (t : option (list value)) (c : client) : client :=
  {| server_url := server_url c; _client := _client c; _session_id := _session_id c;
     _tools_cache := t; _request_id := _request_id c |}.

Definition set_request_id (n : Z) (c : client) : client :=
  {| server_url := server_url c; _client := _client c; _session_id := _session_id c;
     _tools_cache := _tools_cache c; _request_id := n |}.

(** [await self._client.post(self.server_url, json=..., headers=...)]: the
    request is recorded and the next reply consumed; with no reply left the
    server is unreachable. *)
Definition post (body : value) (session : option string) : M Response :=
  fun s =>
    let (c, n) := s in
    let request := {| url := server_url c; json := body; mcp_session_id := session |} in
    let n' := {| replies := tl (replies n); closes := closes n;
                 posted := posted n ++ [request] |} in
    match replies n with
    | Answer r :: _ => (Ok r, (c, n'))
    | Fail detail :: _ => (Raise (HTTPError detail), (c, n'))
    | [] => (Raise (HTTPError "All connection attempts failed"), (c, n'))
    end.

(** [await self._client.aclose()] *)
Definition aclose : M unit :=
  fun s =>
    let (c, n) := s in
    let n' := {| replies := replies n; closes := tl (closes n); posted := posted n |} in
    match closes n with
    | true :: _ => (Raise (HTTPError "close failed"), (c, n'))
    | _ => (Ok tt, (c, n'))
    end.

(** [response.raise_for_status()]: a status outside 200..299 raises
    [httpx.HTTPStatusError], which is an [httpx.HTTPError]. *)
Definition is_success (status : Z) : bool := (200 <=? status) && (status <=? 299).

Definition raise_for_status (response : Response) : M unit :=
  if is_success (status_code response) then ret tt
  else raise (HTTPError "HTTP status error").

(** [not self._session_id] *)
Definition no_session_id (sid : option string) : bool :=
  match sid with
  | None => true
  | Some s => String.eqb s ""
  end.

(** [not self._client or not self._session_id] *)
Definition not_connected (c : client) : bool :=
  match _client c with
  | None => true
  | Some _ => no_session_id (_session_id c)
  end.

Definition _next_request_id : M Z :=
  update (fun c => set_request_id (_request_id c + 1) c) ;;
  c <- self ;;
  ret (_request_id c).

Section WithBuiltins.
Context {B : Builtins}.

Definition _parse_sse_response (text : string) : outcome value :=
  let lines := split_lines (strip text) in
  match find (String.prefix "data: ") lines with
  | Some line => py_json_loads (VStr (drop 6 line))
  | None => py_json_loads (VStr text)
  end.

Definition init_request (id : Z) : value :=
  VDict [("jsonrpc", VStr "2.0");
         ("id", VInt id);
         ("method", VStr "initialize");
         ("params",
           VDict [("protocolVersion", VStr "2024-11-05");
                  ("capabilities", VDict []);
                  ("clientInfo", VDict [("name", VStr "py-calculator");
                                        ("version", VStr "0.1.0")])])].

Definition initialized_notification : value :=
  VDict [("jsonrpc", VStr "2.0"); ("method", VStr "notifications/initialized")].

Definition connect : M unit :=
  try_except
    (update (set_client (Some NewAsyncClient)) ;;
     id <- _next_request_id ;;
     response <- post (init_request id) None ;;
     raise_for_status response ;;
     update (set_session_id (mcp_session_id_header response)) ;;
     c <- self ;;
     (if no_session_id (_session_id c)
      then raise (MCPConnectionError "Server did not return a session ID" None)
      else ret tt) ;;
     result <- lift (_parse_sse_response (text response)) ;;
     has_error <- lift (py_contains "error" result) ;;
     (if has_error : bool
      then
        err <- lift (py_getitem "error" result) ;;
        raise (MCPConnectionError ("Initialization failed: " ++ py_str err) None)
      else ret tt) ;;
     post initialized_notification (_session_id c) ;;
     ret tt)
    (fun e => raise (MCPConnectionError "Failed to connect to MCP server: " (Some e))).

Definition disconnect : M unit :=
  try_except
    (c <- self ;;
     match _client c with
     | Some _ =>
         aclose ;;
         update (set_client None) ;;
         update (set_session_id None)
     | None => ret tt
     end)
    (fun e => ret tt).

Definition tools_list_request (id : Z) : value :=
  VDict [("jsonrpc", VStr "2.0"); ("id", VInt id); ("method", VStr "tools/list")].

(** One element of the list comprehension of [list_tools]. *)
Definition tool_entry (tool : value) : outcome value :=
  (let? name := py_getitem "name" tool in
   let? description := py_get "description" (VStr "") tool in
   let? inputSchema := py_get "inputSchema" (VDict []) tool in
   Ok (VDict [("name", name);
              ("description", description);
              ("inputSchema", inputSchema)]))%outcome.

Fixpoint tool_entries (tools_data : list value) : outcome (list value) :=
  match tools_data with
  | [] => Ok []
  | tool :: rest =>
      (let? t := tool_entry tool in
       let? ts := tool_entries rest in
       Ok (t :: ts))%outcome
  end.

Definition list_tools : M (list value) :=
  c <- self ;;
  if not_connected c then raise (MCPConnectionError "Not connected to MCP server" None)
  else
    match _tools_cache c with
    | Some tools => ret tools
    | None =>
        try_except
          (id <- _next_request_id ;;
           response <- post (tools_list_request id) (_session_id c) ;;
           raise_for_status response ;;
           result <- lift (_parse_sse_response (text response)) ;;
           has_error <- lift (py_contains "error" result) ;;
           (if has_error : bool
            then
              err <- lift (py_getitem "error" result) ;;
              raise (MCPConnectionError ("Failed to list tools: " ++ py_str err) None)
            else ret tt) ;;
           payload <- lift (py_get "result" (VDict []) result) ;;
           tools_data <- lift (py_get "tools" (VList []) payload) ;;
           items <- lift (py_iter tools_data) ;;
           tools <- lift (tool_entries items) ;;
           update (set_tools_cache (Some tools)) ;;
           ret tools)
          (fun e => raise (MCPConnectionError "Failed to list tools: " (Some e)))
    end.

Definition tools_call_request (id : Z) (name : string) (arguments : dict) : value :=
  VDict [("jsonrpc", VStr "2.0");
         ("id", VInt id);
         ("method", VStr "tools/call");
         ("params", VDict [("name", VStr name); ("arguments", VDict arguments)])].

(** The content-array branch of [call_tool], entered when
    ["content" in tool_result]. *)
Definition content_result (content : value) : outcome value :=
  match content with
  | VList (first_content :: _) =>
      match first_content with
      | VDict d =>
          match Dict.get "text" d with
          | Some txt =>
              match py_json_loads txt with
              | Ok result_dict => Ok result_dict
              | Raise JSONDecodeError => Ok (VDict [("result", txt)])
              | Raise e => Raise e
              end
          | None => Ok (VDict [("result", VStr (py_str first_content))])
          end
      | _ => Ok (VDict [("result", VStr (py_str first_content))])
      end
  | _ => Ok (VDict [("result", VStr (py_str content))])
  end.

(** What [call_tool] makes of the parsed response. *)
Definition tool_call_result (result : value) : outcome value :=
  (let? has_error := py_contains "error" result in
   if has_error : bool
   then
     let? err := py_getitem "error" result in
     let? error_msg := py_get "message" (VStr (py_str err)) err in
     Ok (VDict [("error", error_msg)])
   else
     let? tool_result := py_get "result" (VDict []) result in
     let? has_content := py_contains "content" tool_result in
     if has_content : bool
     then
       let? content := py_getitem "content" tool_result in
       content_result content
     else Ok tool_result)%outcome.

Definition call_tool (name : string) (arguments : dict) : M value :=
  c <- self ;;
  if not_connected c then raise (MCPConnectionError "Not connected to MCP server" None)
  else
    try_except
      (id <- _next_request_id ;;
       response <- post (tools_call_request id name arguments) (_session_id c) ;;
       raise_for_status response ;;
       result <- lift (_parse_sse_response (text response)) ;;
       lift (tool_call_result result))
      (fun e =>
         raise (ToolExecutionError ("Failed to execute tool '" ++ name ++ "': ") (Some e))).

(** *** A client in use: the calls made on one client object *)

Inductive call : Type :=
| Connect
| Disconnect
| ListTools
| CallTool (name : string) (arguments : dict).

(** One call; the caller catches what it raises and goes on. *)
Definition run_call (k : call) (s : state) : state :=
  match k with
  | Connect => snd (connect s)
  | Disconnect => snd (disconnect s)
  | ListTools => snd (list_tools s)
  | CallTool name arguments => snd (call_tool name arguments s)
  end.

Definition run_calls (ks : list call) (s : state) : state :=
  fold_left (fun s k => run_call k s) ks s.

End WithBuiltins.

(** The ["id"] of a posted message, if it has one. *)
Definition request_id (r : Request) : option Z :=
  match json r with
  | VDict d =>
      match Dict.get "id" d with
      | Some (VInt id) => Some id
      | _ => None
      end
  | _ => None
  end.

Fixpoint request_ids (rs : list Request) : list Z :=
  match rs with
  | [] => []
  | r :: rs' =>
      match request_id r with
      | Some id => id :: request_ids rs'
      | None => request_ids rs'
      end
  end.

(** The integers [first + 1, ..., first + count]. *)
Fixpoint ids_after (first : Z) (count : nat) : list Z :=
  match count with
  | O => []
  | S count' => (first + 1) :: ids_after (first + 1) count'
  end.

(** From [s] to [s'] the messages posted carry the ids that follow the counter
    of [s], and the counter of [s'] is the last of them. *)
Definition fresh_ids (s s' : state) : Prop :=
  exists (count : nat) (new : list Request),
    posted (snd s') = (posted (snd s) ++ new)%list
    /\ request_ids new = ids_after (_request_id (fst s)) count
    /\ _request_id (fst s') = _request_id (fst s) + Z.of_nat count.

(** A method keeps the discipline of request ids when every run of it does. *)
Definition tracks {A : Type} (m : M A) : Prop := forall s, fresh_ids s (snd (m s)).

(** A network that has seen no traffic. *)
Definition quiet (replies : list reply) : network :=
  {| replies := replies; closes := []; posted := [] |}.

(** The client and the network once a request with the next id has been
    posted in the current session and its reply consumed. *)
Definition after_request (body : value) (c : client) (n : network) : state :=
  (set_request_id (_request_id c + 1) c,
   {| replies := tl (replies n);
      closes := closes n;
      posted := (posted n ++ [{| url := server_url c;
                                 json := body;
                                 mcp_session_id := _session_id c |}])%list |}).

(** The framing the code documents: ["event: message\ndata: {...}\n\n"]. *)
Definition sse_frame (payload : string) : string :=
  "event: message" ++ String newline ("data: " ++ payload ++ String newline (String newline "")).

(** A reply with status 200 and the given body. *)
Definition ok_reply (session : option string) (body : string) : reply :=
  Answer {| status_code := 200; mcp_session_id_header := session; text := body |}.

(** A client in a session: connected, one request (initialize) sent so far. *)
Definition in_session : client :=
  {| server_url := "http://127.0.0.1:8000/mcp";
     _client := Some NewAsyncClient;
     _session_id := Some "session-1";
     _tools_cache := None;
     _request_id := 1 |}.

End HttpMCPClient.

(** ** The chat service: [initialize], [shutdown], [process_message] and
       [_handle_tool_calls] (client/py-calculator/app/services/chat_service.py) *)

Module Orchestration.

(** [json.dumps] of a decoded JSON value. *)
Class Serializer : Type := { json_dumps : value -> string }.

(** The conversation manager the service is given: the two methods the
    service calls. *)
Class Conversation (C : Type) : Type := {
  add_message : ConversationManager.Message -> C -> C;
  to_ollama_format : C -> list value
}.

(** The conversation manager of the repository is one. *)
Definition manager_conversation : Conversation ConversationManager.manager :=
  {| add_message := ConversationManager.add_message;
     to_ollama_format m := map VDict (ConversationManager.to_ollama_format None m) |}.

(** What [await self._ollama.chat_with_tools(messages, tools)] does: it
    returns a response or raises [OllamaError]. *)
Inductive llm_reply : Type :=
| Respond (response : value)
| Refuse (message : string).

(** The LLM adapter: what [verify_connection] raises, if anything, the
    replies the next chats will get, and the chats asked so far, each the
    messages and the tools. *)
Record ollama : Type := {
  unavailable : option string;
  answers : list llm_reply;
  asked : list (list value * list value)
}.

(** An exception of the service: one of the client's, or [OllamaError]. *)
Inductive error : Type :=
| Python (e : pyexn)
| OllamaError (message : string).

(** A chunk the service yields: a text, or [prefix ++ str(e)] for an
    exception [e]. *)
Inductive chunk : Type :=
| Text (s : string)
| Failure (prefix : string) (e : error).

Inductive ending (A : Type) : Type :=
| Done (a : A)
| Failed (e : error).

Arguments Done {A} a.
Arguments Failed {A} e.

Section WithInterfaces.
Context {B : Builtins} {J : Serializer} {C : Type} {conversation : Conversation C}.

(** The service object and its collaborators; [datetime_now k] is what the
    call number [k] of [datetime.now()] returns. *)
Record service : Type := {
  _mcp : HttpMCPClient.state;
  _ollama : ollama;
  _tools : ToolRegistry.registry;
  _conversation : C;
  datetime_now : nat -> Z;
  clock_reads : nat
}.

Definition set_mcp (mcp : HttpMCPClient.state) (s : service) : service :=
  {| _mcp := mcp; _ollama := _ollama s; _tools := _tools s;
     _conversation := _conversation s;
     datetime_now := datetime_now s; clock_reads := clock_reads s |}.

Definition set_ollama (o : ollama) (s : service) : service :=
  {| _mcp := _mcp s; _ollama := o; _tools := _tools s;
     _conversation := _conversation s;
     datetime_now := datetime_now s; clock_reads := clock_reads s |}.

Definition set_tools (t : ToolRegistry.registry) (s : service) : service :=
  {| _mcp := _mcp s; _ollama := _ollama s; _tools := t;
     _conversation := _conversation s;
     datetime_now := datetime_now s; clock_reads := clock_reads s |}.

Definition set_conversation (c : C) (s : service) : service :=
  {| _mcp := _mcp s; _ollama := _ollama s; _tools := _tools s;
     _conversation := c;
     datetime_now := datetime_now s; clock_reads := clock_reads s |}.

Definition set_clock_reads (k : nat) (s : service) : service :=
  {| _mcp := _mcp s; _ollama := _ollama s; _tools := _tools s;
     _conversation := _conversation s;
     datetime_now := datetime_now s; clock_reads := k |}.

(** A coroutine or an asynchronous generator of the service: the chunks it
    yields, how it ends, and the service after it. *)
Definition G (A : Type) : Type := service -> list chunk * ending A * service.

Definition ret {A} (a : A) : G A := fun s => ([], Done a, s).

Definition raise {A} (e : error) : G A := fun s => ([], Failed e, s).

Definition bind {A A'} (m : G A) (k : A -> G A') : G A' :=
  fun s =>
    match m s with
    | (chunks, Done a, s') =>
        match k a s' with
        | (chunks', end', s'') => ((chunks ++ chunks')%list, end', s'')
        end
    | (chunks, Failed e, s') => (chunks, Failed e, s')
    end.

(** [yield chunk] *)
Definition yield (c : chunk) : G unit := fun s => ([c], Done tt, s).

(** [try: m except Exception as e: handler e] *)
Definition try_except {A} (m : G A) (handler : error -> G A) : G A :=
  fun s =>
    match m s with
    | (chunks, Done a, s') => (chunks, Done a, s')
    | (chunks, Failed e, s') =>
        match handler e s' with
        | (chunks', end', s'') => ((chunks ++ chunks')%list, end', s'')
        end
    end.

Definition lift {A} (o : outcome A) : G A :=
  fun s =>
    match o with
    | Ok a => ([], Done a, s)
    | Raise e => ([], Failed (Python e), s)
    end.

(** [await self._mcp.method(...)] *)
Definition mcp {A} (method : HttpMCPClient.M A) : G A :=
  fun s =>
    match method (_mcp s) with
    | (Ok a, mcp') => ([], Done a, set_mcp mcp' s)
    | (Raise e, mcp') => ([], Failed (Python e), set_mcp mcp' s)
    end.

Declare Scope service_scope.
Delimit Scope service_scope with service.
Notation "x <- m ;; k" := (bind m (fun x => k))
  (at level 61, m at next level, right associativity) : service_scope.
Notation "m ;; k" := (bind m (fun _ => k))
  (at level 61, right associativity) : service_scope.
Local Open Scope service_scope.

(** [await self._ollama.verify_connection()] *)
Definition verify_connection : G unit :=
  fun s =>
    match unavailable (_ollama s) with
    | None => ([], Done tt, s)
    | Some message => ([], Failed (OllamaError message), s)
    end.

(** [await self._ollama.chat_with_tools(messages, tools)]: the chat is
    recorded and the next reply consumed; with no reply left the chat
    fails. *)
Definition chat_with_tools (messages tools : list value) : G value :=
  fun s =>
    let o := _ollama s in
    let s' := set_ollama {| unavailable := unavailable o;
                            answers := tl (answers o);
                            asked := (asked o ++ [(messages, tools)])%list |} s in
    match answers o with
    | Respond response :: _ => ([], Done response, s')
    | Refuse message :: _ => ([], Failed (OllamaError message), s')
    | [] => ([], Failed (OllamaError "Ollama chat failed"), s')
    end.

(** [Message(role=role, content=content)]: the clock is read for the
    timestamp, and a content that is not a [str] is refused with a
    [ValidationError], which is a [ValueError]. *)
Definition new_message (role : ConversationManager.MessageRole) (content : value)
  : G ConversationManager.Message :=
  fun s =>
    let s' := set_clock_reads (Datatypes.S (clock_reads s)) s in
    match content with
    | VStr text =>
        ([],
         Done {| ConversationManager.role := role;
                 ConversationManager.content := text;
                 ConversationManager.timestamp := datetime_now s (clock_reads s);
                 ConversationManager.tool_call_id := None;
                 ConversationManager.tool_name := None |},
         s')
    | _ => ([], Failed (Python (ValueError "1 validation error for Message")), s')
    end.

(** [self._conversation.add_message(message)] *)
Definition remember (message : ConversationManager.Message) : G unit :=
  fun s => ([], Done tt, set_conversation (add_message message (_conversation s)) s).

Definition self : G service := fun s => ([], Done s, s).

(** [ChatService.initialize] *)
Definition initialize : G unit :=
  mcp HttpMCPClient.connect ;;
  tools <- mcp HttpMCPClient.list_tools ;;
  (fun s =>
     match ToolRegistry.register_tools tools (_tools s) with
     | (Ok _, registry) => ([], Done tt, set_tools registry s)
     | (Raise e, registry) => ([], Failed (Python e), set_tools registry s)
     end) ;;
  verify_connection.

(** [ChatService.shutdown] *)
Definition shutdown : G unit := mcp HttpMCPClient.disconnect.

(** [self._mcp.call_tool(tool_name, coerced_arguments)] for a name that is
    any value: the name goes into the request as it is and into the message
    of [ToolExecutionError] as [str(name)]. *)
Definition tools_call_request (id : Z) (name : value) (arguments : dict) : value :=
  VDict [("jsonrpc", VStr "2.0");
         ("id", VInt id);
         ("method", VStr "tools/call");
         ("params", VDict [("name", name); ("arguments", VDict arguments)])].

Definition call_tool (name : value) (arguments : dict) : HttpMCPClient.M value :=
  HttpMCPClient.bind HttpMCPClient.self (fun c =>
  if HttpMCPClient.not_connected c
  then HttpMCPClient.raise (MCPConnectionError "Not connected to MCP server" None)
  else
    HttpMCPClient.try_except
      (HttpMCPClient.bind HttpMCPClient._next_request_id (fun id =>
       HttpMCPClient.bind
         (HttpMCPClient.post (tools_call_request id name arguments)
            (HttpMCPClient._session_id c)) (fun response =>
       HttpMCPClient.bind (HttpMCPClient.raise_for_status response) (fun _ =>
       HttpMCPClient.bind
         (HttpMCPClient.lift
            (HttpMCPClient._parse_sse_response (HttpMCPClient.text response)))
         (fun result => HttpMCPClient.lift (HttpMCPClient.tool_call_result result))))))
      (fun e =>
         HttpMCPClient.raise
           (ToolExecutionError ("Failed to execute tool '" ++ py_str name ++ "': ")
              (Some e)))).

(** The reply of the LLM after a tool call: its content is remembered and
    yielded, and without a content the operation is reported complete. *)
Definition final_answer (final_response : value) : G unit :=
  has_message <- lift (py_contains "message" final_response) ;;
  if has_message : bool
  then
    message <- lift (py_getitem "message" final_response) ;;
    content <- lift (py_get "content" (VStr "") message) ;;
    if truthy content
    then
      assistant_message <- new_message ConversationManager.ASSISTANT content ;;
      remember assistant_message ;;
      yield (Text (py_str content))
    else yield (Text "Operation completed successfully.")
  else yield (Text "Operation completed successfully.").

(** The [try] block of a round of [_handle_tool_calls]; [true] when the
    generator returns in it. *)
Definition tool_call_attempt (tool_calls tool_name : value) (coerced_arguments : dict)
  : G bool :=
  result <- mcp (call_tool tool_name coerced_arguments) ;;
  has_error <- lift (py_contains "error" result) ;;
  if has_error : bool
  then
    error_msg <- lift (py_getitem "error" result) ;;
    yield (Text ("Error executing " ++ py_str tool_name ++ ": " ++ py_str error_msg)) ;;
    ret true
  else
    let tool_result_content := json_dumps result in
    s <- self ;;
    let messages :=
      (to_ollama_format (_conversation s)
       ++ [VDict [("role", VStr "assistant");
                  ("content", VStr "");
                  ("tool_calls", tool_calls)];
           VDict [("role", VStr "tool");
                  ("content", VStr tool_result_content)]])%list in
    tools <- lift (ToolRegistry.to_ollama_format_registry (_tools s)) ;;
    final_response <- chat_with_tools messages tools ;;
    final_answer final_response ;;
    ret false.

(** Its [except] clauses. *)
Definition tool_call_failure (e : error) : G bool :=
  match e with
  | Python (ToolExecutionError _ _) =>
      yield (Failure "Failed to execute tool: " e) ;; ret false
  | _ =>
      yield (Failure "Unexpected error during tool execution: " e) ;; ret false
  end.

(** One round of the loop of [_handle_tool_calls]. *)
Definition tool_call_round (tool_calls tool_call : value) : G bool :=
  function <- lift (py_get "function" (VDict []) tool_call) ;;
  tool_name <- lift (py_get "name" (VStr "") function) ;;
  arguments <- lift (py_get "arguments" (VDict []) function) ;;
  decoded <-
    match arguments with
    | VStr _ =>
        match py_json_loads arguments with
        | Ok arguments => ret (Some arguments)
        | Raise JSONDecodeError => ret None
        | Raise e => raise (Python e)
        end
    | _ => ret (Some arguments)
    end ;;
  match decoded with
  | None => yield (Text "Error: Invalid tool arguments format") ;; ret true
  | Some arguments =>
      items <- lift (py_items arguments) ;;
      let coerced_arguments := ChatService._coerce_numeric_arguments items in
      try_except (tool_call_attempt tool_calls tool_name coerced_arguments)
        tool_call_failure
  end.

Fixpoint tool_call_rounds (tool_calls : value) (remaining : list value) : G unit :=
  match remaining with
  | [] => ret tt
  | tool_call :: rest =>
      returned <- tool_call_round tool_calls tool_call ;;
      if returned : bool then ret tt else tool_call_rounds tool_calls rest
  end.

(** [ChatService._handle_tool_calls]; [len(tool_calls)] and the loop fail
    alike on a value that is no collection. *)
Definition _handle_tool_calls (tool_calls : value) : G unit :=
  remaining <- lift (py_iter tool_calls) ;;
  tool_call_rounds tool_calls remaining.

(** What [process_message] does with the response of the LLM. *)
Definition answer (response : value) : G unit :=
  has_message <-
    (if truthy response then lift (py_contains "message" response) else ret false) ;;
  if negb has_message
  then yield (Text "Error: Invalid response from LLM")
  else
    response_message <- lift (py_getitem "message" response) ;;
    has_tool_calls <- lift (py_contains "tool_calls" response_message) ;;
    tool_calls <-
      (if has_tool_calls : bool
       then
         tool_calls <- lift (py_getitem "tool_calls" response_message) ;;
         ret (if truthy tool_calls then Some tool_calls else None)
       else ret None) ;;
    match tool_calls with
    | Some tool_calls => _handle_tool_calls tool_calls
    | None =>
        content <- lift (py_get "content" (VStr "") response_message) ;;
        if truthy content
        then
          assistant_message <- new_message ConversationManager.ASSISTANT content ;;
          remember assistant_message ;;
          yield (Text (py_str content))
        else yield (Text "I'm not sure how to respond to that.")
    end.

(** [ChatService.process_message] *)
Definition process_message (user_input : string) : G unit :=
  user_message <- new_message ConversationManager.USER (VStr user_input) ;;
  remember user_message ;;
  s <- self ;;
  let messages := to_ollama_format (_conversation s) in
  tools <- lift (ToolRegistry.to_ollama_format_registry (_tools s)) ;;
  try_except
    (response <- chat_with_tools messages tools ;;
     answer response)
    (fun e => yield (Failure "Error processing message: " e)).

End WithInterfaces.

Arguments service C : clear implicits.
Arguments G C A : clear implicits.

End Orchestration.

(** ** A reference implementation of the builtins

    The theorems below hold for every implementation of [Builtins]; this one
    runs the model on concrete inputs.  The JSON decoder follows the grammar of
    [json.loads]: a lexer that reads one character at a time, and a parser of
    the token list.  Code points above 255 are outside the model, so a
    [\uXXXX] escape above [ÿ] is not accepted. *)

Module Reference.

(** *** Characters *)

Definition code (c : ascii) : nat := nat_of_ascii c.

Definition is_digit (c : ascii) : bool := ((48 <=? code c) && (code c <=? 57))%nat.

Definition is_letter (c : ascii) : bool :=
  ((65 <=? code c) && (code c <=? 90) || (97 <=? code c) && (code c <=? 122))%nat.

(** The whitespace of the JSON grammar: space, tab, line feed, carriage return. *)
Definition json_ws (c : ascii) : bool :=
  ((code c =? 32) || (code c =? 9) || (code c =? 10) || (code c =? 13))%nat.

(** Characters of numbers and of the literals [true], [false], [null],
    [NaN], [Infinity] and [-Infinity]. *)
Definition word_char (c : ascii) : bool :=
  (is_digit c || is_letter c || (code c =? 43) || (code c =? 45) || (code c =? 46))%nat.

Definition digit_value (c : ascii) : Z := Z.of_nat (code c - 48).

Definition hex_value (c : ascii) : option Z :=
  if is_digit c then Some (digit_value c)
  else if ((97 <=? code c) && (code c <=? 102))%nat then Some (Z.of_nat (code c - 87))
  else if ((65 <=? code c) && (code c <=? 70))%nat then Some (Z.of_nat (code c - 55))
  else None.

(** *** Numbers *)

(** The longest prefix of digits, and the rest. *)
Fixpoint span_digits (s : string) : string * string :=
  match s with
  | String c s' =>
      if is_digit c then let (d, r) := span_digits s' in (String c d, r)
      else (EmptyString, s)
  | EmptyString => (EmptyString, EmptyString)
  end.

Fixpoint digits_value (acc : Z) (s : string) : Z :=
  match s with
  | String c s' => digits_value (10 * acc + digit_value c) s'
  | EmptyString => acc
  end.

(** The float nearest to [m * 10 ^ e10] (ties to even), for [m >= 0]. *)
Definition decimal_to_float (neg : bool) (m e10 : Z) : float :=
  if m =? 0 then (if neg then PrimFloat.opp PrimFloat.zero else PrimFloat.zero)
  else if 0 <=? e10 then
    FloatOps.SF2Prim
      (SpecFloat.binary_round FloatOps.prec FloatOps.emax neg (Z.to_pos (m * 10 ^ e10)) 0)
  else
    let d := 10 ^ (- e10) in
    let s := Z.max 0 (Z.log2 d - Z.log2 m + 66) in
    let q := (m * 2 ^ s) / d in
    let sticky := if (m * 2 ^ s) mod d =? 0 then 0 else 1 in
    if q =? 0 then (if neg then PrimFloat.opp PrimFloat.zero else PrimFloat.zero)
    else
      FloatOps.SF2Prim
        (SpecFloat.binary_round FloatOps.prec FloatOps.emax neg
           (Z.to_pos (2 * q + sticky)) (- s - 1)).

(** An optional exponent part [e], [e+] or [e-] and digits, up to the end. *)
Definition exponent_part (s : string) : option Z :=
  match s with
  | EmptyString => Some 0
  | String c s' =>
      if ((code c =? 101) || (code c =? 69))%nat then
        let (neg, s'') :=
          match s' with
          | String c' r =>
              if (code c' =? 45)%nat then (true, r)
              else if (code c' =? 43)%nat then (false, r)
              else (false, s')
          | EmptyString => (false, s')
          end in
        match span_digits s'' with
        | (String _ _ as d, EmptyString) =>
            Some (if neg then - digits_value 0 d else digits_value 0 d)
        | _ => None
        end
      else None
  end.

(** A number of the JSON grammar: an optional minus sign; [0], or digits
    that do not start with [0]; an optional fraction, a point and digits; an
    optional exponent. *)
Definition json_number (w : string) : option value :=
  let (neg, body) :=
    match w with
    | String c r => if (code c =? 45)%nat then (true, r) else (false, w)
    | EmptyString => (false, w)
    end in
  match span_digits body with
  | (EmptyString, _) => None
  | (String c0 more as ip, rest) =>
      if (code c0 =? 48)%nat && negb (String.eqb more "") then None
      else
        match rest with
        | EmptyString =>
            Some (VInt (if neg then - digits_value 0 ip else digits_value 0 ip))
        | String c r =>
            if (code c =? 46)%nat then
              match span_digits r with
              | (String _ _ as fp, rest') =>
                  match exponent_part rest' with
                  | Some e =>
                      Some (VFloat (decimal_to_float neg (digits_value 0 (ip ++ fp))
                                      (e - Z.of_nat (String.length fp))))
                  | None => None
                  end
              | _ => None
              end
            else
              match exponent_part rest with
              | Some e => Some (VFloat (decimal_to_float neg (digits_value 0 ip) e))
              | None => None
              end
        end
  end.

Definition word_value (w : string) : option value :=
  if String.eqb w "true" then Some (VBool true)
  else if String.eqb w "false" then Some (VBool false)
  else if String.eqb w "null" then Some VNone
  else if String.eqb w "NaN" then Some (VFloat PrimFloat.nan)
  else if String.eqb w "Infinity" then Some (VFloat PrimFloat.infinity)
  else if String.eqb w "-Infinity" then Some (VFloat PrimFloat.neg_infinity)
  else json_number w.

(** *** The lexer *)

Inductive token : Type :=
| TLBrace | TRBrace | TLBracket | TRBracket | TColon | TComma
| TScalar (v : value).

Inductive lexer : Type :=
| Idle
| InWord (w : string)
| InString (s : string)
| InEscape (s : string)
| InUnicode (s : string) (hex : list Z).

Definition snoc (s : string) (c : ascii) : string := s ++ String c EmptyString.

Definition punctuation (c : ascii) : option token :=
  match code c with
  | 123%nat => Some TLBrace
  | 125%nat => Some TRBrace
  | 91%nat => Some TLBracket
  | 93%nat => Some TRBracket
  | 58%nat => Some TColon
  | 44%nat => Some TComma
  | _ => None
  end.

Definition idle_step (c : ascii) : option (list token * lexer) :=
  if json_ws c then Some ([], Idle)
  else
    match punctuation c with
    | Some t => Some ([t], Idle)
    | None =>
        if (code c =? 34)%nat then Some ([], InString EmptyString)
        else if word_char c then Some ([], InWord (String c EmptyString))
        else None
    end.

Definition escape (c : ascii) : option ascii :=
  match code c with
  | 34%nat => Some (ascii_of_nat 34)
  | 92%nat => Some (ascii_of_nat 92)
  | 47%nat => Some (ascii_of_nat 47)
  | 98%nat => Some (ascii_of_nat 8)
  | 102%nat => Some (ascii_of_nat 12)
  | 110%nat => Some (ascii_of_nat 10)
  | 114%nat => Some (ascii_of_nat 13)
  | 116%nat => Some (ascii_of_nat 9)
  | _ => None
  end.

Definition lex_step (st : lexer) (c : ascii) : option (list token * lexer) :=
  match st with
  | Idle => idle_step c
  | InWord w =>
      if word_char c then Some ([], InWord (snoc w c))
      else
        match word_value w, idle_step c with
        | Some v, Some (ts, st') => Some (TScalar v :: ts, st')
        | _, _ => None
        end
  | InString s =>
      if (code c =? 34)%nat then Some ([TScalar (VStr s)], Idle)
      else if (code c =? 92)%nat then Some ([], InEscape s)
      else if (code c <? 32)%nat then None
      else Some ([], InString (snoc s c))
  | InEscape s =>
      if (code c =? 117)%nat then Some ([], InUnicode s [])
      else
        match escape c with
        | Some c' => Some ([], InString (snoc s c'))
        | None => None
        end
  | InUnicode s hex =>
      match hex_value c with
      | Some h =>
          match hex with
          | [h1; h2; h3] =>
              if (h1 =? 0) && (h2 =? 0)
              then Some ([], InString (snoc s (ascii_of_nat (Z.to_nat (16 * h3 + h)))))
              else None
          | _ => Some ([], InUnicode s (hex ++ [h])%list)
          end
      | None => None
      end
  end.

Definition lex_end (st : lexer) : option (list token) :=
  match st with
  | Idle => Some []
  | InWord w =>
      match word_value w with
      | Some v => Some [TScalar v]
      | None => None
      end
  | _ => None
  end.

Fixpoint lex (st : lexer) (s : string) : option (list token) :=
  match s with
  | EmptyString => lex_end st
  | String c s' =>
      match lex_step st c with
      | Some (ts, st') =>
          match lex st' s' with
          | Some ts' => Some (ts ++ ts')%list
          | None => None
          end
      | None => None
      end
  end.

(** *** The parser *)

Fixpoint parse_value (fuel : nat) (ts : list token) : option (value * list token) :=
  match fuel with
  | O => None
  | S fuel' =>
      match ts with
      | TScalar v :: rest => Some (v, rest)
      | TLBracket :: TRBracket :: rest => Some (VList [], rest)
      | TLBracket :: rest => parse_elements fuel' rest []
      | TLBrace :: TRBrace :: rest => Some (VDict [], rest)
      | TLBrace :: rest => parse_members fuel' rest []
      | _ => None
      end
  end
with parse_elements (fuel : nat) (ts : list token) (acc : list value)
  : option (value * list token) :=
  match fuel with
  | O => None
  | S fuel' =>
      match parse_value fuel' ts with
      | Some (v, TComma :: rest) => parse_elements fuel' rest (acc ++ [v])%list
      | Some (v, TRBracket :: rest) => Some (VList (acc ++ [v])%list, rest)
      | _ => None
      end
  end
with parse_members (fuel : nat) (ts : list token) (acc : dict)
  : option (value * list token) :=
  match fuel with
  | O => None
  | S fuel' =>
      match ts with
      | TScalar (VStr k) :: TColon :: rest =>
          match parse_value fuel' rest with
          | Some (v, TComma :: rest') => parse_members fuel' rest' (Dict.set k v acc)
          | Some (v, TRBrace :: rest') => Some (VDict (Dict.set k v acc), rest')
          | _ => None
          end
      | _ => None
      end
  end.

Definition parse (ts : list token) : option value :=
  match parse_value (S (List.length ts)) ts with
  | Some (v, []) => Some v
  | _ => None
  end.

Definition first_char (w : string) : option ascii :=
  match w with
  | String c _ => Some c
  | EmptyString => None
  end.

(** [json.loads] *)
Definition json_loads (s : string) : option value :=
  match lex Idle s with
  | Some ts => parse ts
  | None => None
  end.

(** *** [int] and [float] of a string *)

(** Underscores may stand between two digits; they are dropped. *)
Fixpoint drop_underscores (after_digit : bool) (s : string) : option string :=
  match s with
  | EmptyString => Some EmptyString
  | String c s' =>
      if (code c =? 95)%nat then
        match s' with
        | String c' _ =>
            if after_digit && is_digit c' then drop_underscores false s' else None
        | EmptyString => None
        end
      else
        match drop_underscores (is_digit c) s' with
        | Some r => Some (String c r)
        | None => None
        end
  end.

(** An optional sign, and the rest. *)
Definition sign_part (s : string) : bool * string :=
  match s with
  | String c r =>
      if (code c =? 45)%nat then (true, r)
      else if (code c =? 43)%nat then (false, r)
      else (false, s)
  | EmptyString => (false, s)
  end.

(** [int(s)] *)
Definition py_int (s : string) : option Z :=
  let (neg, body) := sign_part (strip s) in
  match drop_underscores false body with
  | Some digits =>
      match span_digits digits with
      | (String _ _ as d, EmptyString) =>
          Some (if neg then - digits_value 0 d else digits_value 0 d)
      | _ => None
      end
  | None => None
  end.

Definition lower (c : ascii) : ascii :=
  if ((65 <=? code c) && (code c <=? 90))%nat then ascii_of_nat (code c + 32) else c.

Fixpoint lowercase (s : string) : string :=
  match s with
  | EmptyString => EmptyString
  | String c s' => String (lower c) (lowercase s')
  end.

(** [float(s)] *)
Definition py_float (s : string) : option float :=
  let (neg, body) := sign_part (strip s) in
  let word := lowercase body in
  if String.eqb word "inf" || String.eqb word "infinity"
  then Some (if neg then PrimFloat.neg_infinity else PrimFloat.infinity)
  else if String.eqb word "nan" then Some PrimFloat.nan
  else
    match drop_underscores false body with
    | Some text =>
        let (ip, rest) := span_digits text in
        let (fp, rest') :=
          match rest with
          | String c r => if (code c =? 46)%nat then span_digits r else (EmptyString, rest)
          | EmptyString => (EmptyString, rest)
          end in
        if String.eqb (ip ++ fp) "" then None
        else
          match exponent_part rest' with
          | Some e =>
              Some (decimal_to_float neg (digits_value 0 (ip ++ fp))
                      (e - Z.of_nat (String.length fp)))
          | None => None
          end
    | None => None
    end.

(** *** [repr] *)

Definition string_of_Z (z : Z) : string := NilZero.string_of_int (Z.to_int z).

(** [n / d] rounded down to an integer, and whether [n / d] lies in the lower
    half, the middle or the upper half of the gap to the next integer. *)
Definition divide_down (n d : Z) : Z * comparison :=
  (n / d, Z.compare (2 * (n mod d)) d).

(** The first [x] at or above [x0] with [n / d < 10 ^ (x + 1)]. *)
Fixpoint decimal_exponent (fuel : nat) (n d x : Z) : Z :=
  match fuel with
  | O => x
  | S fuel' =>
      let above :=
        if 0 <=? x + 1 then d * 10 ^ (x + 1) <=? n else d <=? n * 10 ^ (- (x + 1)) in
      if above then decimal_exponent fuel' n d (x + 1) else x
  end.

(** The digits of [n / d] at [p] significant digits, rounded down, with the
    position of [n / d] in the gap. *)
Definition digits_at (p : Z) (n d x : Z) : Z * comparison :=
  let t := x - p + 1 in
  if 0 <=? t then divide_down n (d * 10 ^ t) else divide_down (n * 10 ^ (- t)) d.

Definition round_trips (f : float) (digits e10 : Z) : bool :=
  match Prim2SF (decimal_to_float false digits e10), Prim2SF f with
  | S754_finite _ m1 e1, S754_finite _ m2 e2 => Pos.eqb m1 m2 && (e1 =? e2)
  | _, _ => false
  end.

(** The shortest digits that read back as [f], for a finite and positive
    [f = n / d]: the result is [(digits, e10)] for [digits * 10 ^ e10]. *)
Fixpoint shortest_digits (fuel : nat) (f : float) (p n d x : Z) : Z * Z :=
  let t := x - p + 1 in
  let (lo, side) := digits_at p n d x in
  let hi := lo + 1 in
  let first := match side with
               | Lt => lo
               | Gt => hi
               | Eq => if Z.even lo then lo else hi
               end in
  let second := if first =? lo then hi else lo in
  match fuel with
  | O => (first, t)
  | S fuel' =>
      if round_trips f first t then (first, t)
      else if round_trips f second t then (second, t)
      else shortest_digits fuel' f (p + 1) n d x
  end.

Fixpoint zeros (n : nat) : string :=
  match n with
  | O => EmptyString
  | S n' => String "0" (zeros n')
  end.

(** Trailing zeros of the digits move into the exponent. *)
Fixpoint trim_zeros (fuel : nat) (digits e10 : Z) : Z * Z :=
  match fuel with
  | O => (digits, e10)
  | S fuel' =>
      if (digits mod 10 =? 0) && negb (digits =? 0)
      then trim_zeros fuel' (digits / 10) (e10 + 1)
      else (digits, e10)
  end.

Definition repr_finite (f : float) (m : positive) (e : Z) : string :=
  let n := if 0 <=? e then Zpos m * 2 ^ e else Zpos m in
  let d := if 0 <=? e then 1 else 2 ^ (- e) in
  let x0 := ((Z.log2 n - Z.log2 d) * 30103) / 100000 - 2 in
  let x := decimal_exponent 8 n d x0 in
  let (digits, e10) := shortest_digits 16 f 1 n d x in
  let (digits, e10) := trim_zeros 17 digits e10 in
  let ds := string_of_Z digits in
  let len := Z.of_nat (String.length ds) in
  let decpt := len + e10 in
  if (decpt <=? -4) || (16 <? decpt) then
    let mantissa :=
      match ds with
      | String c EmptyString => ds
      | String c r => String c (String "." r)
      | EmptyString => ds
      end in
    let ex := decpt - 1 in
    let exs := string_of_Z (Z.abs ex) in
    mantissa ++ "e" ++ (if ex <? 0 then "-" else "+")
      ++ (if Z.abs ex <? 10 then "0" else "") ++ exs
  else if decpt <=? 0 then "0." ++ zeros (Z.to_nat (- decpt)) ++ ds
  else if len <=? decpt then ds ++ zeros (Z.to_nat (decpt - len)) ++ ".0"
  else
    String.substring 0 (Z.to_nat decpt) ds ++ "."
      ++ String.substring (Z.to_nat decpt) (Z.to_nat (len - decpt)) ds.

(** [repr] of a float *)
Definition repr_float (f : float) : string :=
  match Prim2SF f with
  | S754_zero s => if s then "-0.0" else "0.0"
  | S754_infinity s => if s then "-inf" else "inf"
  | S754_nan => "nan"
  | S754_finite s m e =>
      (if s then "-" else "") ++ repr_finite (PrimFloat.abs f) m e
  end.

Definition hex_digit (n : nat) : ascii :=
  if (n <? 10)%nat then ascii_of_nat (48 + n) else ascii_of_nat (87 + n).

(** Whether [repr] prints the character as it is. *)
Definition printable (c : ascii) : bool :=
  ((32 <=? code c) && (code c <=? 126) || (161 <=? code c) && negb (code c =? 173))%nat.

Fixpoint repr_chars (quote : ascii) (s : string) : string :=
  match s with
  | EmptyString => EmptyString
  | String c s' =>
      (if Ascii.eqb c quote || (code c =? 92)%nat then String "\" (String c EmptyString)
       else if (code c =? 10)%nat then "\n"
       else if (code c =? 13)%nat then "\r"
       else if (code c =? 9)%nat then "\t"
       else if printable c then String c EmptyString
       else String "\" (String "x" (String (hex_digit (code c / 16))
                                     (String (hex_digit (code c mod 16)) EmptyString))))
      ++ repr_chars quote s'
  end.

(** [repr] of a string: single quotes, unless the string holds a single
    quote and no double quote. *)
Definition repr_str (s : string) : string :=
  let single := ascii_of_nat 39 in
  let double := ascii_of_nat 34 in
  let quote := if has_char single s && negb (has_char double s) then double else single in
  String quote (repr_chars quote s) ++ String quote EmptyString.

Fixpoint join (sep : string) (l : list string) : string :=
  match l with
  | [] => EmptyString
  | [x] => x
  | x :: l' => x ++ sep ++ join sep l'
  end.

Fixpoint py_repr (v : value) : string :=
  match v with
  | VNone => "None"
  | VBool b => if b then "True" else "False"
  | VInt z => string_of_Z z
  | VFloat f => repr_float f
  | VStr s => repr_str s
  | VList l => "[" ++ join ", " (map py_repr l) ++ "]"
  | VDict d =>
      "{" ++ join ", " (map (fun kv => match kv with
                                        | (k, x) => repr_str k ++ ": " ++ py_repr x
                                        end) d) ++ "}"
  end.

(** *** [json.dumps] *)

Fixpoint dumps_chars (s : string) : string :=
  match s with
  | EmptyString => EmptyString
  | String c s' =>
      (if (code c =? 34)%nat || (code c =? 92)%nat then String "\" (String c EmptyString)
       else if (code c =? 10)%nat then "\n"
       else if (code c =? 13)%nat then "\r"
       else if (code c =? 9)%nat then "\t"
       else if (code c =? 8)%nat then "\b"
       else if (code c =? 12)%nat then "\f"
       else if ((32 <=? code c) && (code c <=? 126))%nat then String c EmptyString
       else String "\" (String "u" (String "0" (String "0"
              (String (hex_digit (code c / 16))
                 (String (hex_digit (code c mod 16)) EmptyString))))))
      ++ dumps_chars s'
  end.

Definition quote : string := String (ascii_of_nat 34) EmptyString.

Definition dumps_str (s : string) : string := quote ++ dumps_chars s ++ quote.

Definition dumps_float (f : float) : string :=
  match Prim2SF f with
  | S754_infinity s => if s then "-Infinity" else "Infinity"
  | S754_nan => "NaN"
  | _ => repr_float f
  end.

(** [json.dumps] with its default separators. *)
Fixpoint json_dumps (v : value) : string :=
  match v with
  | VNone => "null"
  | VBool b => if b then "true" else "false"
  | VInt z => string_of_Z z
  | VFloat f => dumps_float f
  | VStr s => dumps_str s
  | VList l => "[" ++ join ", " (map json_dumps l) ++ "]"
  | VDict d =>
      "{" ++ join ", " (map (fun kv => match kv with
                                        | (k, x) => dumps_str k ++ ": " ++ json_dumps x
                                        end) d) ++ "}"
  end.

Definition builtins : Builtins := Build_Builtins json_loads py_repr py_int py_float.

End Reference.

(** ** Concrete inputs *)

Module Examples.
Import HttpMCPClient.

(** The arguments of the specification's example of coercion. *)
Definition example_arguments : dict :=
  [("a", VStr "10"); ("b", VStr "5.5"); ("c", VStr "x")].

(** The tool of the test fixtures, one whose parameters lack a description,
    and one without an input schema. *)
Definition example_tools : dict :=
  [("add",
     VDict [("name", VStr "add");
            ("description", VStr "Add two numbers");
            ("inputSchema",
              VDict [("type", VStr "object");
                     ("properties",
                       VDict [("a", VDict [("type", VStr "number");
                                           ("description", VStr "First number")]);
                              ("b", VDict [("type", VStr "number")])]);
                     ("required", VList [VStr "a"; VStr "b"])])]);
   ("ping", VDict [("name", VStr "ping"); ("inputSchema", VDict [])])].

(** A response body: the envelope as JSON, framed as a server-sent event. *)
Definition body_of (envelope : dict) : string :=
  sse_frame (Reference.json_dumps (VDict envelope)).

Definition rpc_result (id : Z) (result : value) : dict :=
  [("jsonrpc", VStr "2.0"); ("id", VInt id); ("result", result)].

Definition text_item (txt : string) : dict := [("type", VStr "text"); ("text", VStr txt)].

Definition text_content (txt : string) : dict :=
  [("content", VList [VDict (text_item txt)]); ("isError", VBool false)].

(** The text [{"result": 4}] of the specification's example. *)
Definition four_text : string := Reference.json_dumps (VDict [("result", VInt 4)]).

Definition four_envelope : dict := rpc_result 2 (VDict (text_content four_text)).

Definition done_envelope : dict := rpc_result 2 (VDict (text_content "done")).

(** A result whose [content] is a string, not a list. *)
Definition plain_envelope : dict := rpc_result 2 (VDict [("content", VStr "plain")]).

(** A result without [content]. *)
Definition bare_envelope : dict := rpc_result 2 (VDict [("value", VInt 4)]).

Definition error_envelope : dict :=
  [("jsonrpc", VStr "2.0");
   ("id", VInt 2);
   ("error", VDict [("code", VInt (-32602)); ("message", VStr "Unknown tool: nope")])].

(** An envelope with neither ["result"] nor ["error"]. *)
Definition empty_envelope : dict := [("jsonrpc", VStr "2.0"); ("id", VInt 2)].

Definition initialize_envelope : dict :=
  rpc_result 1
    (VDict [("protocolVersion", VStr "2024-11-05");
            ("capabilities", VDict []);
            ("serverInfo", VDict [("name", VStr "Calculator")])]).

(** The payload [{"result":{"tools":[]}}] of the specification's example. *)
Definition tools_payload : string :=
  "{" ++ Reference.quote ++ "result" ++ Reference.quote ++ ":{"
      ++ Reference.quote ++ "tools" ++ Reference.quote ++ ":[]}}".

(** The response with status 200 that carries an envelope, and a network
    that answers the next request with it. *)
Definition response_of (envelope : dict) : Response :=
  {| status_code := 200; mcp_session_id_header := None; text := body_of envelope |}.

Definition answered (envelope : dict) : network := quiet [Answer (response_of envelope)].

Definition calculator_url : string := "http://127.0.0.1:8000/mcp".

(** A server that answers the handshake: the initialize request with a
    session id, the notification with 202 and no body. *)
Definition handshake : list reply :=
  [ok_reply (Some "session-1") (body_of initialize_envelope);
   Answer {| status_code := 202; mcp_session_id_header := None; text := "" |}].

Definition initialize_response : Response :=
  {| status_code := 200;
     mcp_session_id_header := Some "session-1";
     text := body_of initialize_envelope |}.

(** The notification is answered with an error status. *)
Definition notification_refused : list reply :=
  [Answer initialize_response;
   Answer {| status_code := 500; mcp_session_id_header := None; text := "" |}].

(** The notification is not delivered. *)
Definition notification_lost : list reply :=
  [Answer initialize_response; Fail "ReadTimeout"].

(** A session that has listed the tools of the fixtures. *)
Definition cached_session : client :=
  {| server_url := calculator_url;
     _client := Some NewAsyncClient;
     _session_id := Some "session-1";
     _tools_cache := Some (Dict.values example_tools);
     _request_id := 2 |}.

(** The client and the network after that session is closed and a new one
    opened. *)
Definition reconnected : state :=
  snd (@connect Reference.builtins (snd (disconnect (cached_session, quiet handshake)))).

End Examples.

(** ** Situations at the edges *)

Module Scenarios.
Import HttpMCPClient Examples.

(** The server cannot be reached. *)
Definition unreachable : network := quiet [Fail "ConnectError"].

(** The server answers with an error status, whatever the body. *)
Definition server_error : network :=
  quiet [Answer {| status_code := 500;
                   mcp_session_id_header := None;
                   text := body_of four_envelope |}].

(** The tools of a [tools/list] result: one with a field the client does not
    read and no description, one without an input schema. *)
Definition listed_tools : list dict :=
  [[("name", VStr "add");
    ("title", VStr "Addition");
    ("inputSchema", VDict [("type", VStr "object")])];
   [("name", VStr "ping"); ("description", VStr "Ping the server")]].

Definition tools_envelope : dict :=
  rpc_result 2 (VDict [("tools", VList (map VDict listed_tools))]).

(** A listing whose second tool has no name. *)
Definition nameless_tools : list dict :=
  [[("name", VStr "add")]; [("description", VStr "A tool without a name")]].

Definition nameless_envelope : dict :=
  rpc_result 2 (VDict [("tools", VList (map VDict nameless_tools))]).

(** A body that is JSON but not an object, and one that is not JSON. *)
Definition array_response : Response :=
  {| status_code := 200; mcp_session_id_header := None; text := "[1, 2]" |}.

Definition html_response : Response :=
  {| status_code := 200; mcp_session_id_header := None; text := "<html>Bad gateway</html>" |}.

(** An envelope whose error is a string. *)
Definition error_text_envelope : dict :=
  [("jsonrpc", VStr "2.0"); ("id", VInt 2); ("error", VStr "boom")].

(** The initialize request is answered with a session id and an error. *)
Definition initialize_refused : Response :=
  {| status_code := 200;
     mcp_session_id_header := Some "session-1";
     text := body_of error_envelope |}.

(** Tools as [list_tools] returns them. *)
Definition add_tool : dict :=
  [("name", VStr "add"); ("description", VStr "Add two numbers"); ("inputSchema", VDict [])].

Definition ping_tool : dict :=
  [("name", VStr "ping"); ("description", VStr "Ping"); ("inputSchema", VDict [])].

(** A later definition of the tool [add]. *)
Definition add_tool_v2 : dict :=
  [("name", VStr "add"); ("description", VStr "Add numbers"); ("inputSchema", VDict [])].

(** Tools that cannot be registered under a name. *)
Definition unnamed_tool : dict := [("description", VStr "No name")].

Definition listed_name_tool : dict := [("name", VList [VStr "add"])].

Definition said (role : ConversationManager.MessageRole) (content : string) (timestamp : Z) : ConversationManager.Message :=
  {| ConversationManager.role := role;
     ConversationManager.content := content;
     ConversationManager.timestamp := timestamp;
     ConversationManager.tool_call_id := None;
     ConversationManager.tool_name := None |}.

(** Three messages of a conversation. *)
Definition three_messages : list ConversationManager.Message :=
  [said ConversationManager.USER "What is 2 + 2?" 1; said ConversationManager.ASSISTANT "4" 2; said ConversationManager.USER "Thanks" 3].

End Scenarios.

(** ** The chat service in use *)

Module ChatScenarios.
Import HttpMCPClient Examples Scenarios Orchestration.

Definition reference_serializer : Serializer := {| json_dumps := Reference.json_dumps |}.

(** A tool call as the LLM sends it. *)
Definition tool_call_of (name : string) (arguments : value) : dict :=
  [("function", VDict [("name", VStr name); ("arguments", arguments)])].

(** The LLM asks for 2 + 2 with its numbers as strings, and once with
    arguments that are not JSON. *)
Definition add_call : dict := tool_call_of "add" (VDict [("a", VStr "2"); ("b", VStr "2")]).

Definition garbled_call : dict := tool_call_of "add" (VStr "{a: 2").

Definition llm_says (text : string) : llm_reply :=
  Respond (VDict [("model", VStr "llama3.1:8b");
                  ("message", VDict [("role", VStr "assistant"); ("content", VStr text)])]).

(** A service in a session, with the tool [add] registered, an empty
    conversation and a clock that counts its readings. *)
Definition chat_service (n : network) (answers : list llm_reply)
  : service ConversationManager.manager :=
  {| _mcp := (in_session, n);
     _ollama := {| unavailable := None; answers := answers; asked := [] |};
     _tools := [(VStr "add", VDict add_tool)];
     _conversation := ConversationManager.__init__ 50;
     datetime_now := Z.of_nat;
     clock_reads := 0 |}.

(** A new service and a server that answers the handshake and lists the
    tools. *)
Definition new_service : service ConversationManager.manager :=
  {| _mcp := (__init__ calculator_url,
              quiet (handshake ++ [Answer (response_of tools_envelope)])%list);
     _ollama := {| unavailable := None; answers := []; asked := [] |};
     _tools := [];
     _conversation := ConversationManager.__init__ 50;
     datetime_now := Z.of_nat;
     clock_reads := 0 |}.

End ChatScenarios.

(** * Properties *)

Local Open Scope list_scope.

(** ** Dictionaries *)

Module DictFacts.

Lemma mem_false_not_in (k : string) (d : dict) :
  Dict.mem k d = false <-> ~ In k (Dict.keys d).
Proof.
  unfold Dict.mem. induction d as [|[k' v] d IH]; simpl.
  - split; [intros _ []|reflexivity].
  - destruct (String.eqb_spec k k') as [->|Hne].
    + split; [discriminate|intros H; exfalso; apply H; now left].
    + rewrite IH. split.
      * intros H [Heq|Hin]; [now apply Hne|now apply H].
      * intros H Hin. apply H. now right.
Qed.

Lemma set_absent (k : string) (v : value) (d : dict) :
  ~ In k (Dict.keys d) -> Dict.set k v d = (d ++ [(k, v)])%list.
Proof.
  induction d as [|[k' v'] d IH]; simpl; intros Hnot.
  - reflexivity.
  - destruct (String.eqb_spec k k') as [->|Hne].
    + exfalso. apply Hnot. now left.
    + rewrite IH; [reflexivity|]. intros Hin. apply Hnot. now right.
Qed.

Lemma keys_app (d1 d2 : dict) :
  Dict.keys (d1 ++ d2) = (Dict.keys d1 ++ Dict.keys d2)%list.
Proof. unfold Dict.keys. apply map_app. Qed.

Lemma get_in (k : string) (v : value) (d : dict) :
  Dict.well_formed d -> In (k, v) d -> Dict.get k d = Some v.
Proof.
  unfold Dict.well_formed. induction d as [|[k' v'] d IH]; simpl; intros Hnd Hin.
  - destruct Hin.
  - inversion Hnd as [|? ? Hnot Hnd']; subst.
    destruct Hin as [Heq|Hin].
    + inversion Heq; subst. now rewrite String.eqb_refl.
    + destruct (String.eqb_spec k k') as [->|Hne].
      * exfalso. apply Hnot. unfold Dict.keys.
        change k' with (fst (k', v)). now apply in_map.
      * now apply IH.
Qed.

(** A loop that stores one value per item of a dictionary builds the
    dictionary of the stored values, in the same order. *)
Lemma fold_set (f : string * value -> value) (items acc : dict) :
  NoDup (Dict.keys acc ++ Dict.keys items) ->
  fold_left (fun d item => Dict.set (fst item) (f item) d) items acc
  = (acc ++ map (fun item => (fst item, f item)) items)%list.
Proof.
  revert acc. induction items as [|[k v] items IH]; simpl; intros acc Hnd.
  - now rewrite app_nil_r.
  - assert (Hnot : ~ In k (Dict.keys acc)).
    { intros Hin. apply NoDup_remove_2 in Hnd. apply Hnd.
      apply in_or_app. now left. }
    rewrite (set_absent _ _ _ Hnot), IH.
    + now rewrite <- app_assoc.
    + rewrite keys_app. simpl. rewrite <- app_assoc. exact Hnd.
Qed.

End DictFacts.

(** ** The calculator server *)

Module CalculatorFacts.
Import Calculator.

(** C9.  The divide tool returns [{"result": a / b}] when both arguments are
    present and [b] is not zero, returns [{"error": "Cannot divide by zero"}]
    without raising when [b == 0], and returns the missing-argument message
    when an argument is absent. *)
Theorem divide_spec :
  (forall a b : float,
      PrimFloat.eqb b PrimFloat.zero = false ->
      divide (Some a) (Some b) = Ok (VDict [("result", VFloat (a / b)%float)]))
  /\ (forall a b : float,
        PrimFloat.eqb b PrimFloat.zero = true ->
        divide (Some a) (Some b) = Ok (VDict [("error", VStr "Cannot divide by zero")]))
  /\ (forall a b : option float,
        a = None \/ b = None ->
        divide a b = Ok (VDict [("error", VStr "Both numbers are required for division")])).
Proof.
  repeat split.
  - intros a b Hb. unfold divide, calculate. simpl. now rewrite Hb.
  - intros a b Hb. unfold divide, calculate. simpl. now rewrite Hb.
  - intros a b [-> | ->]; [reflexivity|]. now destruct a.
Qed.

(** The runs of the specification: ten divided by four, by zero, and by a
    missing number. *)
Lemma divide_spec_witness :
  divide (Some 10%float) (Some 4%float) = Ok (VDict [("result", VFloat 2.5%float)])
  /\ divide (Some 10%float) (Some 0%float)
     = Ok (VDict [("error", VStr "Cannot divide by zero")])
  /\ divide (Some 10%float) None
     = Ok (VDict [("error", VStr "Both numbers are required for division")]).
Proof.
  destruct divide_spec as (Hresult & Hzero & Hmissing).
  split; [exact (Hresult 10%float 4%float eq_refl)|].
  split; [exact (Hzero 10%float 0%float eq_refl)|].
  exact (Hmissing (Some 10%float) None (or_intror eq_refl)).
Defined.

End CalculatorFacts.

(** ** Argument coercion *)

Module ChatServiceFacts.
Import ChatService Examples.

Lemma coerce_loop (B : Builtins) (arguments : dict) :
  Dict.well_formed arguments ->
  _coerce_numeric_arguments arguments
  = map (fun item => (fst item, coerce_value (snd item))) arguments.
Proof.
  intros Hwf. unfold _coerce_numeric_arguments.
  now rewrite (DictFacts.fold_set (fun item => coerce_value (snd item))).
Qed.

Lemma keys_map_snd (f : value -> value) (d : dict) :
  Dict.keys (map (fun item => (fst item, f (snd item))) d) = Dict.keys d.
Proof.
  unfold Dict.keys. rewrite map_map. now apply map_ext.
Qed.

Lemma well_formed_map_snd (f : value -> value) (d : dict) :
  Dict.well_formed d -> Dict.well_formed (map (fun item => (fst item, f (snd item))) d).
Proof. unfold Dict.well_formed. now rewrite keys_map_snd. Qed.

Lemma example_arguments_well_formed : Dict.well_formed example_arguments.
Proof.
  unfold Dict.well_formed, example_arguments. simpl.
  repeat constructor; simpl; intuition discriminate.
Qed.

(** C8.  Coercion is a function from argument maps to argument maps (it
    cannot raise) that keeps the keys, in their order.  Under each key it
    stores the integer a string parses to, else the float it parses to, else
    the string itself; a value that is not a string is stored as it is.  With
    the reference builtins, [{"a": "10", "b": "5.5", "c": "x"}] becomes
    [{"a": 10, "b": 5.5, "c": "x"}]. *)
Theorem coerce_numeric_arguments_spec (B : Builtins) (arguments : dict) :
  Dict.well_formed arguments ->
  Dict.keys (_coerce_numeric_arguments arguments) = Dict.keys arguments
  /\ (forall key val,
        In (key, val) arguments ->
        Dict.get key (_coerce_numeric_arguments arguments) = Some (coerce_value val))
  /\ (forall s z, py_int s = Some z -> coerce_value (VStr s) = VInt z)
  /\ (forall s f,
        py_int s = None -> py_float s = Some f -> coerce_value (VStr s) = VFloat f)
  /\ (forall s, py_int s = None -> py_float s = None -> coerce_value (VStr s) = VStr s)
  /\ (forall val, (forall s, val <> VStr s) -> coerce_value val = val)
  /\ @_coerce_numeric_arguments Reference.builtins example_arguments
     = [("a", VInt 10); ("b", VFloat 5.5%float); ("c", VStr "x")].
Proof.
  intros Hwf. rewrite (coerce_loop B arguments Hwf).
  split; [apply keys_map_snd|].
  split.
  { intros key val Hin. apply DictFacts.get_in.
    - now apply well_formed_map_snd.
    - change (key, coerce_value val)
        with ((fun item => (fst item, coerce_value (snd item))) (key, val)).
      now apply in_map. }
  split; [intros s z Hz; simpl; now rewrite Hz|].
  split; [intros s f Hz Hf; simpl; now rewrite Hz, Hf|].
  split; [intros s Hz Hf; simpl; now rewrite Hz, Hf|].
  split; [|vm_compute; reflexivity].
  intros val Hval. destruct val; try reflexivity. now destruct (Hval s).
Qed.

Lemma coerce_numeric_arguments_witness :
  Dict.keys (@_coerce_numeric_arguments Reference.builtins example_arguments)
  = ["a"; "b"; "c"].
Proof.
  exact (proj1 (coerce_numeric_arguments_spec
                  Reference.builtins example_arguments example_arguments_well_formed)).
Defined.

End ChatServiceFacts.

(** ** The tool registry *)

Module ToolRegistryFacts.
Import ToolRegistry Examples.

Lemma enhance_properties_spec (items acc : dict) :
  NoDup (Dict.keys acc ++ Dict.keys items) ->
  Forall (fun property => is_dict (snd property)) items ->
  enhance_properties items acc = Ok (acc ++ map spec_property items).
Proof.
  revert acc. induction items as [|[prop_name prop_schema] items IH];
    simpl; intros acc Hnd Hdict.
  - now rewrite app_nil_r.
  - inversion Hdict as [|? ? Hd Hrest]; subst. simpl in Hd.
    destruct prop_schema as [| | | | |l|p]; try contradiction.
    assert (Hnot : ~ In prop_name (Dict.keys acc)).
    { intros Hin. apply NoDup_remove_2 in Hnd. apply Hnd.
      apply in_or_app. now left. }
    assert (Hnd' : forall x,
               NoDup (Dict.keys (acc ++ [(prop_name, x)]) ++ Dict.keys items)).
    { intros x. rewrite DictFacts.keys_app. simpl. now rewrite <- app_assoc. }
    simpl. destruct (Dict.mem "description" p) eqn:Hmem; simpl.
    + rewrite (DictFacts.set_absent _ _ _ Hnot), (IH _ (Hnd' _) Hrest).
      now rewrite <- app_assoc.
    + apply DictFacts.mem_false_not_in in Hmem.
      rewrite (DictFacts.set_absent _ _ _ Hmem).
      rewrite (DictFacts.set_absent _ _ _ Hnot), (IH _ (Hnd' _) Hrest).
      now rewrite <- app_assoc.
Qed.

Lemma transform_input_schema_spec (input_schema : value) :
  input_schema_ok input_schema ->
  _transform_input_schema input_schema = Ok (spec_parameters input_schema).
Proof.
  unfold input_schema_ok, _transform_input_schema. intros [Hfalsy|Hok].
  - rewrite Hfalsy. simpl.
    destruct input_schema as [| | | | | |[|item schema]]; try reflexivity.
    discriminate.
  - destruct input_schema as [| | | | | |schema]; try contradiction.
    destruct schema as [|item schema]; [reflexivity|].
    change (truthy (VDict (item :: schema))) with true. simpl negb. cbv iota.
    unfold py_get at 1, Dict.get_default. unfold spec_parameters.
    destruct (Dict.get "properties" (item :: schema)) as [properties|].
    + destruct properties as [| | | | | |properties]; try contradiction.
      destruct Hok as [Hwf Hdict]. simpl obind.
      rewrite (enhance_properties_spec properties [] Hwf Hdict). reflexivity.
    + reflexivity.
Qed.

Lemma ollama_tool_spec (tool : value) :
  tool_definition tool -> ollama_tool tool = Ok (spec_function_schema tool).
Proof.
  destruct tool as [| | | | | |t]; try contradiction. intros [Hname Hschema].
  unfold ollama_tool, py_getitem, py_get, spec_function_schema.
  unfold Dict.mem in Hname. unfold Dict.get_default at 3.
  destruct (Dict.get "name" t) as [name|]; [|discriminate]. simpl obind.
  now rewrite (transform_input_schema_spec _ Hschema).
Qed.

Lemma example_tools_defined : Forall tool_definition (Dict.values example_tools).
Proof.
  unfold example_tools. simpl. apply Forall_cons; [|apply Forall_cons; [|apply Forall_nil]].
  - split; [reflexivity|]. right. simpl. split.
    + unfold Dict.well_formed. simpl. repeat constructor; simpl; intuition discriminate.
    + repeat constructor.
  - split; [reflexivity|]. now left.
Qed.

(** C7.  For the tools of the registry, each a tool definition,
    [to_ollama_format] emits for every tool
    [{type: "function", function: {name, description, parameters}}].  The
    parameters are [{type: "object", properties: {}, required: []}] when the
    input schema is empty or absent.  Otherwise every property schema is
    copied, one that lacks a description gets ["The <propertyName> parameter"]
    and one that has a description is left as it is, and [required] is copied
    (the empty list if absent). *)
Theorem to_ollama_format_spec (_tools : dict) :
  Forall tool_definition (Dict.values _tools) ->
  to_ollama_format _tools = Ok (map spec_function_schema (Dict.values _tools)).
Proof.
  unfold to_ollama_format. induction (Dict.values _tools) as [|tool tools IH];
    intros Hdef; simpl.
  - reflexivity.
  - inversion Hdef as [|? ? Htool Htools]; subst.
    now rewrite (ollama_tool_spec _ Htool), (IH Htools).
Qed.

Lemma to_ollama_format_witness :
  to_ollama_format example_tools
  = Ok [VDict [("type", VStr "function");
               ("function",
                 VDict [("name", VStr "add");
                        ("description", VStr "Add two numbers");
                        ("parameters",
                          VDict [("type", VStr "object");
                                 ("properties",
                                   VDict [("a", VDict [("type", VStr "number");
                                                       ("description", VStr "First number")]);
                                          ("b", VDict [("type", VStr "number");
                                                       ("description",
                                                         VStr "The b parameter")])]);
                                 ("required", VList [VStr "a"; VStr "b"])])])];
        VDict [("type", VStr "function");
               ("function",
                 VDict [("name", VStr "ping");
                        ("description", VStr "");
                        ("parameters",
                          VDict [("type", VStr "object");
                                 ("properties", VDict []);
                                 ("required", VList [])])])]].
Proof.
  exact (to_ollama_format_spec example_tools example_tools_defined).
Defined.

End ToolRegistryFacts.

(** ** Strings *)

Module StringFacts.

Lemma append_assoc (a b c : string) : ((a ++ b) ++ c = a ++ (b ++ c))%string.
Proof. induction a as [|x a IH]; simpl; [reflexivity|now rewrite IH]. Qed.

Lemma prefix_cons_neq (a b : ascii) (p s : string) :
  a <> b -> String.prefix (String a p) (String b s) = false.
Proof. intros Hne. simpl. now destruct (ascii_dec a b). Qed.

Lemma prefix_append (p s : string) : String.prefix p (p ++ s)%string = true.
Proof.
  induction p as [|c p IH]; simpl; [now destruct s|].
  now destruct (ascii_dec c c).
Qed.

(** Trailing whitespace does not count. *)
Lemma rstrip_append_blank (s w : string) : rstrip w = "" -> rstrip (s ++ w)%string = rstrip s.
Proof.
  intros Hw. induction s as [|c s IH]; simpl; [exact Hw|now rewrite IH].
Qed.

Lemma rstrip_append (s t : string) :
  rstrip t <> "" -> rstrip (s ++ t)%string = (s ++ rstrip t)%string.
Proof.
  intros Ht. induction s as [|c s IH]; simpl; [reflexivity|].
  rewrite IH. destruct (s ++ rstrip t)%string eqn:Happ; [|reflexivity].
  destruct s; [|discriminate]. now destruct Ht.
Qed.

Lemma rstrip_empty_lstrip (s : string) : rstrip s = "" -> lstrip s = "".
Proof.
  induction s as [|c s IH]; simpl; [reflexivity|].
  destruct (rstrip s); [|discriminate].
  destruct (is_space c); [intros _; now apply IH|discriminate].
Qed.

Lemma rstrip_head (c : ascii) (s : string) :
  is_space c = false -> exists r, rstrip (String c s) = String c r.
Proof.
  intros Hc. simpl. rewrite Hc. destruct (rstrip s); eauto.
Qed.

Lemma has_char_rstrip (c : ascii) (s : string) :
  has_char c s = false -> has_char c (rstrip s) = false.
Proof.
  induction s as [|x s IH]; simpl; [reflexivity|].
  intros H. apply orb_false_iff in H as [Hx Hs]. specialize (IH Hs).
  destruct (rstrip s) as [|a r].
  - destruct (is_space x); [reflexivity|]. simpl. now rewrite Hx.
  - change (has_char c (String x (String a r))) with (Ascii.eqb c x || has_char c (String a r)).
    now rewrite Hx, IH.
Qed.

Lemma has_char_lstrip (c : ascii) (s : string) :
  has_char c s = false -> has_char c (lstrip s) = false.
Proof.
  induction s as [|x s IH]; simpl; [reflexivity|].
  intros H. destruct (is_space x); [|exact H].
  apply orb_false_iff in H as [_ Hs]. now apply IH.
Qed.

Lemma has_char_append (c : ascii) (s t : string) :
  has_char c (s ++ t)%string = has_char c s || has_char c t.
Proof.
  induction s as [|x s IH]; simpl; [reflexivity|]. now rewrite IH, orb_assoc.
Qed.

Lemma split_lines_one (s : string) : has_char newline s = false -> split_lines s = [s].
Proof.
  induction s as [|c s IH]; cbn [split_lines has_char]; [reflexivity|].
  intros H. apply orb_false_iff in H as [Hc Hs].
  rewrite Ascii.eqb_sym, Hc. now rewrite (IH Hs).
Qed.

Lemma split_lines_append (a b : string) :
  has_char newline a = false ->
  split_lines (a ++ String newline b)%string = a :: split_lines b.
Proof.
  induction a as [|c a IH]; cbn [split_lines has_char append].
  - intros _. now rewrite Ascii.eqb_refl.
  - intros H. apply orb_false_iff in H as [Hc Ha].
    rewrite Ascii.eqb_sym, Hc. now rewrite (IH Ha).
Qed.

Lemma prefix_trans (a b c : string) :
  String.prefix a b = true -> String.prefix b c = true -> String.prefix a c = true.
Proof.
  revert b c. induction a as [|x a IH]; intros b c Hab Hbc; [now destruct c|].
  destruct b as [|y b]; [discriminate|]. destruct c as [|z c]; [discriminate|].
  simpl in *. destruct (ascii_dec x y) as [->|]; [|discriminate].
  destruct (ascii_dec y z) as [->|]; [|discriminate].
  destruct (ascii_dec z z); [|contradiction]. now apply (IH b c).
Qed.

Lemma prefix_refl (a : string) : String.prefix a a = true.
Proof.
  induction a as [|x a IH]; [reflexivity|]. simpl. now destruct (ascii_dec x x).
Qed.

Lemma prefix_cons (c : ascii) (a b : string) :
  String.prefix a b = true -> String.prefix (String c a) (String c b) = true.
Proof. intros H. simpl. now destruct (ascii_dec c c). Qed.

Lemma split_lines_cons (s : string) : exists l ls, split_lines s = l :: ls.
Proof.
  induction s as [|c s (l & ls & IH)]; cbn [split_lines]; [eauto|].
  destruct (Ascii.eqb c newline); [eauto|]. rewrite IH. eauto.
Qed.

Lemma space_newline (c : ascii) : is_space c = false -> Ascii.eqb c newline = false.
Proof.
  destruct (Ascii.eqb_spec c newline) as [->|]; [discriminate|reflexivity].
Qed.

Lemma split_lines_rstrip (s : string) : trimmed (split_lines (rstrip s)) (split_lines s).
Proof.
  induction s as [|c s IH].
  - apply trimmed_last. reflexivity.
  - cbn [rstrip]. destruct (split_lines_cons s) as (l2 & ls2 & Hs).
    destruct (rstrip s) as [|a r] eqn:Hr.
    + destruct (is_space c) eqn:Hc.
      * destruct (split_lines_cons (String c s)) as (l & ls & ->).
        apply trimmed_last. now destruct l.
      * cbn [split_lines]. rewrite (space_newline c Hc), Hs.
        apply trimmed_last. apply prefix_cons. now destruct l2.
    + cbn [split_lines]. fold (split_lines (String a r)).
      destruct (Ascii.eqb c newline).
      * now apply trimmed_cons.
      * rewrite Hs in *. inversion IH as [a1 a2 t2 Hp Heq1 Heq2|a0 t1 t2 Ht Heq1 Heq2].
        -- apply trimmed_last. now apply prefix_cons.
        -- now apply trimmed_cons.
Qed.

Lemma find_trimmed (p : string) (l1 l2 : list string) :
  trimmed l1 l2 ->
  find (String.prefix p) l2 = None -> find (String.prefix p) l1 = None.
Proof.
  induction 1 as [a1 a2 t2 Hp|a t1 t2 Ht IH]; cbn [find].
  - destruct (String.prefix p a1) eqn:H1; [|reflexivity].
    now rewrite (prefix_trans p a1 a2 H1 Hp).
  - destruct (String.prefix p a); [exact (fun H => H)|exact IH].
Qed.

Lemma json_start_not_space (c : ascii) : json_start c = true -> is_space c = false.
Proof.
  destruct c as [[] [] [] [] [] [] [] []]; vm_compute; congruence.
Qed.

Lemma json_start_not_d (c : ascii) : json_start c = true -> "d"%char <> c.
Proof.
  destruct c as [[] [] [] [] [] [] [] []]; vm_compute; congruence.
Qed.

End StringFacts.

(** ** The reference decoder *)

Module ReferenceFacts.
Import Reference.

Ltac each_char c := destruct c as [[] [] [] [] [] [] [] []].

(** What the lexer does with a whitespace character of [str.strip]. *)
Lemma space_char (c : ascii) :
  is_space c = true ->
  word_char c = false
  /\ (idle_step c = Some ([], Idle) \/ idle_step c = None)
  /\ (code c =? 34)%nat = false
  /\ (code c =? 92)%nat = false
  /\ (code c =? 117)%nat = false
  /\ escape c = None
  /\ hex_value c = None.
Proof.
  each_char c; vm_compute; intros H; try discriminate H; repeat split; auto.
Qed.

Lemma json_ws_space (c : ascii) : json_ws c = true -> is_space c = true.
Proof. each_char c; vm_compute; congruence. Qed.

Lemma start_chars (c : ascii) :
  (punctuation c = Some TLBrace -> json_start c = true)
  /\ (punctuation c = Some TLBracket -> json_start c = true)
  /\ (forall v, punctuation c <> Some (TScalar v))
  /\ ((code c =? 34)%nat = true -> json_start c = true)
  /\ ((code c =? 45)%nat = true -> json_start c = true)
  /\ (is_digit c = true -> json_start c = true).
Proof.
  each_char c; vm_compute; repeat split; intros; congruence.
Qed.

Lemma space_step (st st' : lexer) (c : ascii) (ts1 ts' : list token) :
  is_space c = true ->
  lex_step st c = Some (ts1, st') ->
  lex_end st' = Some ts' ->
  lex_end st = Some (ts1 ++ ts').
Proof.
  intros Hc Hstep Hend.
  destruct (space_char c Hc) as (Hword & Hidle & Hq & Hb & Hu & Hesc & Hhex).
  destruct st as [|w|s|s|s hex]; cbn [lex_step] in Hstep.
  - destruct Hidle as [Hidle|Hidle]; rewrite Hidle in Hstep; [|discriminate].
    injection Hstep as <- <-. exact Hend.
  - rewrite Hword in Hstep. cbn [lex_end].
    destruct (word_value w) as [v|]; [|discriminate].
    destruct Hidle as [Hidle|Hidle]; rewrite Hidle in Hstep; [|discriminate].
    injection Hstep as <- <-. cbn [lex_end] in Hend. injection Hend as <-. reflexivity.
  - rewrite Hq, Hb in Hstep. destruct (code c <? 32)%nat; [discriminate|].
    injection Hstep as <- <-. discriminate.
  - rewrite Hu, Hesc in Hstep. discriminate.
  - rewrite Hhex in Hstep. discriminate.
Qed.

(** The lexer reads a text and the text without its trailing whitespace alike. *)
Lemma lex_rstrip (s : string) :
  forall st ts, lex st s = Some ts -> lex st (rstrip s) = Some ts.
Proof.
  induction s as [|c s IH]; intros st ts H; [exact H|].
  cbn [lex] in H.
  destruct (lex_step st c) as [[ts1 st']|] eqn:Hstep; [|discriminate].
  destruct (lex st' s) as [ts'|] eqn:Hrest; [|discriminate].
  injection H as <-. specialize (IH st' ts' Hrest).
  cbn [rstrip]. destruct (rstrip s) as [|a r].
  - destruct (is_space c) eqn:Hc.
    + cbn [lex]. exact (space_step st st' c ts1 ts' Hc Hstep IH).
    + cbn [lex] in *. now rewrite Hstep, IH.
  - cbn [lex] in *. rewrite Hstep. now rewrite IH.
Qed.

Lemma lex_lstrip (s : string) (ts : list token) :
  lex Idle s = Some ts -> lex Idle (lstrip s) = Some ts.
Proof.
  revert ts. induction s as [|c s IH]; intros ts H; [exact H|].
  cbn [lstrip]. destruct (is_space c) eqn:Hc; [|exact H].
  cbn [lex lex_step] in H.
  destruct (space_char c Hc) as (_ & [Hidle|Hidle] & _); rewrite Hidle in H; [|discriminate].
  apply IH. destruct (lex Idle s); [|discriminate]. exact H.
Qed.

Lemma lstrip_head (s : string) (c : ascii) (rest : string) :
  lstrip s = String c rest -> is_space c = false.
Proof.
  induction s as [|x s IH]; cbn [lstrip]; [discriminate|].
  destruct (is_space x) eqn:Hx; [exact IH|]. intros H. injection H as <- _. exact Hx.
Qed.

Lemma parse_head (ts : list token) (v : value) :
  parse ts = Some v ->
  exists t ts', ts = t :: ts' /\ (t = TLBrace \/ t = TLBracket \/ exists x, t = TScalar x).
Proof.
  unfold parse. destruct ts as [|t ts']; cbn [parse_value List.length]; [discriminate|].
  intros H. exists t, ts'. split; [reflexivity|].
  destruct t; try discriminate; eauto.
Qed.

Lemma first_char_snoc (w : string) (c x : ascii) :
  first_char w = Some c -> first_char (snoc w x) = Some c.
Proof. destruct w; [discriminate|exact (fun H => H)]. Qed.

(** A word the lexer is reading ends as a word that has a value. *)
Lemma lex_word (s : string) :
  forall w c ts,
    first_char w = Some c ->
    lex (InWord w) s = Some ts ->
    exists w' v, first_char w' = Some c /\ word_value w' = Some v.
Proof.
  induction s as [|x s IH]; intros w c ts Hw H.
  - cbn [lex lex_end] in H. destruct (word_value w) as [v|] eqn:Hv; [|discriminate].
    now exists w, v.
  - cbn [lex lex_step] in H. destruct (word_char x).
    + destruct (lex (InWord (snoc w x)) s) as [ts'|] eqn:Hrest; [|discriminate].
      exact (IH (snoc w x) c ts' (first_char_snoc w c x Hw) Hrest).
    + destruct (word_value w) as [v|] eqn:Hv; [|discriminate]. now exists w, v.
Qed.

Lemma word_value_start (c : ascii) (x : string) (v : value) :
  word_value (String c x) = Some v -> json_start c = true.
Proof.
  unfold word_value.
  repeat match goal with
         | |- (if String.eqb ?a ?b then _ else _) = _ -> _ =>
             destruct (String.eqb_spec a b) as [Heq|_];
             [injection Heq as -> _; reflexivity|]
         end.
  unfold json_number. destruct (start_chars c) as (_ & _ & _ & _ & Hminus & Hdigit).
  destruct (code c =? 45)%nat eqn:Hc; [intros _; now apply Hminus|].
  cbn [span_digits]. destruct (is_digit c) eqn:Hd; [intros _; now apply Hdigit|].
  discriminate.
Qed.

Lemma lex_head (c : ascii) (rest : string) (t : token) (ts : list token) :
  is_space c = false ->
  lex Idle (String c rest) = Some (t :: ts) ->
  t = TLBrace \/ t = TLBracket \/ (exists x, t = TScalar x) ->
  json_start c = true.
Proof.
  intros Hc H Ht. cbn [lex lex_step] in H. unfold idle_step in H.
  destruct (start_chars c) as (Hbrace & Hbracket & Hscalar & Hquote & _ & _).
  destruct (json_ws c) eqn:Hws.
  { apply json_ws_space in Hws. congruence. }
  destruct (punctuation c) as [p|] eqn:Hp.
  { destruct (lex Idle rest); [|discriminate]. injection H as -> _.
    destruct Ht as [->| [->| [x ->]]]; [now apply Hbrace|now apply Hbracket|].
    now destruct (Hscalar x). }
  destruct (code c =? 34)%nat eqn:Hq; [now apply Hquote|].
  destruct (word_char c); [|discriminate].
  destruct (lex (InWord (String c "")) rest) as [ts'|] eqn:Hrest; [|discriminate].
  destruct (lex_word rest (String c "") c ts' eq_refl Hrest) as (w' & v & Hw' & Hv).
  destruct w' as [|c' x]; [discriminate|]. injection Hw' as ->.
  exact (word_value_start c x v Hv).
Qed.

End ReferenceFacts.

(** ** Response framing *)

Module ParseFacts.
Import HttpMCPClient StringFacts Examples.

(** Leading whitespace of a text that goes on with a character that is none. *)
Lemma lstrip_append (s : string) (c : ascii) (t : string) :
  is_space c = false ->
  lstrip (s ++ String c t)%string = (lstrip s ++ String c t)%string.
Proof.
  intros Hc. induction s as [|x s IH]; cbn [append lstrip].
  - now rewrite Hc.
  - destruct (is_space x); [exact IH|reflexivity].
Qed.

Lemma lstrip_before_data (s t : string) :
  lstrip (s ++ ("data: " ++ t))%string = (lstrip s ++ ("data: " ++ t))%string.
Proof. exact (lstrip_append s "d" ("ata: " ++ t) eq_refl). Qed.

Lemma lstrip_blank_append (s t : string) :
  lstrip s = "" -> lstrip (s ++ t)%string = lstrip t.
Proof.
  induction s as [|x s IH]; cbn [append lstrip]; [reflexivity|].
  destruct (is_space x); [exact IH|discriminate].
Qed.

Lemma lstrip_nonblank_append (s t : string) :
  lstrip s <> "" -> lstrip (s ++ t)%string = (lstrip s ++ t)%string.
Proof.
  induction s as [|x s IH]; cbn [append lstrip]; [now intros H|].
  destruct (is_space x); [exact IH|reflexivity].
Qed.

Lemma lstrip_idempotent (s : string) : lstrip (lstrip s) = lstrip s.
Proof.
  induction s as [|x s IH]; cbn [lstrip]; [reflexivity|].
  destruct (is_space x) eqn:Hx; [exact IH|]. cbn [lstrip]. now rewrite Hx.
Qed.

(** A line that shows the prefix shows it when its leading whitespace is
    ignored. *)
Lemma prefix_data_lstrip (line : string) :
  String.prefix "data: " (lstrip line) = false -> String.prefix "data: " line = false.
Proof.
  destruct line as [|c line]; [reflexivity|]. cbn [lstrip].
  destruct (is_space c) eqn:Hc; [|now intros H].
  intros _. apply prefix_cons_neq. intros <-. discriminate.
Qed.

(** The lines of a text without its leading whitespace: some lines are gone,
    and the first line left has lost its leading whitespace. *)
Lemma split_lines_lstrip (s : string) :
  exists skipped line lines,
    split_lines s = skipped ++ line :: lines
    /\ split_lines (lstrip s) = lstrip line :: lines.
Proof.
  induction s as [|c s IH].
  - exists [], "", []. split; reflexivity.
  - cbn [lstrip]. destruct (is_space c) eqn:Hc.
    + destruct IH as (skipped & line & lines & Hs & Hl). cbn [split_lines].
      destruct (Ascii.eqb c newline).
      * exists ("" :: skipped), line, lines. rewrite Hs. split; [reflexivity|exact Hl].
      * rewrite Hs. destruct skipped as [|k skipped]; cbn [app].
        -- exists [], (String c line), lines. split; [reflexivity|].
           cbn [lstrip]. now rewrite Hc.
        -- exists (String c k :: skipped), line, lines. split; [reflexivity|exact Hl].
    + cbn [split_lines]. rewrite (space_newline c Hc).
      destruct (split_lines_cons s) as (l & ls & Hs). rewrite Hs.
      exists [], (String c l), ls. split; [reflexivity|]. cbn [lstrip]. now rewrite Hc.
Qed.

Lemma find_data_none (lines : list string) :
  (forall line, In line lines -> String.prefix "data: " (lstrip line) = false) ->
  find (String.prefix "data: ") lines = None.
Proof.
  induction lines as [|l lines IH]; intros H; [reflexivity|]. cbn [find].
  rewrite (prefix_data_lstrip l (H l (or_introl eq_refl))).
  apply IH. intros line Hin. apply H. now right.
Qed.

(** The text of some lines, each ended by a line feed, before [rest]. *)
Lemma find_after_fields (fields : list string) (rest : string) :
  Forall (fun line => has_char newline line = false
                      /\ String.prefix "data: " (lstrip line) = false) fields ->
  find (String.prefix "data: ")
    (split_lines (fold_right (fun line text => line ++ String newline text)%string
                    rest fields))
  = find (String.prefix "data: ") (split_lines rest).
Proof.
  induction 1 as [|line fields (Hline & Hdata) _ IH]; [reflexivity|].
  cbn [fold_right]. rewrite (split_lines_append _ _ Hline). cbn [find].
  now rewrite (prefix_data_lstrip line Hdata).
Qed.

Lemma find_after_fields_lstrip (fields : list string) (c : ascii) (rest : string) :
  is_space c = false ->
  Forall (fun line => has_char newline line = false
                      /\ String.prefix "data: " (lstrip line) = false) fields ->
  find (String.prefix "data: ")
    (split_lines (lstrip (fold_right (fun line text => line ++ String newline text)%string
                            (String c rest) fields)))
  = find (String.prefix "data: ") (split_lines (String c rest)).
Proof.
  intros Hc. induction 1 as [|line fields (Hline & Hdata) Hfields IH].
  - cbn [fold_right lstrip]. now rewrite Hc.
  - cbn [fold_right]. destruct (lstrip line) as [|x l] eqn:Hl.
    + rewrite (lstrip_blank_append line _ Hl). cbn [lstrip].
      change (is_space newline) with true. cbv iota. exact IH.
    + rewrite lstrip_nonblank_append by (rewrite Hl; discriminate).
      rewrite split_lines_append by (now apply has_char_lstrip).
      cbn [find]. rewrite Hl in *. rewrite Hdata.
      now apply find_after_fields.
Qed.

Lemma fields_append (fields : list string) (rest : string) :
  fold_right (fun line text => line ++ String newline text)%string rest fields
  = (fold_right (fun line text => line ++ String newline text)%string "" fields ++ rest)%string.
Proof.
  induction fields as [|line fields IH]; [reflexivity|]. cbn [fold_right].
  rewrite IH.
  change (line ++ String newline (fold_right (fun l text => l ++ String newline text) "" fields
                                  ++ rest))%string
    with (line ++ ((String newline (fold_right (fun l text => l ++ String newline text) ""
                                      fields)) ++ rest))%string.
  now rewrite <- append_assoc.
Qed.

Lemma rstrip_line_feed (rest : string) :
  rstrip (String newline rest) <> "" ->
  rstrip (String newline rest) = String newline (rstrip rest) /\ rstrip rest <> "".
Proof.
  cbn [rstrip]. destruct (rstrip rest) as [|c r]; [|split; [reflexivity|discriminate]].
  change (is_space newline) with true. cbv iota. now intros H.
Qed.

Section WithBuiltins.
Context {B : Builtins}.

(** A JSON text is not taken for an SSE data line. *)
Lemma json_not_data_line (s : string) (v : value) :
  json_decoder B -> json_loads s = Some v -> String.prefix "data: " (strip s) = false.
Proof.
  intros Hjson Hs. destruct (loads_start B Hjson s v Hs) as (c & rest & Hl & Hc).
  unfold strip. rewrite Hl.
  destruct (rstrip_head c rest (json_start_not_space c Hc)) as [r ->].
  apply prefix_cons_neq. now apply json_start_not_d.
Qed.

Lemma json_not_blank (s : string) (v : value) :
  json_decoder B -> json_loads s = Some v -> rstrip s <> "".
Proof.
  intros Hjson Hs Hblank. destruct (loads_start B Hjson s v Hs) as (c & rest & Hl & _).
  rewrite (rstrip_empty_lstrip s Hblank) in Hl. discriminate.
Qed.

(** What is left of an event when the whitespace around the body is removed:
    the lines before the data line, and the data line with the payload or
    with the payload and what follows. *)
Lemma strip_event (fields : list string) (p tail : string) (v : value) :
  json_decoder B ->
  json_loads p = Some v ->
  tail = "" \/ (exists rest, tail = String newline rest) ->
  exists q,
    strip (fold_right (fun line text => line ++ String newline text)%string
             ("data: " ++ p ++ tail)%string fields)
    = lstrip (fold_right (fun line text => line ++ String newline text)%string
                ("data: " ++ q)%string fields)
    /\ (q = rstrip p \/ exists r, q = (p ++ String newline r)%string).
Proof.
  intros Hjson Hp Htail.
  assert (Hq : exists q,
             rstrip (p ++ tail)%string = q
             /\ q <> ""
             /\ (q = rstrip p \/ exists r, q = (p ++ String newline r)%string)).
  { destruct (rstrip tail) as [|c r] eqn:Ht.
    - exists (rstrip p). rewrite (rstrip_append_blank p tail Ht).
      split; [reflexivity|]. split; [exact (json_not_blank p v Hjson Hp)|now left].
    - destruct Htail as [->|(rest & ->)]; [discriminate|].
      destruct (rstrip_line_feed rest) as (Hfeed & _); [rewrite Ht; discriminate|].
      exists (p ++ String newline (rstrip rest))%string.
      rewrite rstrip_append by (rewrite Ht; discriminate). rewrite Hfeed.
      split; [reflexivity|]. split; [|right; now exists (rstrip rest)].
      destruct p; discriminate. }
  destruct Hq as (q & Hq & Hne & Hshape). exists q. split; [|exact Hshape].
  unfold strip.
  rewrite (fields_append fields ("data: " ++ p ++ tail)).
  rewrite (fields_append fields ("data: " ++ q)).
  set (head := fold_right (fun line text => line ++ String newline text)%string "" fields).
  rewrite (lstrip_before_data head (p ++ tail)), (lstrip_before_data head q).
  assert (Hdata : rstrip ("data: " ++ (p ++ tail))%string = ("data: " ++ q)%string).
  { rewrite <- Hq.
    exact (rstrip_append "data: " (p ++ tail) ltac:(rewrite Hq; exact Hne)). }
  rewrite (rstrip_append (lstrip head) ("data: " ++ (p ++ tail)));
    rewrite Hdata; [reflexivity|discriminate].
Qed.

(** The first data line of an event decides, whatever comes before and
    after it. *)
Lemma first_data_line :
  json_decoder B ->
  forall (fields : list string) (p tail : string) (v : value),
      Forall (fun line => has_char newline line = false
                          /\ String.prefix "data: " (lstrip line) = false) fields ->
      has_char newline p = false ->
      json_loads p = Some v ->
      tail = "" \/ (exists rest, tail = String newline rest) ->
      _parse_sse_response
        (fold_right (fun line text => line ++ String newline text)%string
           ("data: " ++ p ++ tail)%string fields)
      = Ok v.
Proof.
  intros Hjson fields p tail v Hfields Hline Hp Htail.
  destruct (strip_event fields p tail v Hjson Hp Htail) as (q & Hstrip & Hq).
  unfold _parse_sse_response. rewrite Hstrip.
  change ("data: " ++ q)%string with (String "d" ("ata: " ++ q))%string.
  rewrite (find_after_fields_lstrip fields "d" _ eq_refl Hfields).
  change (String "d" ("ata: " ++ q))%string with ("data: " ++ q)%string.
  destruct Hq as [->|(r & ->)].
  - rewrite split_lines_one
      by (rewrite has_char_append; now rewrite (has_char_rstrip newline p Hline)).
    cbn [find]. rewrite (prefix_append "data: " (rstrip p)).
    change (drop 6 ("data: " ++ rstrip p)%string) with (rstrip p).
    unfold py_json_loads. now rewrite (loads_rstrip B Hjson p v Hp).
  - change ("data: " ++ p ++ String newline r)%string
      with ("data: " ++ (p ++ String newline r))%string.
    rewrite <- append_assoc.
    rewrite split_lines_append by (rewrite has_char_append; now rewrite Hline).
    cbn [find]. rewrite (prefix_append "data: " p).
    change (drop 6 ("data: " ++ p)%string) with p.
    unfold py_json_loads. now rewrite Hp.
Qed.

(** Without a line that shows the prefix after its leading whitespace the
    body is decoded as a whole. *)
Lemma no_data_line (text : string) :
  (forall line, In line (split_lines text) -> String.prefix "data: " (lstrip line) = false) ->
  _parse_sse_response text = py_json_loads (VStr text).
Proof.
  intros Hlines. unfold _parse_sse_response, strip.
  assert (Hnone : find (String.prefix "data: ") (split_lines (lstrip text)) = None).
  { destruct (split_lines_lstrip text) as (skipped & line & lines & Hs & Hl).
    rewrite Hl. apply find_data_none. intros l [<-|Hin].
    - rewrite lstrip_idempotent. apply Hlines. rewrite Hs. apply in_or_app. right. now left.
    - apply Hlines. rewrite Hs. apply in_or_app. right. now right. }
  now rewrite (find_trimmed "data: " _ _ (split_lines_rstrip (lstrip text)) Hnone).
Qed.

Lemma strip_sse_frame (p : string) :
  rstrip p <> "" ->
  strip (sse_frame p)
  = ("event: message" ++ String newline ("data: " ++ rstrip p))%string.
Proof.
  intros Hp. unfold strip, sse_frame.
  change (lstrip ("event: message" ++ String newline ("data: " ++ p ++ String newline (String newline "")))%string)
    with (("event: message" ++ String newline "data: ") ++ (p ++ String newline (String newline "")))%string.
  assert (Hrs : rstrip (p ++ String newline (String newline ""))%string = rstrip p).
  { now apply rstrip_append_blank. }
  rewrite rstrip_append; rewrite Hrs; [|exact Hp].
  reflexivity.
Qed.

(** C6, as amended.  For a decoder of the JSON grammar and every JSON
    payload [p] that fits on a line: the body that frames [p] as a
    server-sent event parses to what the bare body [p] parses to, the value
    of [p]; and so does every body made of lines that do not show the prefix
    [data: ] (leading whitespace ignored), then the line [data: p], then
    nothing or a line feed and anything at all, further data lines included.
    A body is decoded as JSON as a whole when none of its lines shows the
    prefix once the leading whitespace of the line is ignored, and also when
    the body does not begin with whitespace and none of its lines starts with
    the prefix.  It is not so for every body none of whose lines starts with
    the prefix: the lines scanned are those of the body without its
    surrounding whitespace. *)
Theorem parse_sse_response_framing :
  json_decoder B ->
  (forall p v,
      has_char newline p = false ->
      json_loads p = Some v ->
      _parse_sse_response (sse_frame p) = _parse_sse_response p
      /\ _parse_sse_response p = Ok v)
  /\ (forall (fields : list string) (p tail : string) (v : value),
        Forall (fun line => has_char newline line = false
                            /\ String.prefix "data: " (lstrip line) = false) fields ->
        has_char newline p = false ->
        json_loads p = Some v ->
        tail = "" \/ (exists rest, tail = String newline rest) ->
        _parse_sse_response
          (fold_right (fun line text => line ++ String newline text)%string
             ("data: " ++ p ++ tail)%string fields)
        = Ok v)
  /\ (forall text,
        (forall line,
            In line (split_lines text) -> String.prefix "data: " (lstrip line) = false) ->
        _parse_sse_response text = py_json_loads (VStr text))
  /\ (forall text,
        lstrip text = text ->
        find (String.prefix "data: ") (split_lines text) = None ->
        _parse_sse_response text = py_json_loads (VStr text)).
Proof.
  intros Hjson. split; [|split; [|split]].
  - intros p v Hline Hp.
    assert (Hbare : _parse_sse_response p = Ok v).
    { unfold _parse_sse_response.
      rewrite split_lines_one.
      - cbn [find]. rewrite (json_not_data_line p v Hjson Hp).
        unfold py_json_loads. now rewrite Hp.
      - unfold strip. now apply has_char_rstrip, has_char_lstrip. }
    split; [|exact Hbare]. rewrite Hbare.
    unfold _parse_sse_response.
    rewrite (strip_sse_frame p (json_not_blank p v Hjson Hp)).
    rewrite split_lines_append by reflexivity.
    rewrite split_lines_one.
    + cbn [find]. change (String.prefix "data: " "event: message") with false. cbv iota.
      rewrite (prefix_append "data: " (rstrip p)).
      change (drop 6 ("data: " ++ rstrip p)%string) with (rstrip p).
      unfold py_json_loads. now rewrite (loads_rstrip B Hjson p v Hp).
    + rewrite has_char_append. now rewrite (has_char_rstrip newline p Hline).
  - exact (first_data_line Hjson).
  - exact no_data_line.
  - intros text Hleft Hnone. unfold _parse_sse_response, strip. rewrite Hleft.
    now rewrite (find_trimmed "data: " _ _ (split_lines_rstrip text) Hnone).
Qed.

End WithBuiltins.

(** The reference decoder is a decoder of the JSON grammar. *)
Lemma reference_json_decoder : json_decoder Reference.builtins.
Proof.
  split; intros s v; cbn [json_loads Reference.builtins]; unfold Reference.json_loads;
    destruct (Reference.lex Reference.Idle s) as [ts|] eqn:Hlex; try discriminate;
    intros Hparse.
  - now rewrite (ReferenceFacts.lex_rstrip s Reference.Idle ts Hlex).
  - destruct (ReferenceFacts.parse_head ts v Hparse) as (t & ts' & -> & Ht).
    apply ReferenceFacts.lex_lstrip in Hlex.
    destruct (lstrip s) as [|c rest] eqn:Hl; [discriminate|].
    exists c, rest. split; [reflexivity|].
    exact (ReferenceFacts.lex_head c rest t ts'
             (ReferenceFacts.lstrip_head s c rest Hl) Hlex Ht).
Qed.

Lemma parse_sse_response_framing_witness :
  (@_parse_sse_response Reference.builtins (sse_frame tools_payload)
   = @_parse_sse_response Reference.builtins tools_payload
   /\ @_parse_sse_response Reference.builtins tools_payload
      = Ok (VDict [("result", VDict [("tools", VList [])])]))
  /\ @_parse_sse_response Reference.builtins
       (fold_right (fun line text => line ++ String newline text)%string
          ("data: " ++ tools_payload ++ String newline "data: 1")%string
          ["event: message"; "id: 7"]%string)
     = Ok (VDict [("result", VDict [("tools", VList [])])])
  /\ @_parse_sse_response Reference.builtins " [1]"
     = @py_json_loads Reference.builtins (VStr " [1]").
Proof.
  destruct (@parse_sse_response_framing Reference.builtins reference_json_decoder)
    as (Hframe & Hevent & Hwhole & _).
  split; [|split].
  - apply Hframe; vm_compute; reflexivity.
  - apply Hevent.
    + repeat constructor.
    + vm_compute. reflexivity.
    + vm_compute. reflexivity.
    + right. now exists "data: 1"%string.
  - apply Hwhole. intros line [<-|[]]. reflexivity.
Defined.

(** C6 as stated fails: the body [" data: 1"] has no line that starts with
    the prefix, and it is read as the event [1], not decoded as a whole, which
    fails. *)
Lemma fallback_counterexample :
  find (String.prefix "data: ") (split_lines " data: 1") = None
  /\ @_parse_sse_response Reference.builtins " data: 1" = Ok (VInt 1)
  /\ @py_json_loads Reference.builtins (VStr " data: 1") = Raise JSONDecodeError
  /\ @_parse_sse_response Reference.builtins " data: 1"
     <> @py_json_loads Reference.builtins (VStr " data: 1").
Proof.
  split; [reflexivity|]. split; [vm_compute; reflexivity|].
  split; [vm_compute; reflexivity|]. vm_compute. discriminate.
Qed.

(** Only the first data line of a body is read. *)
Example first_data_line_only :
  @_parse_sse_response Reference.builtins
    ("data: 1" ++ String newline "data: 2")%string = Ok (VInt 1).
Proof. vm_compute. reflexivity. Qed.

End ParseFacts.

(** ** The HTTP session client *)

Module HttpMCPClientFacts.
Import HttpMCPClient Examples.

Ltac run_method :=
  cbv beta iota zeta delta
    [call_tool list_tools connect disconnect bind self try_except _next_request_id update
       post aclose raise_for_status lift ret raise fst snd after_request tl];
  cbn [server_url _client _session_id _tools_cache _request_id
       set_request_id set_client set_session_id set_tools_cache
       replies closes posted].

Section WithBuiltins.
Context {B : Builtins}.

(** What [call_tool] does on a connected client whose request is answered
    with a success status. *)
Lemma call_tool_run (name : string) (arguments : dict) (c : client) (n : network)
      (r : Response) (rest : list reply) :
  not_connected c = false ->
  replies n = Answer r :: rest ->
  is_success (status_code r) = true ->
  call_tool name arguments (c, n)
  = (match obind (_parse_sse_response (text r)) tool_call_result with
     | Ok v => Ok v
     | Raise e =>
         Raise (ToolExecutionError ("Failed to execute tool '" ++ name ++ "': ")%string (Some e))
     end,
     after_request (tools_call_request (_request_id c + 1) name arguments) c n).
Proof.
  intros Hconn Hreply Hok.
  run_method. rewrite Hconn. run_method.
  rewrite Hreply. run_method. rewrite Hok. run_method.
  destruct (_parse_sse_response (text r)) as [result|e]; cbn [obind]; [|reflexivity].
  destruct (tool_call_result result); reflexivity.
Qed.

Lemma tool_call_result_error (envelope err : dict) :
  Dict.get "error" envelope = Some (VDict err) ->
  tool_call_result (VDict envelope)
  = Ok (VDict [("error", Dict.get_default "message" (VStr (py_str (VDict err))) err)]).
Proof.
  intros Herr. unfold tool_call_result, py_contains, py_getitem, Dict.mem.
  rewrite Herr. reflexivity.
Qed.

Lemma tool_call_result_payload (envelope payload : dict) :
  Dict.mem "error" envelope = false ->
  Dict.get_default "result" (VDict []) envelope = VDict payload ->
  tool_call_result (VDict envelope)
  = match Dict.get "content" payload with
    | Some content => content_result content
    | None => Ok (VDict payload)
    end.
Proof.
  intros Herr Hpayload. unfold tool_call_result, py_contains, py_get.
  rewrite Herr. cbn [obind]. rewrite Hpayload. unfold py_getitem, Dict.mem.
  destruct (Dict.get "content" payload); reflexivity.
Qed.

(** C2.  When the parsed response of a [tools/call] exchange carries a
    top-level ["error"] object, [call_tool] raises no exception and returns the
    mapping [{"error": m}], where [m] is the message of the error (the error
    object as a string if it has no message). *)
Theorem call_tool_error_envelope
        (name : string) (arguments : dict) (c : client) (n : network)
        (r : Response) (rest : list reply) (envelope err : dict) :
  not_connected c = false ->
  replies n = Answer r :: rest ->
  is_success (status_code r) = true ->
  _parse_sse_response (text r) = Ok (VDict envelope) ->
  Dict.get "error" envelope = Some (VDict err) ->
  fst (call_tool name arguments (c, n))
  = Ok (VDict [("error", Dict.get_default "message" (VStr (py_str (VDict err))) err)])
  /\ raises (fst (call_tool name arguments (c, n))) = false
  /\ (forall message,
        Dict.get "message" err = Some message ->
        fst (call_tool name arguments (c, n)) = Ok (VDict [("error", message)])).
Proof.
  intros Hconn Hreply Hok Hparse Herr.
  rewrite (call_tool_run name arguments c n r rest Hconn Hreply Hok), Hparse.
  cbn [obind fst]. rewrite (tool_call_result_error envelope err Herr).
  repeat split. intros message Hmsg. unfold Dict.get_default. now rewrite Hmsg.
Qed.

(** C1, as amended.  When the parsed response of a [tools/call] exchange
    carries no top-level ["error"]: if the result holds a [content] list whose
    first element carries a [text], [call_tool] returns the JSON value of that
    text, and [{"result": text}] when the text is not JSON; if [content] is not
    a list, it returns [{"result": str(content)}], the content as a string
    under the key ["result"]; without [content], it returns the result object
    as it is. *)
Theorem call_tool_result_normalized
        (name : string) (arguments : dict) (c : client) (n : network)
        (r : Response) (rest : list reply) (envelope payload : dict) :
  not_connected c = false ->
  replies n = Answer r :: rest ->
  is_success (status_code r) = true ->
  _parse_sse_response (text r) = Ok (VDict envelope) ->
  Dict.mem "error" envelope = false ->
  Dict.get_default "result" (VDict []) envelope = VDict payload ->
  (forall first others txt,
      Dict.get "content" payload = Some (VList (VDict first :: others)) ->
      Dict.get "text" first = Some (VStr txt) ->
      fst (call_tool name arguments (c, n))
      = match json_loads txt with
        | Some decoded => Ok decoded
        | None => Ok (VDict [("result", VStr txt)])
        end)
  /\ (forall content,
        Dict.get "content" payload = Some content ->
        (forall l, content <> VList l) ->
        fst (call_tool name arguments (c, n))
        = Ok (VDict [("result", VStr (py_str content))]))
  /\ (Dict.get "content" payload = None ->
      fst (call_tool name arguments (c, n)) = Ok (VDict payload)).
Proof.
  intros Hconn Hreply Hok Hparse Herr Hpayload.
  rewrite (call_tool_run name arguments c n r rest Hconn Hreply Hok), Hparse.
  cbn [obind fst]. rewrite (tool_call_result_payload envelope payload Herr Hpayload).
  repeat split.
  - intros first others txt Hcontent Htext. rewrite Hcontent.
    unfold content_result, py_json_loads. rewrite Htext.
    destruct (json_loads txt); reflexivity.
  - intros content Hcontent Hshape. rewrite Hcontent.
    destruct content; try reflexivity. now destruct (Hshape l).
  - intros Hcontent. now rewrite Hcontent.
Qed.


(** What [list_tools] does on a connected client without a cache whose request
    is answered with a success status and an envelope without ["error"]. *)
Lemma list_tools_run (c : client) (n : network) (r : Response) (rest : list reply)
      (envelope : dict) :
  not_connected c = false ->
  _tools_cache c = None ->
  replies n = Answer r :: rest ->
  is_success (status_code r) = true ->
  _parse_sse_response (text r) = Ok (VDict envelope) ->
  Dict.mem "error" envelope = false ->
  forall tools,
    obind (py_get "tools" (VList []) (Dict.get_default "result" (VDict []) envelope))
      (fun tools_data => obind (py_iter tools_data) tool_entries) = Ok tools ->
    list_tools (c, n)
    = (Ok tools,
       (set_tools_cache (Some tools) (fst (after_request (tools_list_request (_request_id c + 1)) c n)),
        snd (after_request (tools_list_request (_request_id c + 1)) c n))).
Proof.
  intros Hconn Hcache Hreply Hok Hparse Herr tools Htools.
  run_method. rewrite Hconn, Hcache. run_method.
  rewrite Hreply. run_method. rewrite Hok. run_method. rewrite Hparse.
  unfold py_contains. rewrite Herr. run_method. unfold py_get at 1.
  destruct (py_get "tools" (VList []) (Dict.get_default "result" (VDict []) envelope))
    as [tools_data|e]; cbn [obind] in Htools; [|discriminate].
  destruct (py_iter tools_data) as [items|e]; cbn [obind] in Htools; [|discriminate].
  rewrite Htools. reflexivity.
Qed.

(** C5, as amended.  An envelope with neither ["result"] nor ["error"] is
    accepted: [call_tool] returns the empty mapping, and [list_tools] returns
    the empty list and caches it. *)
Theorem empty_envelope_accepted
        (name : string) (arguments : dict) (c : client) (n : network)
        (r : Response) (rest : list reply) (envelope : dict) :
  not_connected c = false ->
  replies n = Answer r :: rest ->
  is_success (status_code r) = true ->
  _parse_sse_response (text r) = Ok (VDict envelope) ->
  Dict.mem "error" envelope = false ->
  Dict.mem "result" envelope = false ->
  fst (call_tool name arguments (c, n)) = Ok (VDict [])
  /\ (_tools_cache c = None ->
      fst (list_tools (c, n)) = Ok []
      /\ _tools_cache (fst (snd (list_tools (c, n)))) = Some []).
Proof.
  intros Hconn Hreply Hok Hparse Herr Hresult.
  assert (Hpayload : Dict.get_default "result" (VDict []) envelope = VDict []).
  { unfold Dict.get_default. unfold Dict.mem in Hresult.
    now destruct (Dict.get "result" envelope). }
  split.
  - rewrite (call_tool_run name arguments c n r rest Hconn Hreply Hok), Hparse.
    cbn [obind fst]. now rewrite (tool_call_result_payload envelope [] Herr Hpayload).
  - intros Hcache.
    rewrite (list_tools_run c n r rest envelope Hconn Hcache Hreply Hok Hparse Herr []).
    + split; reflexivity.
    + now rewrite Hpayload.
Qed.

(** What [connect] does when the initialize request is answered with a
    success status, a session id and an envelope without ["error"]: the
    outcome is that of posting the notification. *)
Lemma connect_run (c : client) (n : network) (r : Response) (rest : list reply)
      (sid : string) (result : value) :
  replies n = Answer r :: rest ->
  is_success (status_code r) = true ->
  mcp_session_id_header r = Some sid ->
  sid <> ""%string ->
  _parse_sse_response (text r) = Ok result ->
  py_contains "error" result = Ok false ->
  connect (c, n)
  = (match rest with
     | Answer _ :: _ => Ok tt
     | Fail detail :: _ =>
         Raise (MCPConnectionError "Failed to connect to MCP server: "
                  (Some (HTTPError detail)))
     | [] =>
         Raise (MCPConnectionError "Failed to connect to MCP server: "
                  (Some (HTTPError "All connection attempts failed")))
     end,
     ({| server_url := server_url c;
         _client := Some NewAsyncClient;
         _session_id := Some sid;
         _tools_cache := _tools_cache c;
         _request_id := _request_id c + 1 |},
      {| replies := tl rest;
         closes := closes n;
         posted := posted n
                   ++ [{| url := server_url c;
                          json := init_request (_request_id c + 1);
                          mcp_session_id := None |};
                       {| url := server_url c;
                          json := initialized_notification;
                          mcp_session_id := Some sid |}] |})).
Proof.
  intros Hreply Hok Hsid Hne Hparse Herr.
  run_method. rewrite Hreply. run_method. rewrite Hok. run_method.
  rewrite Hsid. unfold no_session_id. rewrite (proj2 (String.eqb_neq sid "") Hne).
  run_method. rewrite Hparse, Herr. run_method. cbn [replies closes posted].
  rewrite <- app_assoc. cbn [app].
  destruct rest as [|[r2|detail] rest']; reflexivity.
Qed.

(** C3, as amended.  After an initialize exchange that succeeds and yields a
    session id, [connect] does not look at the response to the
    [notifications/initialized] message, so it succeeds whatever that response
    is; a transport error raised while the notification is sent makes
    [connect] fail with [MCPConnectionError], the session id staying set. *)
Theorem connect_notification
        (c : client) (n : network) (r : Response) (rest : list reply)
        (sid : string) (result : value) :
  replies n = Answer r :: rest ->
  is_success (status_code r) = true ->
  mcp_session_id_header r = Some sid ->
  sid <> ""%string ->
  _parse_sse_response (text r) = Ok result ->
  py_contains "error" result = Ok false ->
  (forall r2 rest', rest = Answer r2 :: rest' -> fst (connect (c, n)) = Ok tt)
  /\ (forall detail rest',
        rest = Fail detail :: rest' ->
        fst (connect (c, n))
        = Raise (MCPConnectionError "Failed to connect to MCP server: "
                   (Some (HTTPError detail)))
        /\ _session_id (fst (snd (connect (c, n)))) = Some sid).
Proof.
  intros Hreply Hok Hsid Hne Hparse Herr.
  rewrite (connect_run c n r rest sid result Hreply Hok Hsid Hne Hparse Herr).
  split.
  - now intros r2 rest' ->.
  - intros detail rest' ->. split; reflexivity.
Qed.


(** *** Request ids *)

Lemma request_ids_app (l1 l2 : list Request) :
  request_ids (l1 ++ l2) = request_ids l1 ++ request_ids l2.
Proof.
  induction l1 as [|r l1 IH]; simpl; [reflexivity|].
  destruct (request_id r); simpl; now rewrite IH.
Qed.

Lemma ids_after_app (first : Z) (k1 k2 : nat) :
  ids_after first (k1 + k2) = ids_after first k1 ++ ids_after (first + Z.of_nat k1) k2.
Proof.
  revert first. induction k1 as [|k1 IH]; intros first.
  - simpl. now rewrite Z.add_0_r.
  - cbn [Nat.add ids_after app]. rewrite IH.
    replace (first + Z.of_nat (S k1)) with (first + 1 + Z.of_nat k1) by lia.
    reflexivity.
Qed.

Lemma ids_after_above (first : Z) (count : nat) (id : Z) :
  In id (ids_after first count) -> first < id.
Proof.
  revert first. induction count as [|count IH]; intros first; cbn [ids_after In].
  - intros [].
  - intros [<-|Hin]; [lia|]. specialize (IH (first + 1) Hin). lia.
Qed.

(** The ids that follow a counter are strictly increasing. *)
Lemma ids_after_sorted (first : Z) (count : nat) :
  StronglySorted Z.lt (ids_after first count).
Proof.
  revert first. induction count as [|count IH]; intros first; cbn [ids_after].
  - constructor.
  - constructor; [apply IH|].
    apply Forall_forall. intros id Hin. exact (ids_after_above (first + 1) count id Hin).
Qed.

Lemma fresh_ids_refl (s : state) : fresh_ids s s.
Proof.
  exists 0%nat, []. rewrite app_nil_r. repeat split. simpl. lia.
Qed.

Lemma fresh_ids_trans (s1 s2 s3 : state) :
  fresh_ids s1 s2 -> fresh_ids s2 s3 -> fresh_ids s1 s3.
Proof.
  intros (k1 & new1 & Hp1 & Hi1 & Hc1) (k2 & new2 & Hp2 & Hi2 & Hc2).
  exists (k1 + k2)%nat, (new1 ++ new2). repeat split.
  - now rewrite Hp2, Hp1, app_assoc.
  - now rewrite request_ids_app, ids_after_app, Hi1, Hi2, Hc1.
  - rewrite Hc2, Hc1. lia.
Qed.

Lemma tracks_ret {A : Type} (a : A) : tracks (ret a).
Proof. intros s. apply fresh_ids_refl. Qed.

Lemma tracks_raise {A : Type} (e : pyexn) : tracks (@raise A e).
Proof. intros s. apply fresh_ids_refl. Qed.

Lemma tracks_lift {A : Type} (o : outcome A) : tracks (lift o).
Proof. intros s. apply fresh_ids_refl. Qed.

Lemma tracks_self : tracks self.
Proof. intros s. apply fresh_ids_refl. Qed.

Lemma tracks_update (f : client -> client) :
  (forall c, _request_id (f c) = _request_id c) -> tracks (update f).
Proof.
  intros Hf [c n]. exists 0%nat, []. unfold update. cbn [snd fst].
  rewrite app_nil_r, Hf. cbn [ids_after request_ids Z.of_nat]. repeat split. lia.
Qed.

Lemma tracks_aclose : tracks aclose.
Proof.
  intros [c n]. exists 0%nat, []. unfold aclose.
  destruct (closes n) as [|[|] ?]; cbn [snd fst posted];
    rewrite app_nil_r; cbn [ids_after request_ids Z.of_nat]; repeat split; lia.
Qed.

Lemma tracks_bind {A C : Type} (m : M A) (k : A -> M C) :
  tracks m -> (forall a, tracks (k a)) -> tracks (bind m k).
Proof.
  intros Hm Hk s. unfold bind. specialize (Hm s).
  destruct (m s) as [[a|e] s']; cbn [snd] in *.
  - eapply fresh_ids_trans; [exact Hm|apply Hk].
  - exact Hm.
Qed.

Lemma tracks_try_except {A : Type} (m : M A) (handler : pyexn -> M A) :
  tracks m -> (forall e, tracks (handler e)) -> tracks (try_except m handler).
Proof.
  intros Hm Hh s. unfold try_except. specialize (Hm s).
  destruct (m s) as [[a|e] s']; cbn [snd] in *.
  - exact Hm.
  - eapply fresh_ids_trans; [exact Hm|apply Hh].
Qed.

(** A message without an id. *)
Lemma tracks_post_notification (body : value) (session : option string) :
  request_id {| url := ""; json := body; mcp_session_id := None |} = None ->
  tracks (post body session).
Proof.
  intros Hid [c n]. exists 0%nat. eexists. unfold post.
  destruct (replies n) as [|[r|detail] rest]; cbn [snd fst posted];
    (split; [reflexivity|]); split; try lia;
    unfold request_ids, request_id in *; cbn [json] in *; now rewrite Hid.
Qed.

(** A request: the counter is incremented and the message carries it. *)
Lemma tracks_request {A : Type} (body : Z -> value) (session : option string)
      (k : Z -> Response -> M A) :
  (forall id, request_id {| url := ""; json := body id; mcp_session_id := None |} = Some id) ->
  (forall id r, tracks (k id r)) ->
  tracks (bind _next_request_id (fun id => bind (post (body id) session) (k id))).
Proof.
  intros Hid Hk [c n].
  assert (Hpost : fresh_ids (c, n)
                    (snd (post (body (_request_id c + 1)) session
                            (set_request_id (_request_id c + 1) c, n)))).
  { exists 1%nat. eexists. unfold post.
    destruct (replies n) as [|[r|detail] rest]; cbn [snd fst posted _request_id set_request_id];
      (split; [reflexivity|]); (split; [|lia]);
      specialize (Hid (_request_id c + 1));
      unfold request_ids, request_id in *; cbn [json ids_after] in *; now rewrite Hid. }
  change (bind _next_request_id (fun id => bind (post (body id) session) (k id)) (c, n))
    with (bind (post (body (_request_id c + 1)) session) (k (_request_id c + 1))
            (set_request_id (_request_id c + 1) c, n)).
  unfold bind.
  destruct (post (body (_request_id c + 1)) session (set_request_id (_request_id c + 1) c, n))
    as [[r|e] s'] eqn:Hrun; cbn [snd] in *.
  - eapply fresh_ids_trans; [exact Hpost|apply Hk].
  - exact Hpost.
Qed.

Ltac tracks_step :=
  first
    [ apply tracks_request; [intros; reflexivity|intros]
    | apply tracks_bind; [|intros]
    | apply tracks_try_except; [|intros]
    | apply tracks_ret
    | apply tracks_raise
    | apply tracks_lift
    | apply tracks_self
    | apply tracks_aclose
    | apply tracks_update; intros; reflexivity
    | apply tracks_post_notification; reflexivity
    | progress unfold raise_for_status
    | match goal with
      | |- tracks (if ?b then _ else _) => destruct b
      | |- tracks (match ?x with _ => _ end) => destruct x
      end ].

Lemma tracks_connect : tracks connect.
Proof. unfold connect. repeat tracks_step. Qed.

Lemma tracks_disconnect : tracks disconnect.
Proof. unfold disconnect. repeat tracks_step. Qed.

Lemma tracks_list_tools : tracks list_tools.
Proof. unfold list_tools. repeat tracks_step. Qed.

Lemma tracks_call_tool (name : string) (arguments : dict) : tracks (call_tool name arguments).
Proof. unfold call_tool. repeat tracks_step. Qed.

Lemma run_calls_fresh_ids (calls : list call) (s : state) :
  fresh_ids s (run_calls calls s).
Proof.
  unfold run_calls. revert s. induction calls as [|k calls IH]; intros s; simpl.
  - apply fresh_ids_refl.
  - eapply fresh_ids_trans; [|apply IH].
    destruct k; simpl.
    + apply tracks_connect.
    + apply tracks_disconnect.
    + apply tracks_list_tools.
    + apply tracks_call_tool.
Qed.

(** [disconnect] never raises; it forgets the connection and the session
    when there is a connection and closing it does not raise. *)
Lemma disconnect_run (c : client) (n : network) :
  disconnect (c, n)
  = (Ok tt,
     match _client c with
     | None => (c, n)
     | Some _ =>
         (if hd false (closes n) then c else set_session_id None (set_client None c),
          {| replies := replies n; closes := tl (closes n); posted := posted n |})
     end).
Proof.
  run_method. destruct (_client c) as [h|]; [|reflexivity].
  run_method. destruct (closes n) as [|[|] rest]; reflexivity.
Qed.

(** C4, as amended.  Over the life of one client object the ids of the
    requests posted are 1, 2, 3, ... in this order, whatever calls are made:
    each request carries the counter after incrementing it and notifications
    carry no id.  The counter belongs to the object, not to the session:
    from any state the next ids follow the current counter, and [disconnect]
    leaves the counter as it is. *)
Theorem request_ids_increase (calls : list call) :
  (forall (server_url : string) (replies : list reply) (closes : list bool),
      exists count : nat,
        request_ids
          (posted (snd (run_calls calls
                          (__init__ server_url,
                           {| replies := replies; closes := closes; posted := [] |}))))
        = ids_after 0 count
        /\ StronglySorted Z.lt (ids_after 0 count))
  /\ (forall (c : client) (n : network),
        exists (count : nat) (new : list Request),
          posted (snd (run_calls calls (c, n))) = posted n ++ new
          /\ request_ids new = ids_after (_request_id c) count
          /\ _request_id (fst (run_calls calls (c, n))) = _request_id c + Z.of_nat count)
  /\ (forall (c : client) (n : network),
        _request_id (fst (snd (disconnect (c, n)))) = _request_id c).
Proof.
  split; [|split].
  - intros url replies closes.
    destruct (run_calls_fresh_ids calls
                (__init__ url, {| replies := replies; closes := closes; posted := [] |}))
      as (count & new & Hposted & Hids & _).
    exists count. cbn [snd fst posted app __init__ _request_id] in *.
    split; [now rewrite Hposted|apply ids_after_sorted].
  - intros c n. exact (run_calls_fresh_ids calls (c, n)).
  - intros c n. rewrite disconnect_run. cbn [snd].
    destruct (_client c); [|reflexivity]. cbn [fst].
    now destruct (hd false (closes n)).
Qed.

(** A [connect] that returns has posted the initialize request with the next
    id and the notification, and leaves a connected client with the cache it
    had. *)
Lemma connect_returns (c1 c2 : client) (n1 n2 : network) :
  connect (c1, n1) = (Ok tt, (c2, n2)) ->
  not_connected c2 = false
  /\ _tools_cache c2 = _tools_cache c1
  /\ _request_id c2 = _request_id c1 + 1
  /\ exists session,
      posted n2
      = posted n1
        ++ [{| url := server_url c1;
               json := init_request (_request_id c1 + 1);
               mcp_session_id := None |};
            {| url := server_url c1;
               json := initialized_notification;
               mcp_session_id := session |}].
Proof.
  run_method. destruct (replies n1) as [|[r|detail] rest]; run_method; try discriminate.
  destruct (is_success (status_code r)); run_method; try discriminate.
  destruct (no_session_id (mcp_session_id_header r)) eqn:Hsid; run_method; try discriminate.
  destruct (_parse_sse_response (text r)) as [result|e]; run_method; try discriminate.
  destruct (py_contains "error" result) as [[|]|e]; run_method; try discriminate.
  - destruct (py_getitem "error" result); run_method; discriminate.
  - destruct rest as [|[r2|detail] rest']; run_method; try discriminate.
    intros H. injection H as <- <-. unfold not_connected.
    cbn [posted _client _session_id _tools_cache _request_id server_url
         set_session_id set_request_id set_client].
    rewrite Hsid.
    repeat split. exists (mcp_session_id_header r). now rewrite <- app_assoc.
Qed.

(** C10.  [disconnect] never raises and changes at most the HTTP client
    handle and the session id, which both become [None] when a connection is
    open and closes; the request counter, the tools cache, the server URL and
    the traffic are as before.  So after a [connect] that follows, [list_tools]
    returns the tools cached in the previous session without posting anything,
    and the initialize request of the new session carries the previous counter
    plus one. *)
Theorem disconnect_frame (c : client) (n : network) :
  fst (disconnect (c, n)) = Ok tt
  /\ _request_id (fst (snd (disconnect (c, n)))) = _request_id c
  /\ _tools_cache (fst (snd (disconnect (c, n)))) = _tools_cache c
  /\ server_url (fst (snd (disconnect (c, n)))) = server_url c
  /\ posted (snd (snd (disconnect (c, n)))) = posted n
  /\ replies (snd (snd (disconnect (c, n)))) = replies n
  /\ (_client c <> None ->
      hd false (closes n) = false ->
      _client (fst (snd (disconnect (c, n)))) = None
      /\ _session_id (fst (snd (disconnect (c, n)))) = None)
  /\ (forall tools c2 n2,
        _tools_cache c = Some tools ->
        connect (snd (disconnect (c, n))) = (Ok tt, (c2, n2)) ->
        list_tools (c2, n2) = (Ok tools, (c2, n2))
        /\ request_ids (posted n2) = request_ids (posted n) ++ [_request_id c + 1]).
Proof.
  rewrite disconnect_run. cbn [fst snd].
  assert (Hframe :
            forall c' n',
              (match _client c with
               | None => (c, n)
               | Some _ =>
                   (if hd false (closes n) then c else set_session_id None (set_client None c),
                    {| replies := replies n; closes := tl (closes n); posted := posted n |})
               end) = (c', n') ->
              _request_id c' = _request_id c /\ _tools_cache c' = _tools_cache c
              /\ server_url c' = server_url c /\ posted n' = posted n
              /\ replies n' = replies n).
  { intros c' n' H. destruct (_client c); [destruct (hd false (closes n))|];
      injection H as <- <-; repeat split. }
  destruct (match _client c with
            | None => (c, n)
            | Some _ => _
            end) as [c' n'] eqn:Hrun.
  destruct (Hframe c' n' eq_refl) as (Hid & Hcache & Hurl & Hposted & Hreplies).
  cbn [fst snd]. repeat (split; [assumption|]). split; [reflexivity|].
  repeat (split; [assumption|]). split.
  - intros Hopen Hcloses. destruct (_client c); [|now destruct Hopen].
    rewrite Hcloses in Hrun. injection Hrun as <- _. split; reflexivity.
  - intros tools c2 n2 Htools Hconnect.
    destruct (connect_returns c' c2 n' n2 Hconnect)
      as (Hconn & Hcache2 & _ & session & Hposted2).
    split.
    + run_method. rewrite Hconn, Hcache2, Hcache, Htools. reflexivity.
    + rewrite Hposted2, Hposted, request_ids_app, Hid. reflexivity.
Qed.

End WithBuiltins.

End HttpMCPClientFacts.

(** ** Runs of the client with the reference builtins *)

Module HttpMCPClientRuns.
Import HttpMCPClient Examples HttpMCPClientFacts.

Ltac by_run := vm_compute; reflexivity.

Lemma call_tool_result_normalized_witness :
  fst (@call_tool Reference.builtins "add" [] (in_session, answered four_envelope))
  = Ok (VDict [("result", VInt 4)])
  /\ fst (@call_tool Reference.builtins "add" [] (in_session, answered done_envelope))
     = Ok (VDict [("result", VStr "done")])
  /\ fst (@call_tool Reference.builtins "add" [] (in_session, answered plain_envelope))
     = Ok (VDict [("result", VStr "plain")])
  /\ fst (@call_tool Reference.builtins "add" [] (in_session, answered bare_envelope))
     = Ok (VDict [("value", VInt 4)]).
Proof.
  split; [|split; [|split]].
  - rewrite (proj1 (@call_tool_result_normalized Reference.builtins "add" []
                      in_session (answered four_envelope) (response_of four_envelope) []
                      four_envelope (text_content four_text)
                      ltac:(by_run) ltac:(by_run) ltac:(by_run) ltac:(by_run)
                      ltac:(by_run) ltac:(by_run))
               (text_item four_text) [] four_text ltac:(by_run) ltac:(by_run)).
    by_run.
  - rewrite (proj1 (@call_tool_result_normalized Reference.builtins "add" []
                      in_session (answered done_envelope) (response_of done_envelope) []
                      done_envelope (text_content "done")
                      ltac:(by_run) ltac:(by_run) ltac:(by_run) ltac:(by_run)
                      ltac:(by_run) ltac:(by_run))
               (text_item "done") [] "done"%string ltac:(by_run) ltac:(by_run)).
    by_run.
  - rewrite (proj1 (proj2
                      (@call_tool_result_normalized Reference.builtins "add" []
                         in_session (answered plain_envelope) (response_of plain_envelope) []
                         plain_envelope [("content", VStr "plain")]
                         ltac:(by_run) ltac:(by_run) ltac:(by_run) ltac:(by_run)
                         ltac:(by_run) ltac:(by_run)))
               (VStr "plain") ltac:(by_run) ltac:(intros l; discriminate)).
    by_run.
  - exact (proj2 (proj2
                    (@call_tool_result_normalized Reference.builtins "add" []
                       in_session (answered bare_envelope) (response_of bare_envelope) []
                       bare_envelope [("value", VInt 4)]
                       ltac:(by_run) ltac:(by_run) ltac:(by_run) ltac:(by_run)
                       ltac:(by_run) ltac:(by_run)))
             ltac:(by_run)).
Defined.

(** C1 as stated fails: for a [content] that is not a list the claim has
    [call_tool] return the content as a string; the code returns it under the
    key ["result"]. *)
Lemma call_tool_content_string_counterexample :
  Dict.get "content" [("content", VStr "plain")] = Some (VStr "plain")
  /\ fst (@call_tool Reference.builtins "add" [] (in_session, answered plain_envelope))
     = Ok (VDict [("result", VStr "plain")])
  /\ fst (@call_tool Reference.builtins "add" [] (in_session, answered plain_envelope))
     <> Ok (VStr (@py_str Reference.builtins (VStr "plain"))).
Proof.
  split; [reflexivity|]. split; [by_run|]. vm_compute. discriminate.
Qed.

Lemma call_tool_error_envelope_witness :
  fst (@call_tool Reference.builtins "nope" [] (in_session, answered error_envelope))
  = Ok (VDict [("error", VStr "Unknown tool: nope")])
  /\ raises (fst (@call_tool Reference.builtins "nope" []
                    (in_session, answered error_envelope))) = false.
Proof.
  destruct (@call_tool_error_envelope Reference.builtins "nope" []
              in_session (answered error_envelope) (response_of error_envelope) []
              error_envelope
              [("code", VInt (-32602)); ("message", VStr "Unknown tool: nope")]
              ltac:(by_run) ltac:(by_run) ltac:(by_run) ltac:(by_run) ltac:(by_run))
    as (_ & Hraises & Hmessage).
  split; [|exact Hraises].
  exact (Hmessage (VStr "Unknown tool: nope") ltac:(by_run)).
Defined.

(** An ["error"] that is not an object is outside what [call_tool] reads. *)
Example call_tool_error_string :
  fst (@call_tool Reference.builtins "nope" []
         (in_session, answered [("jsonrpc", VStr "2.0"); ("error", VStr "boom")]))
  = Raise (ToolExecutionError "Failed to execute tool 'nope': " (Some AttributeError)).
Proof. by_run. Qed.

Lemma empty_envelope_accepted_witness :
  fst (@call_tool Reference.builtins "add" [] (in_session, answered empty_envelope))
  = Ok (VDict [])
  /\ fst (@list_tools Reference.builtins (in_session, answered empty_envelope)) = Ok []
  /\ _tools_cache (fst (snd (@list_tools Reference.builtins
                               (in_session, answered empty_envelope)))) = Some [].
Proof.
  destruct (@empty_envelope_accepted Reference.builtins "add" []
              in_session (answered empty_envelope) (response_of empty_envelope) []
              empty_envelope
              ltac:(by_run) ltac:(by_run) ltac:(by_run) ltac:(by_run) ltac:(by_run)
              ltac:(by_run))
    as (Hcall & Hlist).
  split; [exact Hcall|]. exact (Hlist ltac:(by_run)).
Defined.

(** C5 as stated fails: the envelope [{"jsonrpc": "2.0", "id": 2}] has neither
    field, and both methods return a value made from it instead of raising. *)
Lemma empty_envelope_counterexample :
  Dict.mem "result" empty_envelope = false
  /\ Dict.mem "error" empty_envelope = false
  /\ raises (fst (@call_tool Reference.builtins "add" []
                    (in_session, answered empty_envelope))) = false
  /\ raises (fst (@list_tools Reference.builtins
                    (in_session, answered empty_envelope))) = false.
Proof. repeat split; by_run. Qed.

Lemma connect_notification_witness :
  fst (@connect Reference.builtins (__init__ calculator_url, quiet notification_refused))
  = Ok tt
  /\ fst (@connect Reference.builtins (__init__ calculator_url, quiet notification_lost))
     = Raise (MCPConnectionError "Failed to connect to MCP server: "
                (Some (HTTPError "ReadTimeout"))).
Proof.
  split.
  - exact (proj1 (@connect_notification Reference.builtins
                    (__init__ calculator_url) (quiet notification_refused)
                    initialize_response (tl notification_refused)
                    "session-1"%string (VDict initialize_envelope)
                    ltac:(by_run) ltac:(by_run) ltac:(by_run) ltac:(discriminate)
                    ltac:(by_run) ltac:(by_run))
             _ [] ltac:(by_run)).
  - exact (proj1 (proj2 (@connect_notification Reference.builtins
                           (__init__ calculator_url) (quiet notification_lost)
                           initialize_response (tl notification_lost)
                           "session-1"%string (VDict initialize_envelope)
                           ltac:(by_run) ltac:(by_run) ltac:(by_run) ltac:(discriminate)
                           ltac:(by_run) ltac:(by_run))
                    "ReadTimeout"%string [] ltac:(by_run))).
Defined.

(** C3 as stated fails: the initialize exchange succeeds and yields a session
    id, sending the notification raises a transport error, and [connect]
    raises. *)
Lemma connect_notification_counterexample :
  fst (@connect Reference.builtins (__init__ calculator_url, quiet notification_lost))
  = Raise (MCPConnectionError "Failed to connect to MCP server: "
             (Some (HTTPError "ReadTimeout")))
  /\ fst (@connect Reference.builtins (__init__ calculator_url, quiet notification_lost))
     <> Ok tt.
Proof. split; [by_run|]. vm_compute. discriminate. Qed.

(** C4 as stated fails: the first request of the session opened after a
    disconnect carries id 2, not 1. *)
Lemma request_id_not_reset_counterexample :
  request_ids
    (posted (snd (@run_calls Reference.builtins [Connect; Disconnect; Connect]
                    (__init__ calculator_url, quiet (handshake ++ handshake)))))
  = [1; 2].
Proof. by_run. Qed.

Lemma disconnect_frame_witness :
  @list_tools Reference.builtins (fst reconnected, snd reconnected)
  = (Ok (Dict.values example_tools), (fst reconnected, snd reconnected))
  /\ request_ids (posted (snd reconnected)) = [3].
Proof.
  exact (proj2 (proj2 (proj2 (proj2 (proj2 (proj2 (proj2
           (@disconnect_frame Reference.builtins cached_session (quiet handshake))))))))
           (Dict.values example_tools) (fst reconnected) (snd reconnected)
           ltac:(by_run) ltac:(by_run)).
Defined.

End HttpMCPClientRuns.

(** ** The calculator tools *)

Module CalculatorToolFacts.
Import Calculator.

Lemma lookup_unknown (operation : string) :
  ~ In operation ["add"; "subtract"; "multiply"; "divide"] ->
  lookup operation _operations = None.
Proof.
  intros Hin. unfold _operations. cbn [lookup].
  destruct (String.eqb_spec operation "add") as [->|_]; [destruct Hin; cbn; auto|].
  destruct (String.eqb_spec operation "subtract") as [->|_]; [destruct Hin; cbn; auto|].
  destruct (String.eqb_spec operation "multiply") as [->|_]; [destruct Hin; cbn; auto|].
  destruct (String.eqb_spec operation "divide") as [->|_]; [destruct Hin; cbn; auto|].
  reflexivity.
Qed.

(** X10.  On float arguments [a] and [b], [Calculator.calculate] raises
    [ValueError] "Unknown operation: <operation>" for every operation other
    than add, subtract, multiply and divide; add, subtract and multiply never
    raise; and the only exceptions it raises are this one and [ValueError]
    "Cannot divide by zero", the latter only for divide with a divisor equal
    to zero.  Nothing is said of [int] arguments, for which the conversions
    to [float] can raise [OverflowError]. *)
Theorem calculate_errors (operation : string) (a b : float) :
  (~ In operation ["add"; "subtract"; "multiply"; "divide"] ->
   calculate operation a b = Raise (ValueError ("Unknown operation: " ++ operation)))
  /\ (In operation ["add"; "subtract"; "multiply"] ->
      raises (calculate operation a b) = false)
  /\ (forall e,
        calculate operation a b = Raise e ->
        (e = ValueError ("Unknown operation: " ++ operation)
         /\ ~ In operation ["add"; "subtract"; "multiply"; "divide"])
        \/ (e = ValueError "Cannot divide by zero"
            /\ operation = "divide"
            /\ PrimFloat.eqb b PrimFloat.zero = true)).
Proof.
  split; [|split].
  - intros Hin. unfold calculate. now rewrite (lookup_unknown operation Hin).
  - intros [<-|[<-|[<-|[]]]]; reflexivity.
  - intros e. unfold calculate, _operations. cbn [lookup].
    destruct (String.eqb_spec operation "add") as [->|Hadd]; [discriminate|].
    destruct (String.eqb_spec operation "subtract") as [->|Hsub]; [discriminate|].
    destruct (String.eqb_spec operation "multiply") as [->|Hmul]; [discriminate|].
    destruct (String.eqb_spec operation "divide") as [->|Hdiv].
    + cbn [execute Division]. destruct (PrimFloat.eqb b PrimFloat.zero); [|discriminate].
      intros H. injection H as <-. right. repeat split.
    + intros H. injection H as <-. left. split; [reflexivity|].
      intros [H|[H|[H|[H|[]]]]]; congruence.
Qed.

(** X11.  The tools [add], [subtract] and [multiply] of the server
    return [{"result": a + b}], [{"result": a - b}] and [{"result": a * b}]
    when both numbers are given; when one is missing, each of the four tools
    returns [{"error": "Both numbers are required for <operation>"}]; and no
    tool ever raises. *)
Theorem arithmetic_tools_total (a b : option float) :
  (forall x y,
      a = Some x ->
      b = Some y ->
      add a b = Ok (VDict [("result", VFloat (x + y))])
      /\ subtract a b = Ok (VDict [("result", VFloat (x - y))])
      /\ multiply a b = Ok (VDict [("result", VFloat (x * y))]))
  /\ (a = None \/ b = None ->
      add a b = Ok (VDict [("error", VStr "Both numbers are required for addition")])
      /\ subtract a b = Ok (VDict [("error", VStr "Both numbers are required for subtraction")])
      /\ multiply a b
         = Ok (VDict [("error", VStr "Both numbers are required for multiplication")])
      /\ divide a b = Ok (VDict [("error", VStr "Both numbers are required for division")]))
  /\ raises (add a b) = false
  /\ raises (subtract a b) = false
  /\ raises (multiply a b) = false
  /\ raises (divide a b) = false.
Proof.
  split; [|split].
  - intros x y -> ->. repeat split.
  - intros [->| ->]; [destruct b|destruct a]; repeat split.
  - destruct a as [x|], b as [y|]; repeat split.
    unfold divide, calculate, _operations. cbn [lookup String.eqb Ascii.eqb Bool.eqb execute Division].
    now destruct (PrimFloat.eqb y PrimFloat.zero).
Qed.

Lemma calculate_errors_witness :
  calculate "power" 2 3 = Raise (ValueError "Unknown operation: power")
  /\ raises (calculate "multiply" 2 3) = false.
Proof.
  split.
  - exact (proj1 (calculate_errors "power" 2 3)
             ltac:(intros [H|[H|[H|[H|[]]]]]; discriminate)).
  - exact (proj1 (proj2 (calculate_errors "multiply" 2 3))
             ltac:(right; right; left; reflexivity)).
Defined.

Lemma arithmetic_tools_total_witness :
  subtract (Some 5%float) (Some 3%float) = Ok (VDict [("result", VFloat (5 - 3))])
  /\ multiply None (Some 3%float)
     = Ok (VDict [("error", VStr "Both numbers are required for multiplication")]).
Proof.
  split.
  - exact (proj1 (proj2 (proj1 (arithmetic_tools_total (Some 5%float) (Some 3%float))
                           5%float 3%float eq_refl eq_refl))).
  - exact (proj1 (proj2 (proj2 (proj1 (proj2 (arithmetic_tools_total None (Some 3%float)))
                                  ltac:(left; reflexivity))))).
Defined.

End CalculatorToolFacts.

(** ** The registry object *)

Module RegistryFacts.
Import ToolRegistry Scenarios.

Lemma key_eqb_string (n : string) (k : value) :
  key_eqb (VStr n) k = true -> k = VStr n.
Proof.
  destruct k; cbn; try discriminate. intros H. apply String.eqb_eq in H. now subst.
Qed.

Lemma lookup_store (n m : string) (tool : value) (_tools : registry) :
  lookup (VStr m) (store (VStr n) tool _tools)
  = if String.eqb m n then Some tool else lookup (VStr m) _tools.
Proof.
  induction _tools as [|[k t] rest IH]; cbn [store lookup].
  - reflexivity.
  - destruct (key_eqb (VStr n) k) eqn:Hk; cbn [lookup].
    + apply key_eqb_string in Hk. subst k. cbn [key_eqb].
      destruct (String.eqb m n); reflexivity.
    + rewrite IH. destruct (key_eqb (VStr m) k) eqn:Hm; [|reflexivity].
      apply key_eqb_string in Hm. subst k. cbn [key_eqb] in Hk.
      destruct (String.eqb_spec m n) as [->|_]; [|reflexivity].
      now rewrite String.eqb_refl in Hk.
Qed.

Lemma length_store (n : string) (tool : value) (_tools : registry) :
  List.length (store (VStr n) tool _tools)
  = (List.length _tools + if tool_exists n _tools then 0 else 1)%nat.
Proof.
  unfold tool_exists.
  induction _tools as [|[k t] rest IH]; cbn [store lookup List.length]; [reflexivity|].
  destruct (key_eqb (VStr n) k); cbn [List.length]; [lia|].
  rewrite IH. destruct (lookup (VStr n) rest); lia.
Qed.

Lemma register_tool_named (t : dict) (n : string) (_tools : registry) :
  Dict.get "name" t = Some (VStr n) ->
  n <> ""%string ->
  register_tool (VDict t) _tools = (Ok tt, store (VStr n) (VDict t) _tools).
Proof.
  intros Hname Hne. unfold register_tool, py_get, Dict.get_default. rewrite Hname.
  cbn [truthy hashable negb]. now rewrite (proj2 (String.eqb_neq n "") Hne).
Qed.

Lemma truthy_named (t : dict) (name : value) :
  Dict.get "name" t = Some name -> truthy (VDict t) = true.
Proof. destruct t; [discriminate|reflexivity]. Qed.

(** X12.  Registering a tool whose name is a non-empty string succeeds;
    afterwards [get_tool] of that name returns the tool and [tool_exists] is
    true, every other name is looked up as before, and the registry has one
    more entry if the name was new and as many as before if it replaced a
    tool of that name. *)
Theorem register_then_get (t : dict) (n : string) (_tools : registry) :
  Dict.get "name" t = Some (VStr n) ->
  n <> ""%string ->
  fst (register_tool (VDict t) _tools) = Ok tt
  /\ get_tool n (snd (register_tool (VDict t) _tools)) = Found (VDict t)
  /\ tool_exists n (snd (register_tool (VDict t) _tools)) = true
  /\ (forall m,
        m <> n ->
        get_tool m (snd (register_tool (VDict t) _tools)) = get_tool m _tools
        /\ tool_exists m (snd (register_tool (VDict t) _tools)) = tool_exists m _tools)
  /\ __len__ (snd (register_tool (VDict t) _tools))
     = (__len__ _tools + if tool_exists n _tools then 0 else 1)%nat.
Proof.
  intros Hname Hne. rewrite (register_tool_named t n _tools Hname Hne). cbn [fst snd].
  unfold get_tool, tool_exists, __len__. rewrite lookup_store, String.eqb_refl.
  rewrite (truthy_named t (VStr n) Hname).
  repeat split.
  - rewrite lookup_store. now rewrite (proj2 (String.eqb_neq m n) H).
  - rewrite lookup_store. now rewrite (proj2 (String.eqb_neq m n) H).
  - apply length_store.
Qed.

(** X13.  [register_tool] leaves the registry as it is in three
    cases: a tool without a name, or with a name that is false as a condition
    (None, the empty string, zero, ...), is ignored without an error; a tool
    whose name is a non-empty list or object raises [TypeError]; and a tool
    that is not an object raises [AttributeError]. *)
Theorem register_tool_rejects (tool : value) (_tools : registry) :
  (forall t,
      tool = VDict t ->
      truthy (Dict.get_default "name" VNone t) = false ->
      register_tool tool _tools = (Ok tt, _tools))
  /\ (forall t name,
        tool = VDict t ->
        Dict.get "name" t = Some name ->
        truthy name = true ->
        hashable name = false ->
        register_tool tool _tools = (Raise TypeError, _tools))
  /\ ((forall t, tool <> VDict t) ->
      register_tool tool _tools = (Raise AttributeError, _tools)).
Proof.
  split; [|split].
  - intros t -> Hname. unfold register_tool, py_get. now rewrite Hname.
  - intros t name -> Hname Htruthy Hhash. unfold register_tool, py_get, Dict.get_default.
    now rewrite Hname, Htruthy, Hhash.
  - intros Hshape. destruct tool; try reflexivity. now destruct (Hshape d).
Qed.

Lemma key_eqb_string_r (n : string) (k : value) :
  key_eqb k (VStr n) = true -> k = VStr n.
Proof.
  destruct k; cbn; try discriminate. intros H. apply String.eqb_eq in H. now subst.
Qed.

Lemma key_eqb_refl (name : value) :
  hashable name = true -> key_eqb name name = true.
Proof.
  destruct name as [|b|z|f|s|l|d]; try discriminate; intros _; cbn.
  - reflexivity.
  - destruct b; reflexivity.
  - apply Z.eqb_refl.
  - destruct (PrimFloat.eqb f f) eqn:Hf; [reflexivity|].
    unfold PrimFloat.is_nan. now rewrite Hf.
  - apply String.eqb_refl.
Qed.

Lemma store_entries (P : value * value -> Prop) (name tool : value) (_tools : registry) :
  Forall P _tools ->
  (forall k, key_eqb name k = true -> P (k, tool)) ->
  P (name, tool) ->
  Forall P (store name tool _tools).
Proof.
  intros Hall Hsame Hnew. induction Hall as [|[k t] rest Hentry Hrest IH]; cbn [store].
  - now constructor.
  - destruct (key_eqb name k) eqn:Hk; constructor; auto.
Qed.

(** Every entry of a registry built by [register_tools] is one of the tools
    given, a dictionary stored under a key equal to its name. *)
Lemma register_tools_entries (tools : list value) (seen : list value) (_tools : registry) :
  Forall (fun entry =>
            In (snd entry) seen
            /\ exists t name,
                snd entry = VDict t
                /\ Dict.get "name" t = Some name
                /\ key_eqb name (fst entry) = true) _tools ->
  Forall (fun entry =>
            In (snd entry) (seen ++ tools)
            /\ exists t name,
                snd entry = VDict t
                /\ Dict.get "name" t = Some name
                /\ key_eqb name (fst entry) = true)
    (snd (register_tools tools _tools)).
Proof.
  revert seen _tools. induction tools as [|tool rest IH]; intros seen _tools Hall.
  - cbn [register_tools snd]. now rewrite app_nil_r.
  - cbn [register_tools].
    assert (Hweak :
              Forall (fun entry =>
                        In (snd entry) (seen ++ [tool])
                        /\ exists t name,
                            snd entry = VDict t
                            /\ Dict.get "name" t = Some name
                            /\ key_eqb name (fst entry) = true) _tools).
    { eapply Forall_impl; [|exact Hall]. intros entry (Hin & Hrest).
      split; [apply in_or_app; now left|exact Hrest]. }
    assert (Hstep :
              Forall (fun entry =>
                        In (snd entry) (seen ++ [tool])
                        /\ exists t name,
                            snd entry = VDict t
                            /\ Dict.get "name" t = Some name
                            /\ key_eqb name (fst entry) = true)
                (snd (register_tool tool _tools))).
    { unfold register_tool. destruct tool as [| | | | | |t]; try exact Hweak.
      cbn [py_get]. unfold Dict.get_default.
      destruct (Dict.get "name" t) as [name|] eqn:Hname; [|exact Hweak].
      destruct (truthy name) eqn:Htruthy; cbn [negb snd]; [|exact Hweak].
      destruct (hashable name) eqn:Hhash; cbn [snd]; [|exact Hweak].
      apply store_entries; [exact Hweak| |].
      - intros k Hk. cbn [fst snd]. split; [apply in_or_app; right; now left|].
        exists t, name. repeat split; assumption.
      - cbn [fst snd]. split; [apply in_or_app; right; now left|].
        exists t, name. repeat split; [assumption|].
        now apply key_eqb_refl. }
    destruct (register_tool tool _tools) as [[[]|e] _tools'] eqn:Hreg; cbn [snd] in *.
    + specialize (IH (seen ++ [tool]) _tools' Hstep).
      now rewrite <- app_assoc in IH.
    + eapply Forall_impl; [|exact Hstep]. intros entry (Hin & Hrest). split; [|exact Hrest].
      apply in_app_or in Hin. apply in_or_app. destruct Hin as [Hin|[<-|[]]]; [now left|].
      right. now left.
Qed.

Lemma lookup_entry (P : value * value -> Prop) (key tool : value) (_tools : registry) :
  Forall P _tools ->
  lookup key _tools = Some tool ->
  exists k, key_eqb key k = true /\ P (k, tool).
Proof.
  induction 1 as [|[k t] rest Hentry _ IH]; cbn [lookup]; [discriminate|].
  destruct (key_eqb key k) eqn:Hk; [|exact IH].
  intros H. injection H as <-. now exists k.
Qed.

(** X14.  In a registry filled by [register_tools] from the empty
    registry, whatever the tools given and even when the registration stopped
    on an error, [get_tool] returns only tools that were given, each an
    object under its own name; [tool_exists] is true exactly for the names
    [get_tool] finds, and for every other name [get_tool] fails with
    [ToolNotFoundError] "Tool '<name>' not found in registry". *)
Theorem registered_tools_found (tools : list value) (n : string) :
  (forall tool,
      get_tool n (snd (register_tools tools [])) = Found tool ->
      In tool tools
      /\ tool_name tool = Some n
      /\ tool_exists n (snd (register_tools tools [])) = true)
  /\ (tool_exists n (snd (register_tools tools [])) = true ->
      exists tool, get_tool n (snd (register_tools tools [])) = Found tool)
  /\ (tool_exists n (snd (register_tools tools [])) = false ->
      get_tool n (snd (register_tools tools []))
      = ToolNotFoundError ("Tool '" ++ n ++ "' not found in registry")).
Proof.
  pose proof (register_tools_entries tools [] [] (Forall_nil _)) as Hall.
  cbn [app] in Hall. unfold get_tool, tool_exists.
  destruct (lookup (VStr n) (snd (register_tools tools []))) as [tool|] eqn:Hlookup.
  - destruct (lookup_entry _ (VStr n) tool _ Hall Hlookup)
      as (k & Hk & Hin & t & name & Htool & Hname & Hkey).
    cbn [fst snd] in *. apply key_eqb_string in Hk. subst k.
    apply key_eqb_string_r in Hkey. subst name tool.
    rewrite (truthy_named t (VStr n) Hname).
    split; [|split].
    + intros tool H. injection H as <-. unfold tool_name. rewrite Hname. repeat split.
      exact Hin.
    + intros _. now exists (VDict t).
    + discriminate.
  - split; [|split]; [discriminate|discriminate|reflexivity].
Qed.

Lemma key_eqb_not_string (name k : value) (n : string) :
  key_eqb name k = true ->
  (forall m, name <> VStr m) ->
  key_eqb (VStr n) k = false.
Proof.
  intros Hk Hname. destruct k as [| | | |m| |]; try reflexivity.
  apply key_eqb_string_r in Hk. now destruct (Hname m).
Qed.

Lemma lookup_store_other (name tool : value) (n : string) (_tools : registry) :
  (forall m, name <> VStr m) ->
  lookup (VStr n) (store name tool _tools) = lookup (VStr n) _tools.
Proof.
  intros Hname. induction _tools as [|[k t] rest IH]; cbn [store lookup].
  - destruct name; try reflexivity. now destruct (Hname s).
  - destruct (key_eqb name k) eqn:Hk; cbn [lookup].
    + now rewrite (key_eqb_not_string name k n Hk Hname).
    + now rewrite IH.
Qed.

(** What one registration does to the lookup of a name. *)
Lemma register_tool_lookup (tool : value) (n : string) (_tools : registry) :
  fst (register_tool tool _tools) = Ok tt ->
  n <> ""%string ->
  lookup (VStr n) (snd (register_tool tool _tools))
  = if match tool_name tool with Some m => String.eqb m n | None => false end
    then Some tool
    else lookup (VStr n) _tools.
Proof.
  intros Hok Hne. unfold register_tool, tool_name in *.
  destruct tool as [| | | | | |t]; try discriminate. cbn [py_get] in *.
  unfold Dict.get_default in *.
  destruct (Dict.get "name" t) as [name|]; [|reflexivity].
  destruct (truthy name) eqn:Htruthy; cbn [negb snd fst] in *.
  - destruct (hashable name) eqn:Hhash; [|discriminate]. cbn [snd].
    destruct name as [|b|z|f|m|l|d];
      try (apply lookup_store_other; intros m; discriminate).
    rewrite lookup_store. rewrite String.eqb_sym. reflexivity.
  - destruct name as [|b|z|f|m|l|d]; try reflexivity.
    cbn [truthy] in Htruthy. apply negb_false_iff, String.eqb_eq in Htruthy. subst m.
    now rewrite (proj2 (String.eqb_neq "" n) (fun H => Hne (eq_sym H))).
Qed.

Lemma register_tools_app (first rest : list value) (_tools : registry) :
  register_tools (first ++ rest) _tools
  = match register_tools first _tools with
    | (Ok _, _tools') => register_tools rest _tools'
    | (Raise e, _tools') => (Raise e, _tools')
    end.
Proof.
  revert _tools. induction first as [|tool first IH]; intros _tools; [reflexivity|].
  cbn [app register_tools].
  destruct (register_tool tool _tools) as [[[]|e] _tools']; [apply IH|reflexivity].
Qed.

(** X15.  After a [register_tools] that succeeds, [get_tool] of a
    non-empty name returns the last tool of the list that has this name, and
    what the registry held before when no tool of the list has it: a later
    registration replaces an earlier one. *)
Theorem last_registration_wins (tools : list value) (n : string) (_tools : registry) :
  fst (register_tools tools _tools) = Ok tt ->
  n <> ""%string ->
  get_tool n (snd (register_tools tools _tools))
  = match find (fun tool =>
                  match tool_name tool with
                  | Some m => String.eqb m n
                  | None => false
                  end) (rev tools) with
    | Some tool => Found tool
    | None => get_tool n _tools
    end.
Proof.
  intros Hok Hne. unfold get_tool.
  assert (Hlookup :
            lookup (VStr n) (snd (register_tools tools _tools))
            = match find (fun tool =>
                            match tool_name tool with
                            | Some m => String.eqb m n
                            | None => false
                            end) (rev tools) with
              | Some tool => Some tool
              | None => lookup (VStr n) _tools
              end).
  { revert Hok. induction tools as [|tool rest IH] using rev_ind; intros Hok; [reflexivity|].
    rewrite register_tools_app in *. rewrite rev_app_distr. cbn [rev app find].
    destruct (register_tools rest _tools) as [[[]|e] _tools'] eqn:Hrest;
      cbn [fst snd] in *; [|discriminate].
    cbn [register_tools] in *.
    destruct (register_tool tool _tools') as [[[]|e] _tools''] eqn:Hreg;
      cbn [fst snd] in *; [|discriminate].
    pose proof (register_tool_lookup tool n _tools') as Hstep.
    rewrite Hreg in Hstep. cbn [fst snd] in Hstep. rewrite (Hstep eq_refl Hne).
    destruct (match tool_name tool with Some m => String.eqb m n | None => false end);
      [reflexivity|]. now apply IH. }
  rewrite Hlookup.
  destruct (find _ (rev tools)) as [tool|] eqn:Hfind; [|reflexivity].
  apply find_some in Hfind. destruct Hfind as (_ & Hname).
  unfold tool_name in Hname. destruct tool as [| | | | | |t]; try discriminate.
  destruct t; [discriminate|reflexivity].
Qed.

(** X16.  [register_tools] stops at the first tool it cannot register:
    the exception of that tool is raised, the tools before it stay registered
    and the tools after it are not registered. *)
Theorem register_tools_partial (good rest : list value) (bad : value) (e : pyexn)
        (_tools : registry) :
  fst (register_tools good _tools) = Ok tt ->
  fst (register_tool bad (snd (register_tools good _tools))) = Raise e ->
  register_tools (good ++ bad :: rest) _tools = (Raise e, snd (register_tools good _tools)).
Proof.
  intros Hgood Hbad. rewrite register_tools_app.
  destruct (register_tools good _tools) as [[[]|e'] _tools'] eqn:Hrun;
    cbn [fst snd] in *; [|discriminate].
  cbn [register_tools]. unfold register_tool in *.
  destruct (py_get "name" VNone bad) as [name|e']; cbn [fst] in *.
  - destruct (negb (truthy name)); [discriminate|].
    destruct (hashable name); [discriminate|]. cbn [fst] in Hbad. now injection Hbad as <-.
  - now injection Hbad as <-.
Qed.

Lemma store_new (name tool : value) (_tools : registry) :
  lookup name _tools = None -> store name tool _tools = _tools ++ [(name, tool)].
Proof.
  induction _tools as [|[k t] rest IH]; cbn [lookup store app]; [reflexivity|].
  destruct (key_eqb name k); [discriminate|]. intros H. now rewrite IH.
Qed.

Lemma lookup_app_none (key : value) (first rest : registry) :
  lookup key first = None -> lookup key (first ++ rest) = lookup key rest.
Proof.
  induction first as [|[k t] first IH]; cbn [lookup app]; [reflexivity|].
  destruct (key_eqb key k); [discriminate|exact IH].
Qed.

Lemma register_tools_distinct (tools : list dict) (names : list string) (_tools : registry) :
  map (Dict.get "name") tools = map (fun n => Some (VStr n)) names ->
  NoDup names ->
  ~ In ""%string names ->
  (forall n, In n names -> lookup (VStr n) _tools = None) ->
  register_tools (map VDict tools) _tools
  = (Ok tt, _tools ++ combine (map VStr names) (map VDict tools)).
Proof.
  revert names _tools. induction tools as [|t tools IH]; intros names _tools Hnames Hdup Hne Hnew.
  - cbn [map register_tools combine]. destruct names; cbn [map combine]; now rewrite app_nil_r.
  - destruct names as [|n names]; [discriminate|].
    cbn [map] in Hnames. injection Hnames as Hname Hnames.
    cbn [map register_tools combine].
    rewrite (register_tool_named t n _tools Hname)
      by (intros ->; apply Hne; now left).
    rewrite store_new by (apply Hnew; now left).
    inversion Hdup as [|? ? Hnotin Hdup']; subst.
    rewrite (IH names (_tools ++ [(VStr n, VDict t)]) Hnames Hdup').
    + now rewrite <- app_assoc.
    + intros Hin. apply Hne. now right.
    + intros m Hin. rewrite lookup_app_none by (apply Hnew; now right).
      cbn [lookup key_eqb]. destruct (String.eqb_spec m n) as [->|_]; [now destruct Hnotin|].
      reflexivity.
Qed.

(** X17.  Registering tools with distinct non-empty names into an empty
    registry succeeds and keeps them all, in their order: [get_all_tools]
    returns the list as it was given, the registry has as many entries as the
    list, and [to_ollama_format] describes the tools in that order. *)
Theorem register_tools_keeps_order (tools : list dict) (names : list string) :
  map (Dict.get "name") tools = map (fun n => Some (VStr n)) names ->
  NoDup names ->
  ~ In ""%string names ->
  fst (register_tools (map VDict tools) []) = Ok tt
  /\ get_all_tools (snd (register_tools (map VDict tools) [])) = map VDict tools
  /\ __len__ (snd (register_tools (map VDict tools) [])) = List.length tools
  /\ to_ollama_format_registry (snd (register_tools (map VDict tools) []))
     = to_ollama_format_loop (map VDict tools).
Proof.
  intros Hnames Hdup Hne.
  rewrite (register_tools_distinct tools names [] Hnames Hdup Hne) by reflexivity.
  cbn [fst snd app]. unfold to_ollama_format_registry, get_all_tools, __len__.
  assert (Hlen : List.length names = List.length tools).
  { apply (f_equal (@List.length _)) in Hnames. now rewrite !length_map in Hnames. }
  assert (Hvalues : map snd (combine (map VStr names) (map VDict tools)) = map VDict tools).
  { clear Hnames Hdup Hne. revert names Hlen.
    induction tools as [|t tools IH]; intros [|n names] Hlen; try discriminate; [reflexivity|].
    cbn [map combine snd]. f_equal. apply IH. now injection Hlen. }
  rewrite Hvalues. repeat split.
  rewrite length_combine, !length_map, Hlen. apply Nat.min_id.
Qed.

Lemma register_then_get_witness :
  get_tool "add" (snd (register_tool (VDict add_tool) [])) = Found (VDict add_tool)
  /\ get_tool "ping" (snd (register_tool (VDict add_tool) []))
     = ToolNotFoundError "Tool 'ping' not found in registry"
  /\ __len__ (snd (register_tool (VDict add_tool_v2)
                     [(VStr "add", VDict add_tool); (VStr "ping", VDict ping_tool)]))
     = 2%nat.
Proof.
  split; [|split].
  - exact (proj1 (proj2 (register_then_get add_tool "add" [] eq_refl ltac:(discriminate)))).
  - rewrite (proj1 (proj1 (proj2 (proj2 (proj2 (register_then_get add_tool "add" []
                                                   eq_refl ltac:(discriminate)))))
                      "ping"%string ltac:(discriminate))).
    reflexivity.
  - exact (proj2 (proj2 (proj2 (proj2 (register_then_get add_tool_v2 "add"
                                         [(VStr "add", VDict add_tool);
                                          (VStr "ping", VDict ping_tool)]
                                         eq_refl ltac:(discriminate)))))).
Defined.

Lemma register_tool_rejects_witness :
  register_tool (VDict unnamed_tool) [(VStr "add", VDict add_tool)]
  = (Ok tt, [(VStr "add", VDict add_tool)])
  /\ register_tool (VDict listed_name_tool) [] = (Raise TypeError, [])
  /\ register_tool (VStr "add") [] = (Raise AttributeError, []).
Proof.
  split; [|split].
  - exact (proj1 (register_tool_rejects (VDict unnamed_tool) [(VStr "add", VDict add_tool)])
             unnamed_tool eq_refl eq_refl).
  - exact (proj1 (proj2 (register_tool_rejects (VDict listed_name_tool) []))
             listed_name_tool (VList [VStr "add"]) eq_refl eq_refl eq_refl eq_refl).
  - exact (proj2 (proj2 (register_tool_rejects (VStr "add") []))
             ltac:(intros t; discriminate)).
Defined.

Lemma registered_tools_found_witness :
  In (VDict add_tool) [VDict add_tool; VStr "junk"; VDict ping_tool]
  /\ tool_name (VDict add_tool) = Some "add"%string
  /\ get_tool "ping" (snd (register_tools [VDict add_tool; VStr "junk"; VDict ping_tool] []))
     = ToolNotFoundError "Tool 'ping' not found in registry".
Proof.
  destruct (registered_tools_found [VDict add_tool; VStr "junk"; VDict ping_tool] "add")
    as (Hfound & _ & _).
  destruct (Hfound (VDict add_tool) ltac:(vm_compute; reflexivity)) as (Hin & Hname & _).
  split; [exact Hin|]. split; [exact Hname|].
  exact (proj2 (proj2 (registered_tools_found
                         [VDict add_tool; VStr "junk"; VDict ping_tool] "ping"))
           ltac:(vm_compute; reflexivity)).
Defined.

Lemma last_registration_wins_witness :
  get_tool "add" (snd (register_tools [VDict add_tool; VDict ping_tool; VDict add_tool_v2] []))
  = Found (VDict add_tool_v2)
  /\ get_all_tools
       (snd (register_tools [VDict add_tool; VDict ping_tool; VDict add_tool_v2] []))
     = [VDict add_tool_v2; VDict ping_tool].
Proof.
  split; [|reflexivity].
  exact (last_registration_wins [VDict add_tool; VDict ping_tool; VDict add_tool_v2] "add" []
           eq_refl ltac:(discriminate)).
Defined.

Lemma register_tools_partial_witness :
  register_tools [VDict add_tool; VDict listed_name_tool; VDict ping_tool] []
  = (Raise TypeError, [(VStr "add", VDict add_tool)]).
Proof.
  exact (register_tools_partial [VDict add_tool] [VDict ping_tool] (VDict listed_name_tool)
           TypeError [] eq_refl eq_refl).
Defined.

Lemma register_tools_keeps_order_witness :
  get_all_tools (snd (register_tools [VDict ping_tool; VDict add_tool] []))
  = [VDict ping_tool; VDict add_tool]
  /\ __len__ (snd (register_tools [VDict ping_tool; VDict add_tool] [])) = 2%nat.
Proof.
  destruct (register_tools_keeps_order [ping_tool; add_tool] ["ping"; "add"]%string eq_refl
              ltac:(repeat constructor; cbn; intuition discriminate)
              ltac:(cbn; intuition discriminate))
    as (_ & Hall & Hlen & _).
  split; [exact Hall|exact Hlen].
Defined.

End RegistryFacts.

(** ** The conversation history *)

Module ConversationFacts.
Import ConversationManager Scenarios.

Lemma add_message_positive (message : Message) (m : manager) :
  0 < max_history m ->
  _messages (add_message message m)
  = skipn (List.length (_messages m ++ [message]) - Z.to_nat (max_history m))
      (_messages m ++ [message]).
Proof.
  intros Hcap. unfold add_message.
  destruct (max_history m <? Z.of_nat (List.length (_messages m ++ [message]))) eqn:Hlen;
    cbn [_messages].
  - unfold tail_slice. now rewrite (proj2 (Z.ltb_lt _ _) Hcap).
  - apply Z.ltb_ge in Hlen.
    replace (List.length (_messages m ++ [message]) - Z.to_nat (max_history m))%nat
      with 0%nat by lia.
    reflexivity.
Qed.

Lemma max_history_add_message (message : Message) (m : manager) :
  max_history (add_message message m) = max_history m.
Proof.
  unfold add_message.
  now destruct (max_history m <? Z.of_nat (List.length (_messages m ++ [message]))).
Qed.

Lemma max_history_add_messages (messages : list Message) (m : manager) :
  max_history (add_messages messages m) = max_history m.
Proof.
  revert m. induction messages as [|message rest IH]; intros m; [reflexivity|].
  cbn [add_messages fold_left]. fold (add_messages rest (add_message message m)).
  now rewrite IH, max_history_add_message.
Qed.

Lemma skipn_snoc {A : Type} (k : nat) (l : list A) (x : A) :
  (k <= List.length l)%nat -> skipn k (l ++ [x]) = skipn k l ++ [x].
Proof.
  intros Hk. rewrite skipn_app. replace (k - List.length l)%nat with 0%nat by lia.
  reflexivity.
Qed.

Lemma add_messages_snoc (messages : list Message) (message : Message) (m : manager) :
  add_messages (messages ++ [message]) m = add_message message (add_messages messages m).
Proof. unfold add_messages. now rewrite fold_left_app. Qed.

(** X18.  With a positive [max_history], after any number of
    [add_message] the history is the last [max_history] messages of the
    history before followed by the messages added, in order, so it never
    holds more than [max_history] messages. *)
Theorem history_keeps_last (messages : list Message) (m : manager) :
  0 < max_history m ->
  Z.of_nat (List.length (_messages m)) <= max_history m ->
  _messages (add_messages messages m)
  = skipn (List.length (_messages m ++ messages) - Z.to_nat (max_history m))
      (_messages m ++ messages)
  /\ Z.of_nat (List.length (_messages (add_messages messages m))) <= max_history m.
Proof.
  intros Hcap Hlen.
  assert (Heq : _messages (add_messages messages m)
                = skipn (List.length (_messages m ++ messages) - Z.to_nat (max_history m))
                    (_messages m ++ messages)).
  { induction messages as [|message rest IH] using rev_ind.
    - cbn [add_messages fold_left]. rewrite app_nil_r.
      replace (List.length (_messages m) - Z.to_nat (max_history m))%nat with 0%nat by lia.
      reflexivity.
    - rewrite add_messages_snoc.
      rewrite add_message_positive by (now rewrite max_history_add_messages).
      rewrite max_history_add_messages, IH.
      set (cap := Z.to_nat (max_history m)).
      set (all := _messages m ++ rest).
      assert (Hcap' : (0 < cap)%nat) by (unfold cap; lia).
      replace (_messages m ++ rest ++ [message]) with (all ++ [message])
        by (unfold all; now rewrite app_assoc).
      rewrite !length_app, length_skipn. cbn [List.length].
      rewrite <- skipn_snoc by lia.
      rewrite skipn_skipn. f_equal. lia. }
  split; [exact Heq|]. rewrite Heq, length_skipn. lia.
Qed.

(** X19.  A [max_history] that is not positive does not bound the
    history as its name says: with [max_history = 0] no message is ever
    dropped, and with a negative [max_history] every [add_message] drops that
    many of the oldest messages, so that a history that starts empty stays
    empty. *)
Theorem history_without_bound (messages : list Message) (m : manager) :
  (max_history m = 0 ->
   _messages (add_messages messages m) = _messages m ++ messages)
  /\ (max_history m < 0 ->
      _messages m = [] ->
      _messages (add_messages messages m) = [])
  /\ (forall message,
        max_history m <= 0 ->
        _messages (add_message message m)
        = skipn (Z.to_nat (- max_history m)) (_messages m ++ [message])).
Proof.
  assert (Hone : forall message m',
             max_history m' <= 0 ->
             _messages (add_message message m')
             = skipn (Z.to_nat (- max_history m')) (_messages m' ++ [message])).
  { intros message m' Hcap. unfold add_message.
    assert (Hlen : (max_history m' <? Z.of_nat (List.length (_messages m' ++ [message]))) = true).
    { apply Z.ltb_lt. rewrite length_app. cbn [List.length]. lia. }
    rewrite Hlen. cbn [_messages]. unfold tail_slice.
    now rewrite (proj2 (Z.ltb_ge _ _) Hcap). }
  split; [|split].
  - intros Hcap. induction messages as [|message rest IH] using rev_ind.
    + now rewrite app_nil_r.
    + rewrite add_messages_snoc.
      rewrite Hone by (rewrite max_history_add_messages; lia).
      rewrite max_history_add_messages, Hcap, IH. cbn [Z.opp Z.to_nat skipn].
      now rewrite app_assoc.
  - intros Hcap Hempty. induction messages as [|message rest IH] using rev_ind.
    + exact Hempty.
    + rewrite add_messages_snoc.
      rewrite Hone by (rewrite max_history_add_messages; lia).
      rewrite max_history_add_messages, IH. cbn [app].
      destruct (Z.to_nat (- max_history m)) as [|k] eqn:Hk; [lia|].
      cbn [skipn]. now destruct k.
  - intros message Hcap. now apply Hone.
Qed.

(** X20.  [get_history] returns the most recent messages in their
    order: the whole history without a limit, the last [limit] messages (all
    of them if there are fewer) for a positive limit, and none for a limit
    that is zero or negative. *)
Theorem get_history_recent (limit : option Z) (m : manager) :
  (exists older, _messages m = older ++ get_history limit m)
  /\ List.length (get_history limit m)
     = match limit with
       | None => List.length (_messages m)
       | Some n => Nat.min (Z.to_nat n) (List.length (_messages m))
       end.
Proof.
  unfold get_history, tail_slice. destruct limit as [n|].
  - destruct (0 <? n) eqn:Hn.
    + split.
      * exists (firstn (List.length (_messages m) - Z.to_nat n) (_messages m)).
        now rewrite firstn_skipn.
      * rewrite length_skipn. lia.
    + apply Z.ltb_ge in Hn. split.
      * exists (_messages m). now rewrite app_nil_r.
      * cbn [List.length]. lia.
  - split; [now exists []|reflexivity].
Qed.

(** X21.  [to_ollama_format] gives one object per message of
    [get_history], in order, with the keys [role] (the value of the role) and
    [content], followed by [tool_call_id] and [name] exactly when the message
    has a non-empty tool call id and a non-empty tool name; the timestamp is
    never part of it. *)
Theorem to_ollama_format_fields (limit : option Z) (m : manager) :
  Forall2
    (fun msg ollama_msg =>
       Dict.keys ollama_msg
       = ["role"; "content"]
         ++ (match present (tool_call_id msg) with Some _ => ["tool_call_id"] | None => [] end)
         ++ (match present (tool_name msg) with Some _ => ["name"] | None => [] end)
       /\ Dict.get "role" ollama_msg = Some (VStr (role_value (role msg)))
       /\ Dict.get "content" ollama_msg = Some (VStr (content msg))
       /\ Dict.get "tool_call_id" ollama_msg = option_map VStr (present (tool_call_id msg))
       /\ Dict.get "name" ollama_msg = option_map VStr (present (tool_name msg)))
    (get_history limit m) (to_ollama_format limit m).
Proof.
  unfold to_ollama_format. induction (get_history limit m) as [|msg rest IH]; constructor.
  - unfold ollama_msg.
    destruct (present (tool_call_id msg)), (present (tool_name msg)); repeat split.
  - exact IH.
Qed.

Lemma history_keeps_last_witness :
  _messages (add_messages three_messages (__init__ 2))
  = [said ASSISTANT "4" 2; said USER "Thanks" 3].
Proof.
  exact (proj1 (history_keeps_last three_messages (__init__ 2) ltac:(reflexivity)
                  ltac:(cbn; lia))).
Defined.

Lemma history_without_bound_witness :
  _messages (add_messages three_messages (__init__ 0)) = three_messages
  /\ _messages (add_messages three_messages (__init__ (-1))) = [].
Proof.
  split.
  - exact (proj1 (history_without_bound three_messages (__init__ 0)) eq_refl).
  - exact (proj1 (proj2 (history_without_bound three_messages (__init__ (-1))))
             ltac:(reflexivity) eq_refl).
Defined.

End ConversationFacts.

(** ** The session client at the edges *)

Module SessionFacts.
Import HttpMCPClient Examples HttpMCPClientFacts.

Section WithBuiltins.
Context {B : Builtins}.

(** A method that wraps what its body raises returns or raises the wrapped
    exception. *)
Lemma try_except_wraps {A : Type} (m : M A) (wrap : pyexn -> pyexn) (s : state) :
  (exists a, fst (try_except m (fun e => raise (wrap e)) s) = Ok a)
  \/ (exists cause, fst (try_except m (fun e => raise (wrap e)) s) = Raise (wrap cause)).
Proof.
  unfold try_except, raise. destruct (m s) as [[a|e] s']; cbn [fst]; eauto.
Qed.

Lemma bind_self {A : Type} (k : client -> M A) (c : client) (n : network) :
  bind self k (c, n) = k c (c, n).
Proof. reflexivity. Qed.

(** X1.  Whatever the client and the server do, [call_tool] returns, or
    raises [MCPConnectionError] "Not connected to MCP server", or raises
    [ToolExecutionError] with the message "Failed to execute tool '<name>': "
    followed by the cause; [list_tools] returns or raises [MCPConnectionError]
    (not connected, or "Failed to list tools: " and the cause); [connect]
    returns or raises [MCPConnectionError] "Failed to connect to MCP server: "
    and the cause.  No other exception leaves these methods. *)
Theorem raised_exceptions (c : client) (n : network) (name : string) (arguments : dict) :
  ((exists result, fst (call_tool name arguments (c, n)) = Ok result)
   \/ fst (call_tool name arguments (c, n))
      = Raise (MCPConnectionError "Not connected to MCP server" None)
   \/ exists cause,
       fst (call_tool name arguments (c, n))
       = Raise (ToolExecutionError ("Failed to execute tool '" ++ name ++ "': ")%string
                  (Some cause)))
  /\ ((exists tools, fst (list_tools (c, n)) = Ok tools)
      \/ fst (list_tools (c, n)) = Raise (MCPConnectionError "Not connected to MCP server" None)
      \/ exists cause,
          fst (list_tools (c, n))
          = Raise (MCPConnectionError "Failed to list tools: " (Some cause)))
  /\ (fst (connect (c, n)) = Ok tt
      \/ exists cause,
          fst (connect (c, n))
          = Raise (MCPConnectionError "Failed to connect to MCP server: " (Some cause))).
Proof.
  split; [|split].
  - unfold call_tool. rewrite bind_self.
    destruct (not_connected c); [right; left; reflexivity|].
    match goal with
    | |- context [try_except ?m (fun e => raise (ToolExecutionError ?p (Some e)))] =>
        destruct (try_except_wraps m (fun e => ToolExecutionError p (Some e)) (c, n))
        as [H|H]; [left|right; right]; exact H
    end.
  - unfold list_tools. rewrite bind_self.
    destruct (not_connected c); [right; left; reflexivity|].
    destruct (_tools_cache c) as [tools|]; [left; exists tools; reflexivity|].
    match goal with
    | |- context [try_except ?m (fun e => raise (MCPConnectionError ?p (Some e)))] =>
        destruct (try_except_wraps m (fun e => MCPConnectionError p (Some e)) (c, n))
        as [H|H]; [left|right; right]; exact H
    end.
  - unfold connect.
    match goal with
    | |- context [try_except ?m (fun e => raise (MCPConnectionError ?p (Some e)))] =>
        destruct (try_except_wraps m (fun e => MCPConnectionError p (Some e)) (c, n))
        as [[[] H]|H]; [left|right]; exact H
    end.
Qed.

(** X2.  On a client that is not connected (no HTTP client or no session
    id) [call_tool] and [list_tools] raise [MCPConnectionError] "Not connected
    to MCP server" and change nothing: no request is posted, no id is used,
    and cached tools are not served.  A new client is not connected, and
    neither is a client after a [disconnect] whose close does not fail. *)
Theorem session_required (c : client) (n : network) (name : string) (arguments : dict) :
  (not_connected c = true ->
   call_tool name arguments (c, n)
   = (Raise (MCPConnectionError "Not connected to MCP server" None), (c, n))
   /\ list_tools (c, n)
      = (Raise (MCPConnectionError "Not connected to MCP server" None), (c, n)))
  /\ (forall url, not_connected (__init__ url) = true)
  /\ (hd false (closes n) = false ->
      not_connected (fst (snd (disconnect (c, n)))) = true).
Proof.
  split; [|split].
  - intros Hnc. unfold call_tool, list_tools. rewrite !bind_self, Hnc. split; reflexivity.
  - reflexivity.
  - intros Hclose. rewrite disconnect_run. cbn [snd]. unfold not_connected.
    destruct (_client c) eqn:Hc; cbn [fst]; [|now rewrite Hc].
    rewrite Hclose. reflexivity.
Qed.

(** X3.  On a connected client [call_tool] posts exactly one request,
    whatever the reply and whatever it returns or raises: the [tools/call]
    request with the next id, the name and the arguments, under the session
    id; it consumes one reply, adds one to the counter and leaves the HTTP
    client, the session id, the tools cache and the URL as they were. *)
Theorem call_tool_posts_once (c : client) (n : network) (name : string) (arguments : dict) :
  not_connected c = false ->
  snd (call_tool name arguments (c, n))
  = ({| server_url := server_url c;
        _client := _client c;
        _session_id := _session_id c;
        _tools_cache := _tools_cache c;
        _request_id := _request_id c + 1 |},
     {| replies := tl (replies n);
        closes := closes n;
        posted := posted n
                  ++ [{| url := server_url c;
                         json := tools_call_request (_request_id c + 1) name arguments;
                         mcp_session_id := _session_id c |}] |}).
Proof.
  intros Hconn. run_method. rewrite Hconn. run_method.
  destruct (replies n) as [|[r|detail] rest]; run_method; try reflexivity.
  destruct (is_success (status_code r)); run_method; try reflexivity.
  destruct (_parse_sse_response (text r)) as [result|e]; run_method; try reflexivity.
  destruct (tool_call_result result); reflexivity.
Qed.

(** X4.  On a connected client a transport error, or a response whose
    status is not a success (whatever its body), makes [call_tool] raise
    [ToolExecutionError] and, when no tools are cached, [list_tools] raise
    [MCPConnectionError] "Failed to list tools: ", each with the HTTP error as
    its cause. *)
Theorem transport_failure (c : client) (n : network) (name : string) (arguments : dict) :
  not_connected c = false ->
  (forall detail rest,
      replies n = Fail detail :: rest ->
      fst (call_tool name arguments (c, n))
      = Raise (ToolExecutionError ("Failed to execute tool '" ++ name ++ "': ")%string
                 (Some (HTTPError detail)))
      /\ (_tools_cache c = None ->
          fst (list_tools (c, n))
          = Raise (MCPConnectionError "Failed to list tools: " (Some (HTTPError detail)))))
  /\ (forall r rest,
        replies n = Answer r :: rest ->
        is_success (status_code r) = false ->
        fst (call_tool name arguments (c, n))
        = Raise (ToolExecutionError ("Failed to execute tool '" ++ name ++ "': ")%string
                   (Some (HTTPError "HTTP status error")))
        /\ (_tools_cache c = None ->
            fst (list_tools (c, n))
            = Raise (MCPConnectionError "Failed to list tools: "
                       (Some (HTTPError "HTTP status error"))))).
Proof.
  intros Hconn. split.
  - intros detail rest Hreply. split; [|intros Hcache];
      run_method; rewrite Hconn; [|rewrite Hcache]; run_method; rewrite Hreply; reflexivity.
  - intros r rest Hreply Hstatus. split; [|intros Hcache];
      run_method; rewrite Hconn; [|rewrite Hcache]; run_method; rewrite Hreply;
      run_method; rewrite Hstatus; reflexivity.
Qed.

(** X6.  [list_tools] caches what it returns and nothing else: when it
    returns a list, the cache holds that list and the next call returns the
    same list without changing anything; when it raises, the cache is as
    before.  It never changes the HTTP client or the session id, and with
    tools already cached it changes nothing at all. *)
Theorem list_tools_cache (c : client) (n : network) :
  match fst (list_tools (c, n)) with
  | Ok tools =>
      _tools_cache (fst (snd (list_tools (c, n)))) = Some tools
      /\ list_tools (snd (list_tools (c, n))) = (Ok tools, snd (list_tools (c, n)))
  | Raise _ => _tools_cache (fst (snd (list_tools (c, n)))) = _tools_cache c
  end
  /\ _client (fst (snd (list_tools (c, n)))) = _client c
  /\ _session_id (fst (snd (list_tools (c, n)))) = _session_id c
  /\ (forall tools, _tools_cache c = Some tools -> snd (list_tools (c, n)) = (c, n)).
Proof.
  run_method. destruct (not_connected c) eqn:Hconn; run_method.
  { repeat split. }
  destruct (_tools_cache c) as [cached|] eqn:Hcache; run_method.
  { rewrite Hconn, Hcache. repeat split. }
  assert (Hconn' : forall id tools,
             not_connected (set_tools_cache tools (set_request_id id c)) = false)
    by (intros; exact Hconn).
  destruct (replies n) as [|[r|detail] rest]; run_method;
    [rewrite Hcache; repeat split; discriminate| |rewrite Hcache; repeat split; discriminate].
  destruct (is_success (status_code r)); run_method;
    [|rewrite Hcache; repeat split; discriminate].
  destruct (_parse_sse_response (text r)) as [result|e]; run_method;
    [|rewrite Hcache; repeat split; discriminate].
  destruct (py_contains "error" result) as [[|]|e]; run_method;
    [destruct (py_getitem "error" result); run_method; rewrite Hcache; repeat split; discriminate
    | |rewrite Hcache; repeat split; discriminate].
  destruct (py_get "result" (VDict []) result) as [payload|e]; run_method;
    [|rewrite Hcache; repeat split; discriminate].
  destruct (py_get "tools" (VList []) payload) as [tools_data|e]; run_method;
    [|rewrite Hcache; repeat split; discriminate].
  destruct (py_iter tools_data) as [items|e]; run_method;
    [|rewrite Hcache; repeat split; discriminate].
  destruct (tool_entries items) as [tools|e]; run_method;
    [|rewrite Hcache; repeat split; discriminate].
  rewrite Hconn'. repeat split. discriminate.
Qed.

(** What [list_tools] does on a connected client without a cache whose request
    is answered with a success status and an envelope without ["error"]. *)
Lemma list_tools_answered (c : client) (n : network) (r : Response) (rest : list reply)
      (envelope : dict) :
  not_connected c = false ->
  _tools_cache c = None ->
  replies n = Answer r :: rest ->
  is_success (status_code r) = true ->
  _parse_sse_response (text r) = Ok (VDict envelope) ->
  Dict.mem "error" envelope = false ->
  list_tools (c, n)
  = match obind (py_get "tools" (VList []) (Dict.get_default "result" (VDict []) envelope))
            (fun tools_data => obind (py_iter tools_data) tool_entries) with
    | Ok tools =>
        (Ok tools,
         (set_tools_cache (Some tools)
            (fst (after_request (tools_list_request (_request_id c + 1)) c n)),
          snd (after_request (tools_list_request (_request_id c + 1)) c n)))
    | Raise e =>
        (Raise (MCPConnectionError "Failed to list tools: " (Some e)),
         after_request (tools_list_request (_request_id c + 1)) c n)
    end.
Proof.
  intros Hconn Hcache Hreply Hok Hparse Herr.
  run_method. rewrite Hconn, Hcache. run_method.
  rewrite Hreply. run_method. rewrite Hok. run_method. rewrite Hparse.
  unfold py_contains. rewrite Herr. run_method.
  change (py_get "result" (VDict []) (VDict envelope))
    with (Ok (Dict.get_default "result" (VDict []) envelope)).
  cbv beta iota.
  destruct (py_get "tools" (VList []) (Dict.get_default "result" (VDict []) envelope))
    as [tools_data|e]; cbn [obind]; [|reflexivity].
  destruct (py_iter tools_data) as [items|e]; cbn [obind]; [|reflexivity].
  destruct (tool_entries items); reflexivity.
Qed.

Lemma tool_entries_named (items : list dict) :
  Forall (fun tool => Dict.mem "name" tool = true) items ->
  tool_entries (map VDict items)
  = Ok (map (fun tool =>
               VDict [("name", Dict.get_default "name" VNone tool);
                      ("description", Dict.get_default "description" (VStr "") tool);
                      ("inputSchema", Dict.get_default "inputSchema" (VDict []) tool)])
          items).
Proof.
  induction 1 as [|tool items Hname _ IH]; [reflexivity|].
  cbn [map tool_entries]. rewrite IH.
  unfold tool_entry, py_getitem, py_get, Dict.get_default, Dict.mem in *.
  destruct (Dict.get "name" tool); [reflexivity|discriminate].
Qed.

Lemma tool_entries_nameless (items : list dict) (tool : dict) :
  In tool items ->
  Dict.mem "name" tool = false ->
  tool_entries (map VDict items) = Raise (KeyError "name").
Proof.
  induction items as [|first items IH]; intros Hin Hname; [destruct Hin|].
  cbn [map tool_entries]. unfold tool_entry at 1, py_getitem, py_get.
  destruct (Dict.get "name" first) eqn:Hfirst; cbn [obind]; [|reflexivity].
  destruct Hin as [->|Hin].
  - unfold Dict.mem in Hname. now rewrite Hfirst in Hname.
  - now rewrite (IH Hin Hname).
Qed.

(** X5.  When the server answers [tools/list] with a list of tool
    objects, [list_tools] returns one entry per tool, in the order of the
    server, each with exactly the keys [name], [description] (the empty string
    if absent) and [inputSchema] (the empty object if absent), other fields of
    the tool being dropped.  If one tool has no name, the whole listing fails
    with [MCPConnectionError] caused by [KeyError] "name", and nothing is
    cached. *)
Theorem list_tools_entries (c : client) (n : network) (r : Response) (rest : list reply)
        (envelope payload : dict) (items : list dict) :
  not_connected c = false ->
  _tools_cache c = None ->
  replies n = Answer r :: rest ->
  is_success (status_code r) = true ->
  _parse_sse_response (text r) = Ok (VDict envelope) ->
  Dict.mem "error" envelope = false ->
  Dict.get "result" envelope = Some (VDict payload) ->
  Dict.get "tools" payload = Some (VList (map VDict items)) ->
  (Forall (fun tool => Dict.mem "name" tool = true) items ->
   fst (list_tools (c, n))
   = Ok (map (fun tool =>
                VDict [("name", Dict.get_default "name" VNone tool);
                       ("description", Dict.get_default "description" (VStr "") tool);
                       ("inputSchema", Dict.get_default "inputSchema" (VDict []) tool)])
           items))
  /\ (forall tool,
        In tool items ->
        Dict.mem "name" tool = false ->
        fst (list_tools (c, n))
        = Raise (MCPConnectionError "Failed to list tools: " (Some (KeyError "name")))
        /\ _tools_cache (fst (snd (list_tools (c, n)))) = None).
Proof.
  intros Hconn Hcache Hreply Hok Hparse Herr Hresult Htools.
  rewrite (list_tools_answered c n r rest envelope Hconn Hcache Hreply Hok Hparse Herr).
  assert (Hitems :
            obind (py_get "tools" (VList []) (Dict.get_default "result" (VDict []) envelope))
              (fun tools_data => obind (py_iter tools_data) tool_entries)
            = tool_entries (map VDict items)).
  { unfold Dict.get_default at 1. rewrite Hresult.
    unfold py_get, Dict.get_default. rewrite Htools. reflexivity. }
  rewrite Hitems. split.
  - intros Hnamed. now rewrite (tool_entries_named items Hnamed).
  - intros tool Hin Hname. rewrite (tool_entries_nameless items tool Hin Hname).
    split; [reflexivity|exact Hcache].
Qed.

(** X7.  An answer that carries a top-level ["error"] makes [list_tools]
    raise [MCPConnectionError] "Failed to list tools: " whose cause is the
    [MCPConnectionError] "Failed to list tools: <error>" raised inside, with
    nothing cached.  The same answer to the initialize request makes [connect]
    raise [MCPConnectionError] caused by "Initialization failed: <error>";
    the session id of the response is stored all the same, so the client
    counts as connected, and the notification is not sent. *)
Theorem error_envelope_raises (c : client) (n : network) (r : Response) (rest : list reply)
        (envelope : dict) (err : value) :
  replies n = Answer r :: rest ->
  is_success (status_code r) = true ->
  _parse_sse_response (text r) = Ok (VDict envelope) ->
  Dict.get "error" envelope = Some err ->
  (not_connected c = false ->
   _tools_cache c = None ->
   fst (list_tools (c, n))
   = Raise (MCPConnectionError "Failed to list tools: "
              (Some (MCPConnectionError ("Failed to list tools: " ++ py_str err)%string None)))
   /\ _tools_cache (fst (snd (list_tools (c, n)))) = None)
  /\ (forall sid,
        mcp_session_id_header r = Some sid ->
        sid <> ""%string ->
        fst (connect (c, n))
        = Raise (MCPConnectionError "Failed to connect to MCP server: "
                   (Some (MCPConnectionError ("Initialization failed: " ++ py_str err)%string
                            None)))
        /\ not_connected (fst (snd (connect (c, n)))) = false
        /\ _session_id (fst (snd (connect (c, n)))) = Some sid
        /\ posted (snd (snd (connect (c, n))))
           = posted n ++ [{| url := server_url c;
                             json := init_request (_request_id c + 1);
                             mcp_session_id := None |}]).
Proof.
  intros Hreply Hok Hparse Herr.
  assert (Hmem : Dict.mem "error" envelope = true) by (unfold Dict.mem; now rewrite Herr).
  split.
  - intros Hconn Hcache. run_method. rewrite Hconn, Hcache. run_method.
    rewrite Hreply. run_method. rewrite Hok. run_method. rewrite Hparse.
    unfold py_contains, py_getitem. rewrite Hmem, Herr. run_method. split; [reflexivity|exact Hcache].
  - intros sid Hsid Hne. run_method. rewrite Hreply. run_method. rewrite Hok. run_method.
    assert (Hns : no_session_id (Some sid) = false)
      by (unfold no_session_id; now rewrite (proj2 (String.eqb_neq sid "") Hne)).
    rewrite Hsid, Hns. run_method. rewrite Hparse. unfold py_contains, py_getitem.
    rewrite Hmem, Herr. run_method. unfold not_connected.
    cbn [_client _session_id set_session_id set_request_id set_client].
    rewrite Hns. repeat split.
Qed.

(** X8.  When the initialize request meets a transport error or a status
    that is not a success, [connect] raises [MCPConnectionError] caused by the
    HTTP error and the session id is what it was.  When the response has no
    session id (or an empty one), [connect] raises [MCPConnectionError] caused
    by "Server did not return a session ID" and the client is not connected.
    In every case [connect] installs an HTTP client, adds one to the counter
    and posts the initialize request with that id under no session id. *)
Theorem connect_failure (c : client) (n : network) :
  (forall detail rest,
      replies n = Fail detail :: rest ->
      fst (connect (c, n))
      = Raise (MCPConnectionError "Failed to connect to MCP server: "
                 (Some (HTTPError detail)))
      /\ _session_id (fst (snd (connect (c, n)))) = _session_id c)
  /\ (forall r rest,
        replies n = Answer r :: rest ->
        is_success (status_code r) = false ->
        fst (connect (c, n))
        = Raise (MCPConnectionError "Failed to connect to MCP server: "
                   (Some (HTTPError "HTTP status error")))
        /\ _session_id (fst (snd (connect (c, n)))) = _session_id c)
  /\ (forall r rest,
        replies n = Answer r :: rest ->
        is_success (status_code r) = true ->
        no_session_id (mcp_session_id_header r) = true ->
        fst (connect (c, n))
        = Raise (MCPConnectionError "Failed to connect to MCP server: "
                   (Some (MCPConnectionError "Server did not return a session ID" None)))
        /\ not_connected (fst (snd (connect (c, n)))) = true)
  /\ _client (fst (snd (connect (c, n)))) = Some NewAsyncClient
  /\ _request_id (fst (snd (connect (c, n)))) = _request_id c + 1
  /\ exists notification,
      posted (snd (snd (connect (c, n))))
      = posted n ++ {| url := server_url c;
                       json := init_request (_request_id c + 1);
                       mcp_session_id := None |} :: notification.
Proof.
  split; [|split; [|split]].
  - intros detail rest Hreply. run_method. rewrite Hreply. split; reflexivity.
  - intros r rest Hreply Hstatus. run_method. rewrite Hreply. run_method.
    rewrite Hstatus. split; reflexivity.
  - intros r rest Hreply Hstatus Hsid. run_method. rewrite Hreply. run_method.
    rewrite Hstatus. run_method. rewrite Hsid. run_method.
    unfold not_connected. cbn [_client _session_id]. split; [reflexivity|exact Hsid].
  - run_method. destruct (replies n) as [|[r|detail] rest]; run_method;
      try (repeat split; exists []; reflexivity).
    destruct (is_success (status_code r)); run_method;
      try (repeat split; exists []; reflexivity).
    destruct (no_session_id (mcp_session_id_header r)); run_method;
      try (repeat split; exists []; reflexivity).
    destruct (_parse_sse_response (text r)) as [result|e]; run_method;
      try (repeat split; exists []; reflexivity).
    destruct (py_contains "error" result) as [[|]|e]; run_method;
      try (repeat split; exists []; reflexivity).
    + destruct (py_getitem "error" result); run_method; repeat split; exists []; reflexivity.
    + destruct rest as [|[r2|detail] rest']; run_method; repeat split;
        eexists; rewrite <- app_assoc; reflexivity.
Qed.

(** X9.  [call_tool] returns a result only from a body that decodes to
    a JSON object.  A body that cannot be decoded raises [ToolExecutionError]
    caused by the decoding error; a body that decodes to another JSON value
    raises [ToolExecutionError] caused by [TypeError] or [AttributeError]; and
    an ["error"] member that is not an object raises [ToolExecutionError]
    caused by [AttributeError] instead of returning [{"error": ...}]. *)
Theorem call_tool_needs_object
        (c : client) (n : network) (name : string) (arguments : dict)
        (r : Response) (rest : list reply) :
  not_connected c = false ->
  replies n = Answer r :: rest ->
  is_success (status_code r) = true ->
  (forall e,
      _parse_sse_response (text r) = Raise e ->
      fst (call_tool name arguments (c, n))
      = Raise (ToolExecutionError ("Failed to execute tool '" ++ name ++ "': ")%string (Some e)))
  /\ (forall result,
        _parse_sse_response (text r) = Ok result ->
        (forall d, result <> VDict d) ->
        fst (call_tool name arguments (c, n))
        = Raise (ToolExecutionError ("Failed to execute tool '" ++ name ++ "': ")%string
                   (Some TypeError))
        \/ fst (call_tool name arguments (c, n))
           = Raise (ToolExecutionError ("Failed to execute tool '" ++ name ++ "': ")%string
                      (Some AttributeError)))
  /\ (forall envelope err,
        _parse_sse_response (text r) = Ok (VDict envelope) ->
        Dict.get "error" envelope = Some err ->
        (forall d, err <> VDict d) ->
        fst (call_tool name arguments (c, n))
        = Raise (ToolExecutionError ("Failed to execute tool '" ++ name ++ "': ")%string
                   (Some AttributeError))).
Proof.
  intros Hconn Hreply Hok.
  rewrite (call_tool_run name arguments c n r rest Hconn Hreply Hok). cbn [fst].
  split; [|split].
  - intros e ->. reflexivity.
  - intros result -> Hshape. cbn [obind]. unfold tool_call_result.
    destruct result as [| | | |s|l|d]; cbn [py_contains obind]; auto.
    + destruct (is_substring "error" s); cbn [py_getitem py_get obind]; auto.
    + destruct (existsb _ l); cbn [py_getitem py_get obind]; auto.
    + now destruct (Hshape d).
  - intros envelope err -> Herr Hshape. cbn [obind].
    unfold tool_call_result, py_contains, py_getitem, Dict.mem. rewrite Herr. cbn [obind].
    destruct err; try reflexivity. now destruct (Hshape d).
Qed.

End WithBuiltins.
End SessionFacts.

Module SessionRuns.
Import HttpMCPClient Examples Scenarios HttpMCPClientFacts SessionFacts.

Ltac by_run := vm_compute; reflexivity.

Lemma session_required_witness :
  @list_tools Reference.builtins (snd (disconnect (cached_session, quiet [])))
  = (Raise (MCPConnectionError "Not connected to MCP server" None),
     snd (disconnect (cached_session, quiet [])))
  /\ @call_tool Reference.builtins "add" [] (__init__ calculator_url, quiet [])
     = (Raise (MCPConnectionError "Not connected to MCP server" None),
        (__init__ calculator_url, quiet [])).
Proof.
  split.
  - exact (proj2 (proj1 (@session_required Reference.builtins
                           (fst (snd (disconnect (cached_session, quiet []))))
                           (snd (snd (disconnect (cached_session, quiet []))))
                           "add" [])
                    (proj2 (proj2 (@session_required Reference.builtins
                                     cached_session (quiet []) "add" []))
                       ltac:(by_run)))).
  - exact (proj1 (proj1 (@session_required Reference.builtins
                           (__init__ calculator_url) (quiet []) "add" [])
                    ltac:(by_run))).
Defined.

Lemma list_tools_cache_witness :
  snd (@list_tools Reference.builtins (cached_session, unreachable))
  = (cached_session, unreachable).
Proof.
  exact (proj2 (proj2 (proj2 (@list_tools_cache Reference.builtins cached_session
                                unreachable)))
           (Dict.values example_tools) eq_refl).
Defined.

Lemma call_tool_posts_once_witness :
  posted (snd (snd (@call_tool Reference.builtins "add" [("a", VInt 2); ("b", VInt 2)]
                      (in_session, unreachable))))
  = [{| url := "http://127.0.0.1:8000/mcp";
        json := tools_call_request 2 "add" [("a", VInt 2); ("b", VInt 2)];
        mcp_session_id := Some "session-1" |}].
Proof.
  rewrite (@call_tool_posts_once Reference.builtins in_session unreachable "add"
             [("a", VInt 2); ("b", VInt 2)] ltac:(by_run)).
  reflexivity.
Defined.

Lemma transport_failure_witness :
  fst (@call_tool Reference.builtins "add" [] (in_session, unreachable))
  = Raise (ToolExecutionError "Failed to execute tool 'add': " (Some (HTTPError "ConnectError")))
  /\ fst (@list_tools Reference.builtins (in_session, server_error))
     = Raise (MCPConnectionError "Failed to list tools: "
                (Some (HTTPError "HTTP status error"))).
Proof.
  split.
  - exact (proj1 (proj1 (@transport_failure Reference.builtins in_session unreachable
                           "add" [] ltac:(by_run))
                    "ConnectError"%string [] ltac:(by_run))).
  - exact (proj2 (proj2 (@transport_failure Reference.builtins in_session server_error
                           "add" [] ltac:(by_run))
                    {| status_code := 500;
                       mcp_session_id_header := None;
                       text := body_of four_envelope |} []
                    ltac:(by_run) ltac:(by_run))
             ltac:(by_run)).
Defined.

Lemma list_tools_entries_witness :
  fst (@list_tools Reference.builtins (in_session, answered tools_envelope))
  = Ok [VDict [("name", VStr "add");
               ("description", VStr "");
               ("inputSchema", VDict [("type", VStr "object")])];
        VDict [("name", VStr "ping");
               ("description", VStr "Ping the server");
               ("inputSchema", VDict [])]]
  /\ fst (@list_tools Reference.builtins (in_session, answered nameless_envelope))
     = Raise (MCPConnectionError "Failed to list tools: " (Some (KeyError "name"))).
Proof.
  split.
  - exact (proj1 (@list_tools_entries Reference.builtins in_session (answered tools_envelope)
                    (response_of tools_envelope) [] tools_envelope
                    [("tools", VList (map VDict listed_tools))] listed_tools
                    ltac:(by_run) ltac:(by_run) ltac:(by_run) ltac:(by_run) ltac:(by_run)
                    ltac:(by_run) ltac:(by_run) ltac:(by_run))
             ltac:(repeat constructor)).
  - exact (proj1 (proj2 (@list_tools_entries Reference.builtins in_session
                           (answered nameless_envelope)
                           (response_of nameless_envelope) [] nameless_envelope
                           [("tools", VList (map VDict nameless_tools))] nameless_tools
                           ltac:(by_run) ltac:(by_run) ltac:(by_run) ltac:(by_run)
                           ltac:(by_run) ltac:(by_run) ltac:(by_run) ltac:(by_run))
                    [("description", VStr "A tool without a name")]
                    ltac:(right; left; reflexivity) ltac:(by_run))).
Defined.

Lemma error_envelope_raises_witness :
  fst (@list_tools Reference.builtins (in_session, answered error_text_envelope))
  = Raise (MCPConnectionError "Failed to list tools: "
             (Some (MCPConnectionError "Failed to list tools: boom" None)))
  /\ not_connected
       (fst (snd (@connect Reference.builtins
                    (__init__ calculator_url, quiet [Answer initialize_refused]))))
     = false.
Proof.
  split.
  - exact (proj1 (proj1 (@error_envelope_raises Reference.builtins in_session
                           (answered error_text_envelope) (response_of error_text_envelope) []
                           error_text_envelope (VStr "boom")
                           ltac:(by_run) ltac:(by_run) ltac:(by_run) ltac:(by_run))
                    ltac:(by_run) ltac:(by_run))).
  - exact (proj1 (proj2 (proj2 (@error_envelope_raises Reference.builtins
                                  (__init__ calculator_url) (quiet [Answer initialize_refused])
                                  initialize_refused [] error_envelope
                                  (VDict [("code", VInt (-32602));
                                          ("message", VStr "Unknown tool: nope")])
                                  ltac:(by_run) ltac:(by_run) ltac:(by_run) ltac:(by_run))
                           "session-1"%string ltac:(by_run) ltac:(discriminate)))).
Defined.

Lemma connect_failure_witness :
  fst (@connect Reference.builtins (__init__ calculator_url, unreachable))
  = Raise (MCPConnectionError "Failed to connect to MCP server: "
             (Some (HTTPError "ConnectError")))
  /\ not_connected
       (fst (snd (@connect Reference.builtins
                    (__init__ calculator_url, answered initialize_envelope))))
     = true.
Proof.
  split.
  - exact (proj1 (proj1 (@connect_failure Reference.builtins
                           (__init__ calculator_url) unreachable)
                    "ConnectError"%string [] ltac:(by_run))).
  - exact (proj2 (proj1 (proj2 (proj2 (@connect_failure Reference.builtins
                                         (__init__ calculator_url)
                                         (answered initialize_envelope))))
                    (response_of initialize_envelope) []
                    ltac:(by_run) ltac:(by_run) ltac:(by_run))).
Defined.

Lemma call_tool_needs_object_witness :
  fst (@call_tool Reference.builtins "add" [] (in_session, quiet [Answer html_response]))
  = Raise (ToolExecutionError "Failed to execute tool 'add': " (Some JSONDecodeError))
  /\ fst (@call_tool Reference.builtins "add" []
            (in_session, answered error_text_envelope))
     = Raise (ToolExecutionError "Failed to execute tool 'add': " (Some AttributeError))
  /\ (fst (@call_tool Reference.builtins "add" [] (in_session, quiet [Answer array_response]))
      = Raise (ToolExecutionError "Failed to execute tool 'add': " (Some TypeError))
      \/ fst (@call_tool Reference.builtins "add" []
                (in_session, quiet [Answer array_response]))
         = Raise (ToolExecutionError "Failed to execute tool 'add': " (Some AttributeError))).
Proof.
  split; [|split].
  - exact (proj1 (@call_tool_needs_object Reference.builtins in_session
                    (quiet [Answer html_response]) "add" [] html_response []
                    ltac:(by_run) ltac:(by_run) ltac:(by_run))
             JSONDecodeError ltac:(by_run)).
  - exact (proj2 (proj2 (@call_tool_needs_object Reference.builtins in_session
                           (answered error_text_envelope) "add" []
                           (response_of error_text_envelope) []
                           ltac:(by_run) ltac:(by_run) ltac:(by_run)))
             error_text_envelope (VStr "boom") ltac:(by_run) ltac:(by_run)
             ltac:(intros d; discriminate)).
  - exact (proj1 (proj2 (@call_tool_needs_object Reference.builtins in_session
                           (quiet [Answer array_response]) "add" [] array_response []
                           ltac:(by_run) ltac:(by_run) ltac:(by_run)))
             (VList [VInt 1; VInt 2]) ltac:(by_run) ltac:(intros d; discriminate)).
Defined.

End SessionRuns.

(** ** The chat service *)

Module OrchestrationFacts.
Import Orchestration.

Ltac run_service :=
  cbv beta iota zeta delta
    [_handle_tool_calls tool_call_rounds tool_call_round tool_call_attempt tool_call_failure
       final_answer answer process_message
       initialize shutdown bind ret raise yield try_except lift mcp self remember
       new_message chat_with_tools verify_connection app];
  cbn [_mcp _ollama _tools _conversation datetime_now clock_reads
       set_mcp set_ollama set_tools set_conversation set_clock_reads
       unavailable answers asked].

Section WithInterfaces.
Context {B : Builtins} {J : Serializer} {C : Type} {conversation : Conversation C}.

(** On a name that is a string the service calls the client's [call_tool]. *)
Lemma call_tool_str (name : string) (arguments : dict) :
  call_tool (VStr name) arguments = HttpMCPClient.call_tool name arguments.
Proof. reflexivity. Qed.

Lemma bind_ret {A A' : Type} (a : A) (k : A -> G C A') (s : service C) :
  bind (ret a) k s = k a s.
Proof. unfold bind, ret. destruct (k a s) as [[chunks end'] s']. reflexivity. Qed.

Lemma bind_lift {A A' : Type} (o : outcome A) (k : A -> G C A') (s : service C) :
  bind (lift o) k s
  = match o with
    | Ok a => k a s
    | Raise e => ([], Failed (Python e), s)
    end.
Proof.
  unfold bind, lift. destruct o as [a|e]; [|reflexivity].
  destruct (k a s) as [[chunks end'] s']. reflexivity.
Qed.

Lemma bind_mcp {A A' : Type} (method : HttpMCPClient.M A) (k : A -> G C A') (s : service C) :
  bind (mcp method) k s
  = match method (_mcp s) with
    | (Ok a, mcp') => k a (set_mcp mcp' s)
    | (Raise e, mcp') => ([], Failed (Python e), set_mcp mcp' s)
    end.
Proof.
  unfold bind, mcp. destruct (method (_mcp s)) as [[a|e] mcp']; [|reflexivity].
  destruct (k a (set_mcp mcp' s)) as [[chunks end'] s']. reflexivity.
Qed.

Lemma bind_yield {A : Type} (c : chunk) (k : unit -> G C A) (s : service C) :
  bind (yield c) k s = (c :: fst (fst (k tt s)), snd (fst (k tt s)), snd (k tt s)).
Proof. unfold bind, yield. destruct (k tt s) as [[chunks end'] s']. reflexivity. Qed.

Lemma bind_service {A : Type} (k : service C -> G C A) (s : service C) :
  bind self k s = k s s.
Proof. unfold bind, self. destruct (k s s) as [[chunks end'] s']. reflexivity. Qed.

Lemma bind_bind {A A' A'' : Type} (m : G C A) (k : A -> G C A') (k' : A' -> G C A'')
      (s : service C) :
  bind (bind m k) k' s = bind m (fun a => bind (k a) k') s.
Proof.
  unfold bind. destruct (m s) as [[chunks [a|e]] s1]; [|reflexivity].
  destruct (k a s1) as [[chunks1 [a1|e1]] s2]; [|reflexivity].
  destruct (k' a1 s2) as [[chunks2 end2] s3]. now rewrite app_assoc.
Qed.

(** X22.  When the arguments of the first tool call are a string that is
    not JSON, [_handle_tool_calls] yields the one chunk "Error: Invalid tool
    arguments format" and returns: the tool is not called, the LLM is not
    asked, the service is as before, and the tool calls that follow are not
    handled. *)
Theorem invalid_arguments_stop
        (tool_call function : dict) (text : string) (rest : list value) (s : service C) :
  Dict.get "function" tool_call = Some (VDict function) ->
  Dict.get "arguments" function = Some (VStr text) ->
  json_loads text = None ->
  _handle_tool_calls (VList (VDict tool_call :: rest)) s
  = ([Text "Error: Invalid tool arguments format"], Done tt, s).
Proof.
  intros Hfunction Harguments Hjson.
  run_service. cbn [py_iter]. run_service. unfold py_get, Dict.get_default.
  rewrite Hfunction. run_service. rewrite Harguments.
  run_service. unfold py_json_loads. rewrite Hjson. reflexivity.
Qed.

(** A tool call of the shape the LLM sends gets to the [try] block with the
    coerced arguments. *)
Lemma tool_call_round_run
      (tool_calls : value) (tool_call function arguments : dict) (s : service C) :
  Dict.get "function" tool_call = Some (VDict function) ->
  (Dict.get "arguments" function = Some (VDict arguments)
   \/ exists text,
       Dict.get "arguments" function = Some (VStr text)
       /\ json_loads text = Some (VDict arguments)) ->
  tool_call_round tool_calls (VDict tool_call) s
  = try_except
      (tool_call_attempt tool_calls (Dict.get_default "name" (VStr "") function)
         (ChatService._coerce_numeric_arguments arguments))
      tool_call_failure s.
Proof.
  intros Hfunction Harguments.
  unfold tool_call_round, bind, lift, ret, py_get, py_items, Dict.get_default.
  rewrite Hfunction. cbv beta iota.
  destruct Harguments as [Hdict|(text & Htext & Hjson)].
  - rewrite Hdict. cbv beta iota.
    destruct (try_except _ tool_call_failure s) as [[chunks end'] s']. reflexivity.
  - rewrite Htext. unfold py_json_loads. rewrite Hjson. cbv beta iota.
    destruct (try_except _ tool_call_failure s) as [[chunks end'] s']. reflexivity.
Qed.

Lemma tool_call_attempt_raises
      (tool_calls tool_name : value) (coerced : dict) (s : service C)
      (e : pyexn) (mcp' : HttpMCPClient.state) :
  call_tool tool_name coerced (_mcp s) = (Raise e, mcp') ->
  try_except (tool_call_attempt tool_calls tool_name coerced) tool_call_failure s
  = ([Failure (match e with
               | ToolExecutionError _ _ => "Failed to execute tool: "
               | _ => "Unexpected error during tool execution: "
               end) (Python e)],
     Done false, set_mcp mcp' s).
Proof.
  intros Hcall. unfold try_except, tool_call_attempt. rewrite bind_mcp, Hcall.
  destruct e; reflexivity.
Qed.

Lemma tool_call_attempt_error
      (tool_calls tool_name : value) (coerced : dict) (s : service C)
      (result : dict) (error_msg : value) (mcp' : HttpMCPClient.state) :
  call_tool tool_name coerced (_mcp s) = (Ok (VDict result), mcp') ->
  Dict.get "error" result = Some error_msg ->
  try_except (tool_call_attempt tool_calls tool_name coerced) tool_call_failure s
  = ([Text ("Error executing " ++ py_str tool_name ++ ": " ++ py_str error_msg)%string],
     Done true, set_mcp mcp' s).
Proof.
  intros Hcall Herror. unfold try_except, tool_call_attempt. rewrite bind_mcp, Hcall.
  rewrite bind_lift. unfold py_contains, Dict.mem. rewrite Herror.
  rewrite bind_lift. unfold py_getitem. rewrite Herror. reflexivity.
Qed.

(** X23.  When the tool called for the first tool call returns an object
    with an ["error"] member, [_handle_tool_calls] yields the one chunk
    "Error executing <name>: <error>" and returns: apart from what
    [call_tool] did to the MCP client nothing changes, the LLM is not asked
    and the tool calls that follow are not handled. *)
Theorem tool_error_stops
        (tool_call function arguments result : dict) (name : string) (error_msg : value)
        (rest : list value) (s : service C) (mcp' : HttpMCPClient.state) :
  Dict.get "function" tool_call = Some (VDict function) ->
  Dict.get "name" function = Some (VStr name) ->
  (Dict.get "arguments" function = Some (VDict arguments)
   \/ exists text,
       Dict.get "arguments" function = Some (VStr text)
       /\ json_loads text = Some (VDict arguments)) ->
  HttpMCPClient.call_tool name (ChatService._coerce_numeric_arguments arguments) (_mcp s)
  = (Ok (VDict result), mcp') ->
  Dict.get "error" result = Some error_msg ->
  _handle_tool_calls (VList (VDict tool_call :: rest)) s
  = ([Text ("Error executing " ++ name ++ ": " ++ py_str error_msg)%string],
     Done tt, set_mcp mcp' s).
Proof.
  intros Hfunction Hname Harguments Hcall Herror.
  unfold _handle_tool_calls. rewrite bind_lift. cbn [py_iter tool_call_rounds].
  unfold bind at 1.
  rewrite (tool_call_round_run _ tool_call function arguments s Hfunction Harguments).
  unfold Dict.get_default. rewrite Hname.
  rewrite (tool_call_attempt_error _ (VStr name) _ s result error_msg mcp' Hcall Herror).
  reflexivity.
Qed.

(** X24.  When [call_tool] raises for the first tool call,
    [_handle_tool_calls] yields one chunk for it, "Failed to execute tool:
    <e>" for a [ToolExecutionError] and "Unexpected error during tool
    execution: <e>" for any other exception, and goes on with the tool calls
    that follow: unlike an error returned by the tool, an exception does not
    end the loop. *)
Theorem tool_failure_continues
        (tool_call function arguments : dict) (name : string) (e : pyexn)
        (rest : list value) (s : service C) (mcp' : HttpMCPClient.state) :
  Dict.get "function" tool_call = Some (VDict function) ->
  Dict.get "name" function = Some (VStr name) ->
  (Dict.get "arguments" function = Some (VDict arguments)
   \/ exists text,
       Dict.get "arguments" function = Some (VStr text)
       /\ json_loads text = Some (VDict arguments)) ->
  HttpMCPClient.call_tool name (ChatService._coerce_numeric_arguments arguments) (_mcp s)
  = (Raise e, mcp') ->
  _handle_tool_calls (VList (VDict tool_call :: rest)) s
  = (Failure (match e with
              | ToolExecutionError _ _ => "Failed to execute tool: "
              | _ => "Unexpected error during tool execution: "
              end) (Python e)
     :: fst (fst (tool_call_rounds (VList (VDict tool_call :: rest)) rest (set_mcp mcp' s))),
     snd (fst (tool_call_rounds (VList (VDict tool_call :: rest)) rest (set_mcp mcp' s))),
     snd (tool_call_rounds (VList (VDict tool_call :: rest)) rest (set_mcp mcp' s))).
Proof.
  intros Hfunction Hname Harguments Hcall.
  unfold _handle_tool_calls. rewrite bind_lift. cbn [py_iter tool_call_rounds].
  unfold bind at 1.
  rewrite (tool_call_round_run _ tool_call function arguments s Hfunction Harguments).
  unfold Dict.get_default. rewrite Hname.
  rewrite (tool_call_attempt_raises _ (VStr name) _ s e mcp' Hcall).
  destruct (tool_call_rounds _ rest (set_mcp mcp' s)) as [[chunks end'] s'']. reflexivity.
Qed.

Lemma tool_call_attempt_success
      (tool_calls tool_name : value) (coerced : dict) (s : service C)
      (result : dict) (tools : list value) (mcp' : HttpMCPClient.state) :
  call_tool tool_name coerced (_mcp s) = (Ok (VDict result), mcp') ->
  Dict.mem "error" result = false ->
  ToolRegistry.to_ollama_format_registry (_tools s) = Ok tools ->
  try_except (tool_call_attempt tool_calls tool_name coerced) tool_call_failure s
  = try_except
      (bind (chat_with_tools
               (to_ollama_format (_conversation s)
                ++ [VDict [("role", VStr "assistant");
                           ("content", VStr "");
                           ("tool_calls", tool_calls)];
                    VDict [("role", VStr "tool");
                           ("content", VStr (json_dumps (VDict result)))]])
               tools)
         (fun final_response => bind (final_answer final_response) (fun _ => ret false)))
      tool_call_failure (set_mcp mcp' s).
Proof.
  intros Hcall Herror Htools. unfold try_except at 1 2, tool_call_attempt.
  rewrite bind_mcp, Hcall, bind_lift. unfold py_contains. rewrite Herror.
  rewrite bind_service. cbn [_conversation _tools set_mcp]. rewrite bind_lift, Htools.
  reflexivity.
Qed.

(** X25.  When the tool returns an object without ["error"],
    [_handle_tool_calls] asks the LLM once more, with the conversation
    followed by an assistant message that carries the tool calls and a tool
    message whose content is the result as JSON, and with the tools of the
    registry.  A reply with a non-empty content is yielded and remembered as
    an assistant message; a reply without a message or with an empty content
    yields "Operation completed successfully." and a failure of the LLM yields
    "Unexpected error during tool execution: <e>", the conversation staying as
    it was in both cases. *)
Theorem tool_result_forwarded
        (tool_call function arguments result : dict) (name : string)
        (tools : list value) (s : service C) (mcp' : HttpMCPClient.state)
        (more : list llm_reply) :
  Dict.get "function" tool_call = Some (VDict function) ->
  Dict.get "name" function = Some (VStr name) ->
  (Dict.get "arguments" function = Some (VDict arguments)
   \/ exists text,
       Dict.get "arguments" function = Some (VStr text)
       /\ json_loads text = Some (VDict arguments)) ->
  HttpMCPClient.call_tool name (ChatService._coerce_numeric_arguments arguments) (_mcp s)
  = (Ok (VDict result), mcp') ->
  Dict.mem "error" result = false ->
  ToolRegistry.to_ollama_format_registry (_tools s) = Ok tools ->
  (forall response message text,
      answers (_ollama s) = Respond (VDict response) :: more ->
      Dict.get "message" response = Some (VDict message) ->
      Dict.get "content" message = Some (VStr text) ->
      text <> ""%string ->
      _handle_tool_calls (VList [VDict tool_call]) s
      = ([Text text], Done tt,
         {| _mcp := mcp';
            _ollama :=
              {| unavailable := unavailable (_ollama s);
                 answers := more;
                 asked :=
                   asked (_ollama s)
                   ++ [(to_ollama_format (_conversation s)
                        ++ [VDict [("role", VStr "assistant");
                                   ("content", VStr "");
                                   ("tool_calls", VList [VDict tool_call])];
                            VDict [("role", VStr "tool");
                                   ("content", VStr (json_dumps (VDict result)))]],
                        tools)] |};
            _tools := _tools s;
            _conversation :=
              add_message
                {| ConversationManager.role := ConversationManager.ASSISTANT;
                   ConversationManager.content := text;
                   ConversationManager.timestamp := datetime_now s (clock_reads s);
                   ConversationManager.tool_call_id := None;
                   ConversationManager.tool_name := None |}
                (_conversation s);
            datetime_now := datetime_now s;
            clock_reads := Datatypes.S (clock_reads s) |}))
  /\ (forall response,
        answers (_ollama s) = Respond (VDict response) :: more ->
        (Dict.get "message" response = None
         \/ exists message,
             Dict.get "message" response = Some (VDict message)
             /\ truthy (Dict.get_default "content" (VStr "") message) = false) ->
        fst (_handle_tool_calls (VList [VDict tool_call]) s)
        = ([Text "Operation completed successfully."], Done tt)
        /\ _conversation (snd (_handle_tool_calls (VList [VDict tool_call]) s))
           = _conversation s)
  /\ (forall message,
        answers (_ollama s) = Refuse message :: more ->
        fst (_handle_tool_calls (VList [VDict tool_call]) s)
        = ([Failure "Unexpected error during tool execution: " (OllamaError message)],
           Done tt)
        /\ _conversation (snd (_handle_tool_calls (VList [VDict tool_call]) s))
           = _conversation s).
Proof.
  intros Hfunction Hname Harguments Hcall Herror Htools.
  assert (Hrun :
            _handle_tool_calls (VList [VDict tool_call]) s
            = bind
                (try_except
                   (bind (chat_with_tools
                            (to_ollama_format (_conversation s)
                             ++ [VDict [("role", VStr "assistant");
                                        ("content", VStr "");
                                        ("tool_calls", VList [VDict tool_call])];
                                 VDict [("role", VStr "tool");
                                        ("content", VStr (json_dumps (VDict result)))]])
                            tools)
                      (fun final_response =>
                         bind (final_answer final_response) (fun _ => ret false)))
                   tool_call_failure)
                (fun returned : bool => if returned then ret tt else ret tt)
                (set_mcp mcp' s)).
  { unfold _handle_tool_calls. rewrite bind_lift. cbn [py_iter tool_call_rounds].
    unfold bind at 1.
    rewrite (tool_call_round_run _ tool_call function arguments s Hfunction Harguments).
    unfold Dict.get_default. rewrite Hname.
    rewrite (tool_call_attempt_success _ (VStr name) _ s result tools mcp' Hcall Herror Htools).
    reflexivity. }
  rewrite Hrun. clear Hrun. split; [|split].
  - intros response message text Hanswers Hmessage Hcontent Htext.
    run_service. rewrite Hanswers. run_service.
    unfold py_contains, py_getitem, py_get, Dict.mem, Dict.get_default.
    rewrite Hmessage. run_service. rewrite Hcontent. cbn [truthy].
    rewrite (proj2 (String.eqb_neq text "") Htext). reflexivity.
  - intros response Hanswers Hmessage.
    run_service. rewrite Hanswers. run_service.
    unfold py_contains, py_getitem, py_get, Dict.mem.
    destruct Hmessage as [Hnone|(message & Hmessage & Hcontent)].
    + rewrite Hnone. split; reflexivity.
    + rewrite Hmessage. run_service. rewrite Hcontent. split; reflexivity.
  - intros message Hanswers. run_service. rewrite Hanswers. split; reflexivity.
Qed.

Ltac split_cases :=
  repeat match goal with
         | |- context [match ?x with _ => _ end] => destruct x
         | |- context [if ?x then _ else _] => destruct x
         end.

(** After the call of the tool a round does not touch the MCP client. *)
Lemma tool_call_attempt_mcp
      (tool_calls tool_name : value) (coerced : dict) (s : service C) :
  _mcp (snd (try_except (tool_call_attempt tool_calls tool_name coerced)
               tool_call_failure s))
  = snd (call_tool tool_name coerced (_mcp s)).
Proof.
  unfold try_except, tool_call_attempt. rewrite bind_mcp.
  destruct (call_tool tool_name coerced (_mcp s)) as [[result|e] mcp']; cbn [snd];
    [|destruct e; reflexivity].
  run_service.
  destruct (py_contains "error" result) as [[|]|e]; run_service;
    [| |destruct e; reflexivity].
  - destruct (py_getitem "error" result) as [msg|e]; [reflexivity|destruct e; reflexivity].
  - destruct (ToolRegistry.to_ollama_format_registry (_tools s)) as [tools|e]; run_service;
      [|destruct e; reflexivity].
    destruct (answers (_ollama s)) as [|[response|message] more]; run_service;
      try reflexivity.
    destruct (py_contains "message" response) as [[|]|e]; run_service;
      [|reflexivity|destruct e; reflexivity].
    destruct (py_getitem "message" response) as [message|e]; run_service;
      [|destruct e; reflexivity].
    destruct (py_get "content" (VStr "") message) as [content|e]; run_service;
      [|destruct e; reflexivity].
    destruct (truthy content); run_service; [|reflexivity].
    destruct content; reflexivity.
Qed.

(** X26.  The request that [_handle_tool_calls] posts for a tool call
    carries the name of the tool and the arguments after
    [_coerce_numeric_arguments], whether the LLM sent the arguments as an
    object or as the JSON text of one; it is the only request posted for
    the tool call, whatever the server and the LLM answer. *)
Theorem arguments_coerced_on_wire
        (tool_call function arguments : dict) (name : string) (s : service C) :
  Dict.get "function" tool_call = Some (VDict function) ->
  Dict.get "name" function = Some (VStr name) ->
  (Dict.get "arguments" function = Some (VDict arguments)
   \/ exists text,
       Dict.get "arguments" function = Some (VStr text)
       /\ json_loads text = Some (VDict arguments)) ->
  HttpMCPClient.not_connected (fst (_mcp s)) = false ->
  HttpMCPClient.posted (snd (_mcp (snd (_handle_tool_calls (VList [VDict tool_call]) s))))
  = HttpMCPClient.posted (snd (_mcp s))
    ++ [{| HttpMCPClient.url := HttpMCPClient.server_url (fst (_mcp s));
           HttpMCPClient.json :=
             HttpMCPClient.tools_call_request
               (HttpMCPClient._request_id (fst (_mcp s)) + 1) name
               (ChatService._coerce_numeric_arguments arguments);
           HttpMCPClient.mcp_session_id := HttpMCPClient._session_id (fst (_mcp s)) |}].
Proof.
  intros Hfunction Hname Harguments Hconn.
  assert (Hmcp :
            _mcp (snd (_handle_tool_calls (VList [VDict tool_call]) s))
            = snd (HttpMCPClient.call_tool name
                     (ChatService._coerce_numeric_arguments arguments) (_mcp s))).
  { rewrite <- call_tool_str, <- tool_call_attempt_mcp with (tool_calls := VList [VDict tool_call]).
    unfold _handle_tool_calls. rewrite bind_lift. cbn [py_iter tool_call_rounds].
    unfold bind at 1.
    rewrite (tool_call_round_run _ tool_call function arguments s Hfunction Harguments).
    unfold Dict.get_default. rewrite Hname.
    destruct (try_except _ tool_call_failure s) as [[chunks [[|]|e]] s']; reflexivity. }
  rewrite Hmcp. destruct (_mcp s) as [c n]. cbn [fst snd] in *.
  HttpMCPClientFacts.run_method. rewrite Hconn. HttpMCPClientFacts.run_method.
  destruct (HttpMCPClient.replies n) as [|[r|detail] rest];
    HttpMCPClientFacts.run_method; try reflexivity.
  destruct (HttpMCPClient.is_success (HttpMCPClient.status_code r));
    HttpMCPClientFacts.run_method; try reflexivity.
  destruct (HttpMCPClient._parse_sse_response (HttpMCPClient.text r)) as [result|e];
    HttpMCPClientFacts.run_method; try reflexivity.
  destruct (HttpMCPClient.tool_call_result result); reflexivity.
Qed.

(** The [try] statement of a round yields one chunk and ends the round. *)
Lemma tool_call_attempt_chunk
      (tool_calls tool_name : value) (coerced : dict) (s : service C) :
  exists c returned s',
    try_except (tool_call_attempt tool_calls tool_name coerced) tool_call_failure s
    = ([c], Done returned, s').
Proof.
  unfold try_except, tool_call_attempt. rewrite bind_mcp.
  destruct (call_tool tool_name coerced (_mcp s)) as [[result|e] mcp'];
    [|destruct e; repeat eexists; reflexivity].
  run_service.
  destruct (py_contains "error" result) as [[|]|e]; run_service;
    [| |destruct e; repeat eexists; reflexivity].
  - destruct (py_getitem "error" result) as [msg|e];
      [|destruct e]; repeat eexists; reflexivity.
  - destruct (ToolRegistry.to_ollama_format_registry (_tools s)) as [tools|e]; run_service;
      [|destruct e; repeat eexists; reflexivity].
    destruct (answers (_ollama s)) as [|[response|message] more]; run_service;
      try (repeat eexists; reflexivity).
    destruct (py_contains "message" response) as [[|]|e]; run_service;
      [| |destruct e]; try (repeat eexists; reflexivity).
    destruct (py_getitem "message" response) as [message|e]; run_service;
      [|destruct e; repeat eexists; reflexivity].
    destruct (py_get "content" (VStr "") message) as [content|e]; run_service;
      [|destruct e; repeat eexists; reflexivity].
    destruct (truthy content); run_service; [|repeat eexists; reflexivity].
    destruct content; repeat eexists; reflexivity.
Qed.

(** A round yields one chunk, or fails before it has done anything. *)
Lemma tool_call_round_chunk (tool_calls tool_call : value) (s : service C) :
  (exists c returned s', tool_call_round tool_calls tool_call s = ([c], Done returned, s'))
  \/ (exists e, tool_call_round tool_calls tool_call s = ([], Failed e, s)).
Proof.
  unfold tool_call_round. rewrite bind_lift.
  destruct (py_get "function" (VDict []) tool_call) as [function|e]; [|right; eauto].
  rewrite bind_lift.
  destruct (py_get "name" (VStr "") function) as [tool_name|e]; [|right; eauto].
  rewrite bind_lift.
  destruct (py_get "arguments" (VDict []) function) as [arguments|e]; [|right; eauto].
  assert (Hdecoded :
            forall decoded : value,
              (exists c returned s',
                  bind (lift (py_items decoded))
                    (fun items =>
                       try_except
                         (tool_call_attempt tool_calls tool_name
                            (ChatService._coerce_numeric_arguments items))
                         tool_call_failure) s
                  = ([c], Done returned, s'))
              \/ (exists e,
                    bind (lift (py_items decoded))
                      (fun items =>
                         try_except
                           (tool_call_attempt tool_calls tool_name
                              (ChatService._coerce_numeric_arguments items))
                           tool_call_failure) s
                    = ([], Failed e, s))).
  { intros decoded. rewrite bind_lift.
    destruct (py_items decoded) as [items|e]; [|right; eauto].
    left. apply tool_call_attempt_chunk. }
  destruct arguments as [| | | |text| |]; try (rewrite bind_ret; apply Hdecoded).
  unfold py_json_loads. destruct (json_loads text) as [decoded|].
  - rewrite bind_ret. apply Hdecoded.
  - rewrite bind_ret. left. do 3 eexists. reflexivity.
Qed.

Lemma bind_done {A A' : Type} (m : G C A) (k : A -> G C A') (s s' : service C)
      (chunks : list chunk) (a : A) :
  m s = (chunks, Done a, s') ->
  bind m k s = (chunks ++ fst (fst (k a s')), snd (fst (k a s')), snd (k a s')).
Proof. intros H. unfold bind. rewrite H. now destruct (k a s') as [[chunks' end'] s'']. Qed.

Lemma bind_failed {A A' : Type} (m : G C A) (k : A -> G C A') (s s' : service C)
      (chunks : list chunk) (e : error) :
  m s = (chunks, Failed e, s') -> bind m k s = (chunks, Failed e, s').
Proof. intros H. unfold bind. now rewrite H. Qed.

Lemma tool_call_rounds_chunks (tool_calls : value) (remaining : list value) (s : service C) :
  (List.length (fst (fst (tool_call_rounds tool_calls remaining s))) <= List.length remaining)%nat
  /\ (remaining <> [] ->
      snd (fst (tool_call_rounds tool_calls remaining s)) = Done tt ->
      (1 <= List.length (fst (fst (tool_call_rounds tool_calls remaining s))))%nat).
Proof.
  revert s. induction remaining as [|tool_call rest IH]; intros s.
  - cbn [tool_call_rounds]. unfold ret. cbn [fst snd List.length].
    split; [lia|]. intros H. now destruct H.
  - cbn [tool_call_rounds].
    destruct (tool_call_round_chunk tool_calls tool_call s)
      as [(c & returned & s' & Hround)|(e & Hround)].
    + rewrite (bind_done _ _ s s' [c] returned Hround). destruct returned.
      * unfold ret. cbn [fst snd app List.length]. split; [lia|intros _ _; lia].
      * destruct (IH s') as (Hle & _).
        cbn [fst snd app List.length]. split; [lia|intros _ _; lia].
    + rewrite (bind_failed _ _ s s [] e Hround).
      cbn [fst snd List.length]. split; [lia|]. intros _ H. discriminate.
Qed.

(** X27.  [_handle_tool_calls] yields at most one chunk per tool call, and
    at least one when it returns on a list that is not empty: each round of
    its loop either yields exactly one chunk or fails before it has yielded
    or changed anything. *)
Theorem one_chunk_per_tool_call (tool_calls : list value) (s : service C) :
  (List.length (fst (fst (_handle_tool_calls (VList tool_calls) s)))
   <= List.length tool_calls)%nat
  /\ (tool_calls <> [] ->
      snd (fst (_handle_tool_calls (VList tool_calls) s)) = Done tt ->
      (1 <= List.length (fst (fst (_handle_tool_calls (VList tool_calls) s))))%nat)
  /\ (forall tool_call,
        (exists c returned s',
            tool_call_round (VList tool_calls) tool_call s = ([c], Done returned, s'))
        \/ (exists e, tool_call_round (VList tool_calls) tool_call s = ([], Failed e, s))).
Proof.
  unfold _handle_tool_calls. rewrite bind_lift. cbn [py_iter].
  destruct (tool_call_rounds_chunks (VList tool_calls) tool_calls s) as (Hle & Hone).
  split; [exact Hle|]. split; [exact Hone|].
  intros tool_call. apply tool_call_round_chunk.
Qed.

Lemma bind_new_message {A : Type} (role : ConversationManager.MessageRole) (text : string)
      (k : ConversationManager.Message -> G C A) (s : service C) :
  bind (new_message role (VStr text)) k s
  = k {| ConversationManager.role := role;
         ConversationManager.content := text;
         ConversationManager.timestamp := datetime_now s (clock_reads s);
         ConversationManager.tool_call_id := None;
         ConversationManager.tool_name := None |}
      (set_clock_reads (Datatypes.S (clock_reads s)) s).
Proof.
  unfold bind, new_message.
  now destruct (k _ (set_clock_reads (Datatypes.S (clock_reads s)) s)) as [[chunks end'] s'].
Qed.

Lemma bind_remember {A : Type} (message : ConversationManager.Message)
      (k : unit -> G C A) (s : service C) :
  bind (remember message) k s
  = k tt (set_conversation (add_message message (_conversation s)) s).
Proof.
  unfold bind, remember.
  now destruct (k tt (set_conversation (add_message message (_conversation s)) s))
    as [[chunks end'] s'].
Qed.

Lemma truthy_iter (v : value) (remaining : list value) :
  truthy v = true -> py_iter v = Ok remaining -> remaining <> [].
Proof.
  destruct v as [| | | |text|l|d]; cbn [py_iter truthy]; try discriminate;
    intros Htruthy H; injection H as <-.
  - destruct text; [discriminate|]. discriminate.
  - destruct l; [discriminate|]. discriminate.
  - destruct d; [discriminate|]. discriminate.
Qed.

(** What [answer] yields when it returns is not empty. *)
Lemma answer_chunks (response : value) (s : service C) :
  snd (fst (answer response s)) = Done tt -> fst (fst (answer response s)) <> [].
Proof.
  unfold answer.
  assert (Hinvalid :
            forall s0 : service C,
              fst (fst (yield (Text "Error: Invalid response from LLM") s0)) <> [])
    by (intros s0; discriminate).
  destruct (truthy response).
  2: { rewrite bind_ret. intros _. apply Hinvalid. }
  rewrite bind_lift. destruct (py_contains "message" response) as [[|]|e];
    cbn [negb]; [|intros _; apply Hinvalid|discriminate].
  rewrite bind_lift. destruct (py_getitem "message" response) as [response_message|e];
    [|discriminate].
  rewrite bind_lift.
  destruct (py_contains "tool_calls" response_message) as [has_tool_calls|e]; [|discriminate].
  assert (Hcontent :
            snd (fst (bind (lift (py_get "content" (VStr "") response_message))
                        (fun content =>
                           if truthy content
                           then
                             bind (new_message ConversationManager.ASSISTANT content)
                               (fun assistant_message =>
                                  bind (remember assistant_message)
                                    (fun _ => yield (Text (py_str content))))
                           else yield (Text "I'm not sure how to respond to that.")) s))
            = Done tt ->
            fst (fst (bind (lift (py_get "content" (VStr "") response_message))
                        (fun content =>
                           if truthy content
                           then
                             bind (new_message ConversationManager.ASSISTANT content)
                               (fun assistant_message =>
                                  bind (remember assistant_message)
                                    (fun _ => yield (Text (py_str content))))
                           else yield (Text "I'm not sure how to respond to that.")) s))
            <> []).
  { rewrite bind_lift.
    destruct (py_get "content" (VStr "") response_message) as [content|e]; [|discriminate].
    destruct (truthy content); [|discriminate].
    destruct content as [| | | |text| |]; discriminate. }
  destruct has_tool_calls.
  - rewrite bind_bind, bind_lift.
    destruct (py_getitem "tool_calls" response_message) as [tool_calls|e]; [|discriminate].
    rewrite bind_ret. destruct (truthy tool_calls) eqn:Htruthy; [|exact Hcontent].
    unfold _handle_tool_calls. rewrite bind_lift.
    destruct (py_iter tool_calls) as [remaining|e] eqn:Hiter; [|discriminate].
    intros Hdone.
    destruct (tool_call_rounds_chunks tool_calls remaining s) as (_ & Hone).
    specialize (Hone (truthy_iter tool_calls remaining Htruthy Hiter) Hdone).
    intros Hnil. rewrite Hnil in Hone. cbn in Hone. lia.
  - rewrite bind_ret. exact Hcontent.
Qed.

Lemma try_except_yield (m : G C unit) (c_of : error -> chunk) (s : service C) :
  snd (fst (try_except m (fun e => yield (c_of e)) s)) = Done tt
  /\ ((snd (fst (m s)) = Done tt -> fst (fst (m s)) <> []) ->
      fst (fst (try_except m (fun e => yield (c_of e)) s)) <> []).
Proof.
  unfold try_except, yield. destruct (m s) as [[chunks [[]|e]] s']; cbn [fst snd].
  - split; [reflexivity|]. intros H. now apply H.
  - split; [reflexivity|]. intros _. destruct chunks; discriminate.
Qed.

Lemma chat_answer_chunks (messages tools : list value) (s : service C) :
  snd (fst (bind (chat_with_tools messages tools) (fun response => answer response) s))
  = Done tt ->
  fst (fst (bind (chat_with_tools messages tools) (fun response => answer response) s))
  <> [].
Proof.
  unfold bind, chat_with_tools.
  destruct (answers (_ollama s)) as [|[response|message] more]; try discriminate.
  match goal with
  | |- context [answer response ?s2] =>
      pose proof (answer_chunks response s2) as Hchunks;
      destruct (answer response s2) as [[chunks end'] s3]
  end.
  cbn [fst snd app] in *. exact Hchunks.
Qed.

(** X28.  When the tools of the registry can be described,
    [process_message] never raises and yields at least one chunk, whatever the
    LLM and the server do: every failure after that point becomes a chunk.
    When describing the tools raises, that exception leaves
    [process_message] and nothing is yielded. *)
Theorem process_message_answers (user_input : string) (s : service C) :
  (forall tools,
      ToolRegistry.to_ollama_format_registry (_tools s) = Ok tools ->
      snd (fst (process_message user_input s)) = Done tt
      /\ fst (fst (process_message user_input s)) <> [])
  /\ (forall e,
        ToolRegistry.to_ollama_format_registry (_tools s) = Raise e ->
        fst (process_message user_input s) = ([], Failed (Python e))).
Proof.
  unfold process_message. rewrite bind_new_message, bind_remember, bind_service.
  cbn [_tools _conversation set_conversation set_clock_reads]. rewrite bind_lift.
  split.
  - intros tools ->.
    match goal with
    | |- context [try_except ?m ?h ?s1] =>
        destruct (try_except_yield m (Failure "Error processing message: ") s1)
        as (Hdone & Hchunks)
    end.
    split; [exact Hdone|]. apply Hchunks. apply chat_answer_chunks.
  - intros e ->. reflexivity.
Qed.

(** X29.  [process_message] first remembers the user's message and asks
    the LLM with the conversation that includes it and the tools of the
    registry.  A reply with a non-empty content and no tool calls is yielded
    as the one chunk and remembered as an assistant message after the user's;
    a reply that is empty or has no message yields "Error: Invalid response
    from LLM", and a failure of the LLM yields "Error processing message:
    <e>", the user's message staying remembered in both cases. *)
Theorem process_message_plain_answer
        (user_input : string) (s : service C) (tools : list value)
        (user_message : ConversationManager.Message) (more : list llm_reply) :
  ToolRegistry.to_ollama_format_registry (_tools s) = Ok tools ->
  user_message
  = {| ConversationManager.role := ConversationManager.USER;
       ConversationManager.content := user_input;
       ConversationManager.timestamp := datetime_now s (clock_reads s);
       ConversationManager.tool_call_id := None;
       ConversationManager.tool_name := None |} ->
  (forall response message text,
      answers (_ollama s) = Respond (VDict response) :: more ->
      Dict.get "message" response = Some (VDict message) ->
      (Dict.get "tool_calls" message = None
       \/ exists tool_calls,
           Dict.get "tool_calls" message = Some tool_calls /\ truthy tool_calls = false) ->
      Dict.get "content" message = Some (VStr text) ->
      text <> ""%string ->
      process_message user_input s
      = ([Text text], Done tt,
         {| _mcp := _mcp s;
            _ollama :=
              {| unavailable := unavailable (_ollama s);
                 answers := more;
                 asked :=
                   asked (_ollama s)
                   ++ [(to_ollama_format (add_message user_message (_conversation s)),
                        tools)] |};
            _tools := _tools s;
            _conversation :=
              add_message
                {| ConversationManager.role := ConversationManager.ASSISTANT;
                   ConversationManager.content := text;
                   ConversationManager.timestamp :=
                     datetime_now s (Datatypes.S (clock_reads s));
                   ConversationManager.tool_call_id := None;
                   ConversationManager.tool_name := None |}
                (add_message user_message (_conversation s));
            datetime_now := datetime_now s;
            clock_reads := Datatypes.S (Datatypes.S (clock_reads s)) |}))
  /\ (forall response,
        answers (_ollama s) = Respond response :: more ->
        truthy response = false
        \/ (exists d, response = VDict d /\ Dict.get "message" d = None) ->
        fst (process_message user_input s)
        = ([Text "Error: Invalid response from LLM"], Done tt)
        /\ _conversation (snd (process_message user_input s))
           = add_message user_message (_conversation s))
  /\ (forall message,
        answers (_ollama s) = Refuse message :: more ->
        fst (process_message user_input s)
        = ([Failure "Error processing message: " (OllamaError message)], Done tt)
        /\ _conversation (snd (process_message user_input s))
           = add_message user_message (_conversation s)).
Proof.
  intros Htools ->.
  unfold process_message. rewrite bind_new_message, bind_remember, bind_service.
  cbn [_tools _conversation set_conversation set_clock_reads]. rewrite bind_lift, Htools.
  split; [|split].
  - intros response message text Hanswers Hmessage Htool_calls Hcontent Htext.
    run_service. rewrite Hanswers. run_service.
    assert (Htruthy : truthy (VDict response) = true)
      by (destruct response; [discriminate|reflexivity]).
    rewrite Htruthy. unfold py_contains, py_getitem, py_get, Dict.mem, Dict.get_default.
    rewrite Hmessage. run_service.
    destruct Htool_calls as [Hnone|(tool_calls & Hsome & Hfalsy)].
    + rewrite Hnone. run_service. rewrite Hcontent. cbn [truthy].
      rewrite (proj2 (String.eqb_neq text "") Htext). reflexivity.
    + rewrite Hsome. run_service. rewrite Hfalsy. run_service. rewrite Hcontent.
      cbn [truthy]. rewrite (proj2 (String.eqb_neq text "") Htext). reflexivity.
  - intros response Hanswers Hinvalid.
    run_service. rewrite Hanswers. run_service.
    destruct Hinvalid as [Hfalsy|(d & -> & Hnone)].
    + rewrite Hfalsy. split; reflexivity.
    + destruct (truthy (VDict d)); [|split; reflexivity].
      unfold py_contains, Dict.mem. rewrite Hnone. split; reflexivity.
  - intros message Hanswers. run_service. rewrite Hanswers. split; reflexivity.
Qed.

Lemma bind_register {A : Type} (tools : list value) (k : unit -> G C A) (s : service C) :
  bind (fun s0 : service C =>
          match ToolRegistry.register_tools tools (_tools s0) with
          | (Ok _, registry) => ([], Done tt, set_tools registry s0)
          | (Raise e, registry) => ([], Failed (Python e), set_tools registry s0)
          end) k s
  = match ToolRegistry.register_tools tools (_tools s) with
    | (Ok _, registry) => k tt (set_tools registry s)
    | (Raise e, registry) => ([], Failed (Python e), set_tools registry s)
    end.
Proof.
  unfold bind. destruct (ToolRegistry.register_tools tools (_tools s)) as [[[]|e] registry];
    [|reflexivity].
  now destruct (k tt (set_tools registry s)) as [[chunks end'] s'].
Qed.

(** What [initialize] does once the tools are registered. *)
Lemma initialize_run (s : service C) (tools : list value)
      (mcp' mcp'' : HttpMCPClient.state) (registry : ToolRegistry.registry) :
  HttpMCPClient.connect (_mcp s) = (Ok tt, mcp') ->
  HttpMCPClient.list_tools mcp' = (Ok tools, mcp'') ->
  ToolRegistry.register_tools tools (_tools s) = (Ok tt, registry) ->
  initialize s
  = ([],
     match unavailable (_ollama s) with
     | None => Done tt
     | Some message => Failed (OllamaError message)
     end,
     set_tools registry (set_mcp mcp'' s)).
Proof.
  intros Hconnect Hlist Hregister. unfold initialize.
  rewrite bind_mcp, Hconnect, bind_mcp. cbn [_mcp set_mcp]. rewrite Hlist, bind_register.
  cbn [_tools set_mcp]. rewrite Hregister. unfold verify_connection.
  cbn [_ollama set_tools set_mcp]. now destruct (unavailable (_ollama s)).
Qed.

Lemma lookup_combine (n : string) (names : list string) (tools : list value) :
  In n names ->
  List.length names = List.length tools ->
  ToolRegistry.lookup (VStr n) (combine (map VStr names) tools) <> None.
Proof.
  revert tools. induction names as [|m names IH]; intros [|tool tools] Hin Hlen;
    try discriminate; [destruct Hin|].
  cbn [map combine ToolRegistry.lookup ToolRegistry.key_eqb].
  destruct (String.eqb_spec n m) as [->|Hne]; [discriminate|].
  apply IH; [|now injection Hlen]. destruct Hin as [->|Hin]; [now destruct Hne|exact Hin].
Qed.

(** X30.  When the server answers the handshake and lists tools with
    distinct non-empty names, [initialize] on a service with an empty registry
    connects the client, lists the tools and registers them all: the registry
    holds the listed tools in the order of the server, each can be looked up
    under its name, and the two requests carry consecutive ids.  [initialize]
    then returns, or raises [OllamaError] when the LLM is not available; the
    client stays connected and the tools registered in that case too. *)
Theorem initialize_registers_tools
        (s : service C) (r1 r2 r3 : HttpMCPClient.Response) (rest : list HttpMCPClient.reply)
        (sid : string) (result1 : value) (envelope payload : dict)
        (items : list dict) (names : list string) :
  HttpMCPClient.replies (snd (_mcp s))
  = HttpMCPClient.Answer r1 :: HttpMCPClient.Answer r2 :: HttpMCPClient.Answer r3 :: rest ->
  HttpMCPClient.is_success (HttpMCPClient.status_code r1) = true ->
  HttpMCPClient.mcp_session_id_header r1 = Some sid ->
  sid <> ""%string ->
  HttpMCPClient._parse_sse_response (HttpMCPClient.text r1) = Ok result1 ->
  py_contains "error" result1 = Ok false ->
  HttpMCPClient._tools_cache (fst (_mcp s)) = None ->
  HttpMCPClient.is_success (HttpMCPClient.status_code r3) = true ->
  HttpMCPClient._parse_sse_response (HttpMCPClient.text r3) = Ok (VDict envelope) ->
  Dict.mem "error" envelope = false ->
  Dict.get "result" envelope = Some (VDict payload) ->
  Dict.get "tools" payload = Some (VList (map VDict items)) ->
  map (Dict.get "name") items = map (fun n => Some (VStr n)) names ->
  NoDup names ->
  ~ In ""%string names ->
  _tools s = [] ->
  fst (initialize s)
  = ([], match unavailable (_ollama s) with
         | None => Done tt
         | Some message => Failed (OllamaError message)
         end)
  /\ ToolRegistry.get_all_tools (_tools (snd (initialize s)))
     = map (fun tool =>
              VDict [("name", Dict.get_default "name" VNone tool);
                     ("description", Dict.get_default "description" (VStr "") tool);
                     ("inputSchema", Dict.get_default "inputSchema" (VDict []) tool)])
         items
  /\ (forall n, In n names -> ToolRegistry.tool_exists n (_tools (snd (initialize s))) = true)
  /\ HttpMCPClient.not_connected (fst (_mcp (snd (initialize s)))) = false
  /\ HttpMCPClient.request_ids (HttpMCPClient.posted (snd (_mcp (snd (initialize s)))))
     = HttpMCPClient.request_ids (HttpMCPClient.posted (snd (_mcp s)))
       ++ [HttpMCPClient._request_id (fst (_mcp s)) + 1;
           HttpMCPClient._request_id (fst (_mcp s)) + 2].
Proof.
  intros Hreplies Hok1 Hsid Hne Hparse1 Herr1 Hcache Hok3 Hparse3 Herr3 Hresult Htools
         Hnames Hdup Hempty Hregistry.
  destruct (_mcp s) as [c n] eqn:Hmcp. cbn [fst snd] in *.
  pose proof (HttpMCPClientFacts.connect_run c n r1 _ sid result1
                Hreplies Hok1 Hsid Hne Hparse1 Herr1) as Hconnect.
  cbn [tl] in Hconnect.
  match type of Hconnect with
  | _ = (_, (?c1, ?n1)) => set (c' := c1) in *; set (n' := n1) in *
  end.
  assert (Hconn : HttpMCPClient.not_connected c' = false).
  { unfold HttpMCPClient.not_connected, c', HttpMCPClient.no_session_id.
    cbn [HttpMCPClient._client HttpMCPClient._session_id].
    now rewrite (proj2 (String.eqb_neq sid "") Hne). }
  set (normal := fun tool : dict =>
                   [("name", Dict.get_default "name" VNone tool);
                    ("description", Dict.get_default "description" (VStr "") tool);
                    ("inputSchema", Dict.get_default "inputSchema" (VDict []) tool)]).
  assert (Hnamed : Forall (fun tool => Dict.mem "name" tool = true) items).
  { clear - Hnames. revert names Hnames.
    induction items as [|tool items IH]; intros [|m names] H; try discriminate;
      constructor.
    - cbn [map] in H. injection H as Hname _. unfold Dict.mem. now rewrite Hname.
    - cbn [map] in H. injection H as _ Hrest. exact (IH names Hrest). }
  pose proof (SessionFacts.list_tools_answered c' n' r3 rest envelope
                Hconn Hcache eq_refl Hok3 Hparse3 Herr3) as Hlist.
  assert (Hentries :
            obind (py_get "tools" (VList []) (Dict.get_default "result" (VDict []) envelope))
              (fun tools_data => obind (py_iter tools_data) HttpMCPClient.tool_entries)
            = Ok (map VDict (map normal items))).
  { unfold Dict.get_default at 1. rewrite Hresult.
    unfold py_get, Dict.get_default. rewrite Htools. cbn [obind py_iter].
    rewrite (SessionFacts.tool_entries_named items Hnamed). now rewrite map_map. }
  rewrite Hentries in Hlist.
  assert (Hnames' :
            map (Dict.get "name") (map normal items) = map (fun m => Some (VStr m)) names).
  { clear - Hnames. revert names Hnames.
    induction items as [|tool items IH]; intros [|m names] H; try discriminate;
      [reflexivity|].
    cbn [map] in *. injection H as Hname Hrest. f_equal; [|exact (IH names Hrest)].
    unfold normal. cbn [Dict.get String.eqb Ascii.eqb Bool.eqb].
    unfold Dict.get_default. now rewrite Hname. }
  pose proof (RegistryFacts.register_tools_distinct (map normal items) names []
                Hnames' Hdup Hempty (fun _ _ => eq_refl)) as Hregister.
  cbn [app] in Hregister.
  cbn [fst snd] in Hlist.
  rewrite (initialize_run s (map VDict (map normal items)) (c', n') _ _
             ltac:(rewrite Hmcp; exact Hconnect) Hlist
             ltac:(rewrite Hregistry; exact Hregister)).
  cbn [fst snd _tools _mcp set_tools set_mcp].
  split; [reflexivity|]. split; [|split; [|split]].
  - unfold ToolRegistry.get_all_tools.
    assert (Hlen : List.length (map VStr names) = List.length (map VDict (map normal items))).
    { apply (f_equal (@List.length _)) in Hnames'. now rewrite !length_map in *. }
    clear - Hlen. revert Hlen. generalize (map VStr names) as keys.
    rewrite map_map. induction items as [|tool items IH]; intros [|k keys] Hlen;
      try discriminate; [reflexivity|].
    cbn [map combine snd]. f_equal. apply IH. now injection Hlen.
  - intros m Hin. unfold ToolRegistry.tool_exists.
    destruct (ToolRegistry.lookup (VStr m) (combine (map VStr names)
                                              (map VDict (map normal items)))) eqn:Hlookup;
      [reflexivity|].
    exfalso. revert Hlookup. apply lookup_combine; [exact Hin|].
    apply (f_equal (@List.length _)) in Hnames'. now rewrite !length_map in *.
  - exact Hconn.
  - unfold HttpMCPClient.after_request. cbn [snd HttpMCPClient.posted].
    subst n' c'. cbn [HttpMCPClient.posted HttpMCPClient.server_url
                      HttpMCPClient._session_id HttpMCPClient._request_id].
    rewrite !HttpMCPClientFacts.request_ids_app.
    cbn [HttpMCPClient.request_ids HttpMCPClient.request_id HttpMCPClient.json
         HttpMCPClient.init_request HttpMCPClient.initialized_notification
         HttpMCPClient.tools_list_request Dict.get String.eqb Ascii.eqb Bool.eqb].
    rewrite <- app_assoc. cbn [app]. do 3 f_equal. lia.
Qed.

End WithInterfaces.
End OrchestrationFacts.

Module OrchestrationRuns.
Import HttpMCPClient Examples Scenarios Orchestration ChatScenarios OrchestrationFacts.

Ltac by_run := vm_compute; reflexivity.

Lemma invalid_arguments_stop_witness :
  @_handle_tool_calls Reference.builtins reference_serializer _ manager_conversation
    (VList [VDict garbled_call; VDict add_call])
    (chat_service (answered four_envelope) [])
  = ([Text "Error: Invalid tool arguments format"], Done tt,
     chat_service (answered four_envelope) []).
Proof.
  exact (@invalid_arguments_stop Reference.builtins reference_serializer _ manager_conversation
           garbled_call [("name", VStr "add"); ("arguments", VStr "{a: 2")] "{a: 2"
           [VDict add_call] (chat_service (answered four_envelope) [])
           ltac:(by_run) ltac:(by_run) ltac:(by_run)).
Defined.

Lemma tool_error_stops_witness :
  fst (@_handle_tool_calls Reference.builtins reference_serializer _ manager_conversation
         (VList [VDict add_call; VDict add_call])
         (chat_service (answered error_envelope) [llm_says "4"]))
  = ([Text "Error executing add: Unknown tool: nope"], Done tt).
Proof.
  rewrite (@tool_error_stops Reference.builtins reference_serializer _ manager_conversation
             add_call [("name", VStr "add");
                       ("arguments", VDict [("a", VStr "2"); ("b", VStr "2")])]
             [("a", VStr "2"); ("b", VStr "2")]
             [("error", VStr "Unknown tool: nope")] "add" (VStr "Unknown tool: nope")
             [VDict add_call] (chat_service (answered error_envelope) [llm_says "4"])
             (snd (@HttpMCPClient.call_tool Reference.builtins "add" [("a", VInt 2); ("b", VInt 2)]
                     (in_session, answered error_envelope)))
             ltac:(by_run) ltac:(by_run) ltac:(left; by_run) ltac:(by_run) ltac:(by_run)).
  reflexivity.
Defined.

Lemma tool_failure_continues_witness :
  fst (@_handle_tool_calls Reference.builtins reference_serializer _ manager_conversation
         (VList [VDict add_call; VDict garbled_call])
         (chat_service unreachable []))
  = ([Failure "Failed to execute tool: "
        (Python (ToolExecutionError "Failed to execute tool 'add': "
                   (Some (HTTPError "ConnectError"))));
      Text "Error: Invalid tool arguments format"],
     Done tt).
Proof.
  rewrite (@tool_failure_continues Reference.builtins reference_serializer _
             manager_conversation
             add_call [("name", VStr "add");
                       ("arguments", VDict [("a", VStr "2"); ("b", VStr "2")])]
             [("a", VStr "2"); ("b", VStr "2")] "add"
             (ToolExecutionError "Failed to execute tool 'add': "
                (Some (HTTPError "ConnectError")))
             [VDict garbled_call] (chat_service unreachable [])
             (snd (@HttpMCPClient.call_tool Reference.builtins "add" [("a", VInt 2); ("b", VInt 2)]
                     (in_session, unreachable)))
             ltac:(by_run) ltac:(by_run) ltac:(left; by_run) ltac:(by_run)).
  by_run.
Defined.

Lemma tool_result_forwarded_witness :
  fst (@_handle_tool_calls Reference.builtins reference_serializer _ manager_conversation
         (VList [VDict add_call])
         (chat_service (answered four_envelope) [llm_says "2 + 2 = 4"]))
  = ([Text "2 + 2 = 4"], Done tt)
  /\ asked (_ollama
              (snd (@_handle_tool_calls Reference.builtins reference_serializer _
                      manager_conversation (VList [VDict add_call])
                      (chat_service (answered four_envelope) [llm_says "2 + 2 = 4"]))))
     = [([VDict [("role", VStr "assistant");
                 ("content", VStr "");
                 ("tool_calls", VList [VDict add_call])];
          VDict [("role", VStr "tool");
                 ("content", VStr (Reference.json_dumps (VDict [("result", VInt 4)])))]],
         [VDict [("type", VStr "function");
                 ("function",
                   VDict [("name", VStr "add");
                          ("description", VStr "Add two numbers");
                          ("parameters", ToolRegistry.empty_parameters)])]])].
Proof.
  rewrite (proj1 (@tool_result_forwarded Reference.builtins reference_serializer _
                    manager_conversation
                    add_call [("name", VStr "add");
                              ("arguments", VDict [("a", VStr "2"); ("b", VStr "2")])]
                    [("a", VStr "2"); ("b", VStr "2")] [("result", VInt 4)] "add"
                    [VDict [("type", VStr "function");
                            ("function",
                              VDict [("name", VStr "add");
                                     ("description", VStr "Add two numbers");
                                     ("parameters", ToolRegistry.empty_parameters)])]]
                    (chat_service (answered four_envelope) [llm_says "2 + 2 = 4"])
                    (snd (@HttpMCPClient.call_tool Reference.builtins "add" [("a", VInt 2); ("b", VInt 2)]
                            (in_session, answered four_envelope)))
                    []
                    ltac:(by_run) ltac:(by_run) ltac:(left; by_run) ltac:(by_run)
                    ltac:(by_run) ltac:(by_run))
             [("model", VStr "llama3.1:8b");
              ("message", VDict [("role", VStr "assistant"); ("content", VStr "2 + 2 = 4")])]
             [("role", VStr "assistant"); ("content", VStr "2 + 2 = 4")] "2 + 2 = 4"%string
             ltac:(by_run) ltac:(by_run) ltac:(by_run) ltac:(discriminate)).
  split; reflexivity.
Defined.

Lemma arguments_coerced_on_wire_witness :
  posted (snd (_mcp (snd (@_handle_tool_calls Reference.builtins reference_serializer _
                            manager_conversation (VList [VDict add_call])
                            (chat_service unreachable [])))))
  = [{| url := "http://127.0.0.1:8000/mcp";
        json := HttpMCPClient.tools_call_request 2 "add" [("a", VInt 2); ("b", VInt 2)];
        mcp_session_id := Some "session-1" |}].
Proof.
  rewrite (@arguments_coerced_on_wire Reference.builtins reference_serializer _
             manager_conversation
             add_call [("name", VStr "add");
                       ("arguments", VDict [("a", VStr "2"); ("b", VStr "2")])]
             [("a", VStr "2"); ("b", VStr "2")] "add" (chat_service unreachable [])
             ltac:(by_run) ltac:(by_run) ltac:(left; by_run) ltac:(by_run)).
  by_run.
Defined.

Lemma one_chunk_per_tool_call_witness :
  (1 <= List.length
          (fst (fst (@_handle_tool_calls Reference.builtins reference_serializer _
                       manager_conversation (VList [VDict garbled_call; VDict add_call])
                       (chat_service unreachable [])))))%nat.
Proof.
  exact (proj1 (proj2 (@one_chunk_per_tool_call Reference.builtins reference_serializer _
                         manager_conversation [VDict garbled_call; VDict add_call]
                         (chat_service unreachable [])))
           ltac:(discriminate) ltac:(by_run)).
Defined.

Lemma process_message_answers_witness :
  snd (fst (@process_message Reference.builtins reference_serializer _ manager_conversation
              "What is 2 + 2?" (chat_service unreachable [])))
  = Done tt
  /\ fst (fst (@process_message Reference.builtins reference_serializer _
                 manager_conversation "What is 2 + 2?" (chat_service unreachable [])))
     <> [].
Proof.
  exact (proj1 (@process_message_answers Reference.builtins reference_serializer _
                  manager_conversation "What is 2 + 2?" (chat_service unreachable []))
           [VDict [("type", VStr "function");
                   ("function",
                     VDict [("name", VStr "add");
                            ("description", VStr "Add two numbers");
                            ("parameters", ToolRegistry.empty_parameters)])]]
           ltac:(by_run)).
Defined.

Lemma process_message_plain_answer_witness :
  fst (@process_message Reference.builtins reference_serializer _ manager_conversation
         "Hello" (chat_service unreachable [llm_says "Hi!"]))
  = ([Text "Hi!"], Done tt)
  /\ ConversationManager._messages
       (_conversation
          (snd (@process_message Reference.builtins reference_serializer _
                  manager_conversation "Hello" (chat_service unreachable [llm_says "Hi!"]))))
     = [said ConversationManager.USER "Hello" 0; said ConversationManager.ASSISTANT "Hi!" 1].
Proof.
  rewrite (proj1 (@process_message_plain_answer Reference.builtins reference_serializer _
                    manager_conversation "Hello"
                    (chat_service unreachable [llm_says "Hi!"])
                    [VDict [("type", VStr "function");
                            ("function",
                              VDict [("name", VStr "add");
                                     ("description", VStr "Add two numbers");
                                     ("parameters", ToolRegistry.empty_parameters)])]]
                    (said ConversationManager.USER "Hello" 0) []
                    ltac:(by_run) ltac:(by_run))
             [("model", VStr "llama3.1:8b");
              ("message", VDict [("role", VStr "assistant"); ("content", VStr "Hi!")])]
             [("role", VStr "assistant"); ("content", VStr "Hi!")] "Hi!"%string
             ltac:(by_run) ltac:(by_run) ltac:(left; by_run) ltac:(by_run)
             ltac:(discriminate)).
  split; reflexivity.
Defined.

Lemma initialize_registers_tools_witness :
  fst (@initialize Reference.builtins _ new_service) = ([], Done tt)
  /\ ToolRegistry.tool_exists "ping"
       (_tools (snd (@initialize Reference.builtins _ new_service))) = true
  /\ ToolRegistry.__len__ (_tools (snd (@initialize Reference.builtins _ new_service)))
     = 2%nat.
Proof.
  destruct (@initialize_registers_tools Reference.builtins _ new_service
              initialize_response
              {| status_code := 202; mcp_session_id_header := None; text := "" |}
              (response_of tools_envelope) [] "session-1"
              (VDict initialize_envelope) tools_envelope
              [("tools", VList (map VDict listed_tools))] listed_tools ["add"; "ping"]%string
              ltac:(by_run) ltac:(by_run) ltac:(by_run) ltac:(discriminate) ltac:(by_run)
              ltac:(by_run) ltac:(by_run) ltac:(by_run) ltac:(by_run) ltac:(by_run)
              ltac:(by_run) ltac:(by_run) ltac:(by_run)
              ltac:(repeat constructor; cbn; intuition discriminate)
              ltac:(cbn; intuition discriminate) ltac:(by_run))
    as (Hend & Hall & Hexists & _).
  split; [exact Hend|]. split; [apply Hexists; right; left; reflexivity|].
  unfold ToolRegistry.__len__. rewrite <- (length_map snd).
  change (map snd (_tools (snd (@initialize Reference.builtins _ new_service))))
    with (ToolRegistry.get_all_tools (_tools (snd (@initialize Reference.builtins _ new_service)))).
  rewrite Hall. reflexivity.
Defined.

End OrchestrationRuns.
